(** * BannerGenerator: the banner pipeline of [banner_generator.py]

    A shallow embedding of the class [BannerGenerator]: its session
    fields, the lazy model launch, the five pipeline stages and
    [execute], written in a state-and-exception monad over the session,
    the file system, the console and the log of calls made to the
    outside (the generative SDKs and the file system).

    - Strings are sequences of code points; [str.isalnum] and
      [str.isspace] are fixed on ASCII and read a table beyond it.
    - The text, image and edit services are functions of the calls
      made so far: they may answer the same request differently each
      time, and they may raise.
    - Files are a finite map from paths to images.  Paths are joined
      as [posixpath] does.  The two directories that the module creates
      when it is imported are not modelled: a write fails only when the
      environment says so.
    - An exception ends the run of a method and leaves the session,
      the files and the console as they are at that point. *)

From Stdlib Require Import String Ascii.
From Stdlib Require Import NArith ZArith List Lia.
From stdpp Require Import base option list gmap.

Open Scope N_scope.

(** ** Python strings

    A [str] is a sequence of Unicode code points.  Literals are written
    [py "..."]: the bytes of the literal are read as UTF-8. *)

Abbreviation pystr := (list N).

Fixpoint bytes_of (s : String.string) : list N :=
  match s with
  | String.EmptyString => []
  | String.String a r => Ascii.N_of_ascii a :: bytes_of r
  end.

Fixpoint utf8_decode (bs : list N) : pystr :=
  match bs with
  | [] => []
  | b0 :: r0 =>
    if b0 <? 128 then b0 :: utf8_decode r0
    else match r0 with
    | [] => [b0]
    | b1 :: r1 =>
      if b0 <? 224 then ((b0 - 192) * 64 + (b1 - 128)) :: utf8_decode r1
      else match r1 with
      | [] => [b0; b1]
      | b2 :: r2 =>
        if b0 <? 240
        then ((b0 - 224) * 4096 + (b1 - 128) * 64 + (b2 - 128)) :: utf8_decode r2
        else match r2 with
        | [] => [b0; b1; b2]
        | b3 :: r3 =>
          ((b0 - 240) * 262144 + (b1 - 128) * 4096 + (b2 - 128) * 64 + (b3 - 128))
            :: utf8_decode r3
        end
      end
    end
  end.

Definition py (s : String.string) : pystr := utf8_decode (bytes_of s).

(** [s[start:stop]] with Python's treatment of negative and
    out-of-range bounds; [None] is an omitted bound. *)
Definition slice_index (n : nat) (i : Z) : nat :=
  if (i <? 0)%Z then Z.to_nat (Z.max (i + Z.of_nat n) 0)
  else Nat.min (Z.to_nat i) n.

Definition py_slice (start stop : option Z) (s : pystr) : pystr :=
  let n := length s in
  let lo := match start with Some i => slice_index n i | None => 0%nat end in
  let hi := match stop with Some i => slice_index n i | None => n end in
  take (hi - lo) (drop lo s).

(** [str.isalnum] and [str.isspace] on one code point.  On ASCII they
    are fixed; beyond it they read the Unicode character database of the
    Python runtime, which is taken as a pair of tables. *)
Definition ascii_isalnum (c : N) : bool :=
  ((48 <=? c) && (c <=? 57)) || ((65 <=? c) && (c <=? 90))
  || ((97 <=? c) && (c <=? 122)).

Definition ascii_isspace (c : N) : bool :=
  ((9 <=? c) && (c <=? 13)) || ((28 <=? c) && (c <=? 32)).

Record unicode_db := {
  ucd_alnum : N -> bool;
  ucd_space : N -> bool
}.

Definition isalnum (db : unicode_db) (c : N) : bool :=
  if c <? 128 then ascii_isalnum c else ucd_alnum db c.

Definition isspace (db : unicode_db) (c : N) : bool :=
  if c <? 128 then ascii_isspace c else ucd_space db c.

Fixpoint lstrip (db : unicode_db) (s : pystr) : pystr :=
  match s with
  | [] => []
  | c :: r => if isspace db c then lstrip db r else s
  end.

Definition rstrip (db : unicode_db) (s : pystr) : pystr :=
  rev (lstrip db (rev s)).

Definition strip (db : unicode_db) (s : pystr) : pystr :=
  rstrip db (lstrip db s).

(** [s.replace(a, b)] for one-character [a] and [b]. *)
Definition replace (a b : N) (s : pystr) : pystr :=
  map (fun c => if c =? a then b else c) s.

Definition startswith (c : N) (s : pystr) : bool :=
  match s with
  | c' :: _ => c' =? c
  | [] => false
  end.

Definition endswith (c : N) (s : pystr) : bool := startswith c (rev s).

(** [os.path.join(a, b)] of [posixpath]. *)
Definition os_path_join (a b : pystr) : pystr :=
  if startswith 47 b then b
  else if (match a with [] => true | _ => false end) || endswith 47 a then a ++ b
  else a ++ py "/" ++ b.

(** The file name of the final image: lines 194-196 of [fix_image]. *)
Definition output_filename (db : unicode_db) (topic : pystr) : pystr :=
  let kept := List.filter (fun e => isalnum db e || (e =? 32)) topic in
  replace 32 95 (strip db (py_slice None (Some 50%Z) kept)) ++ py ".jpg".

Definition output_img_path (db : unicode_db) (topic : pystr) : pystr :=
  os_path_join (py "images/output") (output_filename db topic).

Definition temp_img_path : pystr := py "images/temp/temp.jpg".

(** ** Data model *)

(** What a Python statement can raise.  [Fault] stands for whatever an
    SDK call or the operating system raises. *)
Inductive fault :=
| KeyError (key : pystr)
| TypeError
| AttributeError
| IndexError
| FileNotFoundError (path : pystr)
| Fault (code : N).

(** An image: its PIL mode and its picture data. *)
Record image := { mode : pystr; pixels : N }.

(** The [Literal] type of [aspect_ratio]. *)
Inductive ratio := R1_1 | R9_16 | R16_9 | R4_3 | R3_4.

Definition ratio_str (r : ratio) : pystr :=
  match r with
  | R1_1 => py "1:1"
  | R9_16 => py "9:16"
  | R16_9 => py "16:9"
  | R4_3 => py "4:3"
  | R3_4 => py "3:4"
  end.

(** Model handles: [genai.GenerativeModel(name)] and
    [ImageGenerationModel.from_pretrained(name)]. *)
Inductive text_handle := GenerativeModel (model_name : pystr).
Inductive image_handle := ImageGenerationModel (model_name : pystr).

(** The argument of [generate_content]: a string, or a list of strings
    and images. *)
Inductive part := Text (s : pystr) | Picture (i : image).
Inductive content := Prompt (s : pystr) | Parts (l : list part).

(** The response of [generate_content]: reading [.text] gives the text
    or raises. *)
Record response := { text : fault + pystr }.

(** The response of [generate_images] and [edit_image]. *)
Record image_response := { generated : list image }.

(** Calls that leave the program, as logged in the trace with what they
    returned or raised.  Reading the text of a reply is one of them: the
    SDK raises there when the reply holds no text. *)
Inductive call :=
| VertexaiInit (project location : pystr)
| GenaiConfigure (api_key : pystr)
| FromPretrained (model_name : pystr)
| GenerateContent (m : text_handle) (c : content)
| ResponseText (r : response)
| GenerateImages (m : image_handle) (prompt : pystr) (aspect_ratio : option ratio)
| EditImage (m : image_handle) (base_image : image)
            (prompt edit_mode mask_mode : pystr)
| PilOpen (path : pystr)
| LoadFromFile (location : pystr)
| OsRemove (path : pystr)
| Save (i : image) (path : pystr).

Inductive answer :=
| NoValue
| TextOf (s : pystr)
| ResponseOf (r : response)
| ImagesOf (r : image_response)
| ImageOf (i : image).

Definition event : Type := call * (fault + answer).

(** The session: the fields of [BannerGenerator]. *)
Record session := {
  CONFIGS : gmap pystr pystr;
  topic : pystr;
  images : option (list pystr);
  aspect_ratio : option ratio;
  text_model : pystr;
  image_model : pystr;
  edit_model : pystr;
  pm : option text_handle;
  im : option image_handle;
  em : option image_handle;
  text_v0 : option pystr;
  text_v1 : option pystr;
  text_v2 : option pystr;
  text_v3 : option pystr;
  img_response_v1 : option image_response;
  img_response_v2 : option image_response;
  img_response_v3 : option image_response;
  launch_state : bool
}.

(** [BannerGenerator(CONFIGS=c, topic=t, images=i, aspect_ratio=a)]. *)
Definition new_session (c : gmap pystr pystr) (t : pystr)
    (i : option (list pystr)) (a : option ratio) : session :=
  {| CONFIGS := c; topic := t; images := i; aspect_ratio := a;
     text_model := py "gemini-1.5-flash";
     image_model := py "imagen-3.0-generate-001";
     edit_model := py "imagegeneration@006";
     pm := None; im := None; em := None;
     text_v0 := None; text_v1 := None; text_v2 := None; text_v3 := None;
     img_response_v1 := None; img_response_v2 := None;
     img_response_v3 := None; launch_state := false |}.

Definition set_pm (v : option text_handle) (st : session) : session :=
  {| CONFIGS := CONFIGS st; topic := topic st; images := images st;
     aspect_ratio := aspect_ratio st; text_model := text_model st;
     image_model := image_model st; edit_model := edit_model st; pm := v;
     im := im st; em := em st; text_v0 := text_v0 st; text_v1 := text_v1 st;
     text_v2 := text_v2 st; text_v3 := text_v3 st;
     img_response_v1 := img_response_v1 st;
     img_response_v2 := img_response_v2 st;
     img_response_v3 := img_response_v3 st;
     launch_state := launch_state st |}.

Definition set_im (v : option image_handle) (st : session) : session :=
  {| CONFIGS := CONFIGS st; topic := topic st; images := images st;
     aspect_ratio := aspect_ratio st; text_model := text_model st;
     image_model := image_model st; edit_model := edit_model st; pm := pm st;
     im := v; em := em st; text_v0 := text_v0 st; text_v1 := text_v1 st;
     text_v2 := text_v2 st; text_v3 := text_v3 st;
     img_response_v1 := img_response_v1 st;
     img_response_v2 := img_response_v2 st;
     img_response_v3 := img_response_v3 st;
     launch_state := launch_state st |}.

Definition set_em (v : option image_handle) (st : session) : session :=
  {| CONFIGS := CONFIGS st; topic := topic st; images := images st;
     aspect_ratio := aspect_ratio st; text_model := text_model st;
     image_model := image_model st; edit_model := edit_model st; pm := pm st;
     im := im st; em := v; text_v0 := text_v0 st; text_v1 := text_v1 st;
     text_v2 := text_v2 st; text_v3 := text_v3 st;
     img_response_v1 := img_response_v1 st;
     img_response_v2 := img_response_v2 st;
     img_response_v3 := img_response_v3 st;
     launch_state := launch_state st |}.

Definition set_text_v0 (v : option pystr) (st : session) : session :=
  {| CONFIGS := CONFIGS st; topic := topic st; images := images st;
     aspect_ratio := aspect_ratio st; text_model := text_model st;
     image_model := image_model st; edit_model := edit_model st; pm := pm st;
     im := im st; em := em st; text_v0 := v; text_v1 := text_v1 st;
     text_v2 := text_v2 st; text_v3 := text_v3 st;
     img_response_v1 := img_response_v1 st;
     img_response_v2 := img_response_v2 st;
     img_response_v3 := img_response_v3 st;
     launch_state := launch_state st |}.

Definition set_text_v1 (v : option pystr) (st : session) : session :=
  {| CONFIGS := CONFIGS st; topic := topic st; images := images st;
     aspect_ratio := aspect_ratio st; text_model := text_model st;
     image_model := image_model st; edit_model := edit_model st; pm := pm st;
     im := im st; em := em st; text_v0 := text_v0 st; text_v1 := v;
     text_v2 := text_v2 st; text_v3 := text_v3 st;
     img_response_v1 := img_response_v1 st;
     img_response_v2 := img_response_v2 st;
     img_response_v3 := img_response_v3 st;
     launch_state := launch_state st |}.

Definition set_text_v2 (v : option pystr) (st : session) : session :=
  {| CONFIGS := CONFIGS st; topic := topic st; images := images st;
     aspect_ratio := aspect_ratio st; text_model := text_model st;
     image_model := image_model st; edit_model := edit_model st; pm := pm st;
     im := im st; em := em st; text_v0 := text_v0 st; text_v1 := text_v1 st;
     text_v2 := v; text_v3 := text_v3 st;
     img_response_v1 := img_response_v1 st;
     img_response_v2 := img_response_v2 st;
     img_response_v3 := img_response_v3 st;
     launch_state := launch_state st |}.

Definition set_text_v3 (v : option pystr) (st : session) : session :=
  {| CONFIGS := CONFIGS st; topic := topic st; images := images st;
     aspect_ratio := aspect_ratio st; text_model := text_model st;
     image_model := image_model st; edit_model := edit_model st; pm := pm st;
     im := im st; em := em st; text_v0 := text_v0 st; text_v1 := text_v1 st;
     text_v2 := text_v2 st; text_v3 := v;
     img_response_v1 := img_response_v1 st;
     img_response_v2 := img_response_v2 st;
     img_response_v3 := img_response_v3 st;
     launch_state := launch_state st |}.

Definition set_img_response_v1 (v : option image_response) (st : session) : session :=
  {| CONFIGS := CONFIGS st; topic := topic st; images := images st;
     aspect_ratio := aspect_ratio st; text_model := text_model st;
     image_model := image_model st; edit_model := edit_model st; pm := pm st;
     im := im st; em := em st; text_v0 := text_v0 st; text_v1 := text_v1 st;
     text_v2 := text_v2 st; text_v3 := text_v3 st; img_response_v1 := v;
     img_response_v2 := img_response_v2 st;
     img_response_v3 := img_response_v3 st;
     launch_state := launch_state st |}.

Definition set_img_response_v2 (v : option image_response) (st : session) : session :=
  {| CONFIGS := CONFIGS st; topic := topic st; images := images st;
     aspect_ratio := aspect_ratio st; text_model := text_model st;
     image_model := image_model st; edit_model := edit_model st; pm := pm st;
     im := im st; em := em st; text_v0 := text_v0 st; text_v1 := text_v1 st;
     text_v2 := text_v2 st; text_v3 := text_v3 st;
     img_response_v1 := img_response_v1 st; img_response_v2 := v;
     img_response_v3 := img_response_v3 st;
     launch_state := launch_state st |}.

Definition set_img_response_v3 (v : option image_response) (st : session) : session :=
  {| CONFIGS := CONFIGS st; topic := topic st; images := images st;
     aspect_ratio := aspect_ratio st; text_model := text_model st;
     image_model := image_model st; edit_model := edit_model st; pm := pm st;
     im := im st; em := em st; text_v0 := text_v0 st; text_v1 := text_v1 st;
     text_v2 := text_v2 st; text_v3 := text_v3 st;
     img_response_v1 := img_response_v1 st;
     img_response_v2 := img_response_v2 st; img_response_v3 := v;
     launch_state := launch_state st |}.

Definition set_launch_state (v : bool) (st : session) : session :=
  {| CONFIGS := CONFIGS st; topic := topic st; images := images st;
     aspect_ratio := aspect_ratio st; text_model := text_model st;
     image_model := image_model st; edit_model := edit_model st; pm := pm st;
     im := im st; em := em st; text_v0 := text_v0 st; text_v1 := text_v1 st;
     text_v2 := text_v2 st; text_v3 := text_v3 st;
     img_response_v1 := img_response_v1 st;
     img_response_v2 := img_response_v2 st;
     img_response_v3 := img_response_v3 st; launch_state := v |}.

(** The program state: the session object, the files, the log of calls
    and the console. *)
Record state := {
  self : session;
  fs : gmap pystr image;
  trace : list event;
  stdout : list pystr
}.

Definition with_self (f : session -> session) (s : state) : state :=
  {| self := f (self s); fs := fs s; trace := trace s; stdout := stdout s |}.

Definition with_fs (f : gmap pystr image -> gmap pystr image) (s : state) : state :=
  {| self := self s; fs := f (fs s); trace := trace s; stdout := stdout s |}.

Definition log (c : call) (o : fault + answer) (s : state) : state :=
  {| self := self s; fs := fs s; trace := trace s ++ [(c, o)];
     stdout := stdout s |}.

Definition write_line (line : pystr) (s : state) : state :=
  {| self := self s; fs := fs s; trace := trace s;
     stdout := stdout s ++ [line] |}.

(** What the program does not decide: the Unicode tables, PIL's
    conversion, the replies of the three services given the calls made
    so far, and, for the other calls (setting up the SDKs, reading,
    writing and deleting files), whether they fail for a reason of
    their own. *)
Record environment := {
  ucd : unicode_db;
  pil_convert : image -> pystr -> image;
  fails : list event -> call -> option fault;
  text_service : list event -> text_handle -> content -> fault + response;
  image_service :
    list event -> image_handle -> pystr -> option ratio -> fault + image_response;
  edit_service :
    list event -> image_handle -> image -> pystr -> pystr -> pystr ->
    fault + image_response
}.

(** ** The monad: state and exceptions *)

Definition M (A : Type) : Type := state -> (fault + A) * state.

Definition ret {A} (a : A) : M A := fun s => (inr a, s).

Definition bind {A B} (m : M A) (k : A -> M B) : M B :=
  fun s =>
    match m s with
    | (inl e, s') => (inl e, s')
    | (inr a, s') => k a s'
    end.

Definition raise {A} (e : fault) : M A := fun s => (inl e, s).

Declare Scope monad_scope.
Delimit Scope monad_scope with monad.
Bind Scope monad_scope with M.

Notation "'let*' x := m 'in' k" := (bind m (fun x => k))
  (at level 10, x name, m at level 100, k at level 200) : monad_scope.
Notation "m ;; k" := (bind m (fun _ => k))
  (at level 100, k at level 200, right associativity) : monad_scope.

Definition get_self : M session := fun s => (inr (self s), s).

Definition assign (f : session -> session) : M unit :=
  fun s => (inr tt, with_self f s).

Definition print (line : pystr) : M unit :=
  fun s => (inr tt, write_line line s).

(** [o.attribute] on a field that may hold [None]. *)
Definition attr {A} (o : option A) : M A :=
  match o with
  | Some a => ret a
  | None => raise AttributeError
  end.

(** [{value}] in an f-string. *)
Definition fmt (o : option pystr) : pystr := default (py "None") o.

(** [response.images[0]]. *)
Definition first_image (r : image_response) : M image :=
  match generated r with
  | i :: _ => ret i
  | [] => raise IndexError
  end.

Definition outcome {A} (wrap : A -> answer) (r : fault + A) : fault + answer :=
  match r with
  | inl e => inl e
  | inr a => inr (wrap a)
  end.

(** A call to the outside: it is logged with what it returned or
    raised. *)
Definition perform {A} (c : call) (wrap : A -> answer)
    (run : state -> (fault + A) * state) : M A :=
  fun s => let '(r, s') := run s in (r, log c (outcome wrap r) s').

(** ** Prompts *)

(** The prompts, as the f-strings of the source build them.  Line 83. *)
Definition analysis_prompt (topic : pystr) : pystr :=
  py "Deep analyze text from retail advertising, marketing psychology, and thoroughly researched marketing studies perspective: " ++ topic ++ py "
        Extract the following information:
        0. Product: Product name, brand and supplier, logo, tagline, size, packaging if available
        1. Objective: 1 word for primary goal of the banner. Example - Awareness, Engagement, Conversion, Branding
        2. Festival: Event or occasion it may be tied to. Example - Christmas, Diwali, Black Friday, Summer Sale, New Year, Generic
        3. Headline: Suggest a main text that captures attention. Example - Discover [product] for [festival], Shop now and save!, Limited time offer, Innovate your life with [product]
        4. Subheadline: Optional additional supporting information to clarify the offer. Example - Get 50% off until [date], Exclusive deal for festive season, Hurry offer ends soon
        5. CTA: Add a call to action. Example - Buy now, Shop the collection, Discover More, Sign up today
        6. Color Scheme: Use color palette based on audience, occasion, or product tone. Example - Red & Gold (Festive, Urgency), Blue & White (Trust, Calm), Green & Brown (Eco-friendly, Natural), Black & White (Elegant, Minimal)
        7. Promotional offer: Suggest 1 best promotional offer. Example - MAX ₹99 OFF, UP TO 60% OFF, UNDER ₹999, MIN ₹10 OFF, MIN 20% OFF, STARTS @₹99, FLAT ₹100 OFF, FLAT 20% OFF, ₹499 STORE, BUY 2 GET 1 FREE
        8. Background color gradient: Dynamic color generation to match overall look and feel
        9. Background theme: Festival oriented or generic if no festival
        ".

(** Line 115. *)
Definition fill_prompt (text_v2 : pystr) : pystr :=
  py "Task: Fill in the values in this json: " ++ text_v2 ++ py "
        Guidelines:
        1. It will be used to generate an ads banner.
        2. Ensure it has all details pair-wise meticulously captured.
        3. All unknown/missing/unprovided variables are replaced with the attributes of the most probable shopper for that product.
        4. Recheck and identify all ambiguity or any text that leads to uncertainty.
        5. Replace all uncertainty with targeted values that make the most sense for the given product.
        6. Quantify everything possible, like high, medium, and lows to percentage values based on marketing and psychometric research studies.
        7. All KPIs and qualitative measures are to be used subcontextually only. Remove any details about statistical testing or names of any performance KPIs.
        8. Avoid sentences and use only necessary keywords.
        9. Remove all redundant key-value pairs.
        ".

(** Line 132. *)
Definition image_prompt (text_v3 : pystr) : pystr :=
  py "Realistic, subcontextually implied qualitative attributes inspired, excellent image quality ad capturing every detail in json:" ++ text_v3.

(** Line 151. *)
Definition critique_prompt (text_v3 : pystr) : pystr :=
  py "Be direct. Quality check the banner out of 10 on:
        1. Promotional offer present as per instructions below
        2. Ensure ALL texts pass grammatical checks
        3. Color pallette as per instructions below
        4. Occassion or festival theme is present as per instructions below

        ONLY USE INFORMATION FROM " ++ text_v3 ++ py ". Don't DO NOT make up colors, promo or occasion. Make sure the promo and color pallete is followed as per above instructions.

        Precisely point out errors and corresponding actions to fix the image where score is below 8.
        Do not output anything about elements that need no change.
        ".

(** Line 73. *)
Definition extraction_prompt : pystr :=
  py "Examine the set of images to extract information about the product (name, logo) in less than 80 words.".

(** Line 99. *)
Definition consolidation_prompt (text_v0 : pystr) : pystr :=
  py "Respond concisely and summarize in Python dictionary format only this: "
  ++ text_v0.

(** Line 108. *)
Definition scrapper_prompt (text_v1 : pystr) : pystr :=
  py "Respond concisely by scrapping all unavailable information in Python dictionary format only this: "
  ++ text_v1.

(** Lines 169 and 183. *)
Definition repair_prompt (lags : pystr) : pystr :=
  py "Realistic, subcontextually implied qualitative attributes inspired, excellent image quality ad by: "
  ++ lags.

Definition repair_again_prompt (lags : pystr) : pystr :=
  py "Realistic, subcontextually implied qualitative attributes inspired, excellent image quality ad edit by: "
  ++ lags.

(** ** The pipeline *)

Section Pipeline.

Context (env : environment).

Open Scope monad_scope.

(** *** Calls to the outside *)

(** A call fails when the environment says so, before it has any
    effect. *)
Definition guard {A} (c : call) (run : state -> (fault + A) * state)
    : state -> (fault + A) * state :=
  fun s =>
    match fails env (trace s) c with
    | Some e => (inl e, s)
    | None => run s
    end.

Definition sdk (c : call) : M unit :=
  perform c (fun _ => NoValue) (guard c (fun s => (inr tt, s))).

Definition from_pretrained (model_name : pystr) : M image_handle :=
  sdk (FromPretrained model_name) ;; ret (ImageGenerationModel model_name).

Definition generate_content (m : text_handle) (c : content) : M response :=
  perform (GenerateContent m c) ResponseOf
    (fun s => (text_service env (trace s) m c, s)).

Definition response_text (r : response) : M pystr :=
  perform (ResponseText r) TextOf (fun s => (text r, s)).

Definition generate_images (m : image_handle) (prompt : pystr)
    (ar : option ratio) : M image_response :=
  perform (GenerateImages m prompt ar) ImagesOf
    (fun s => (image_service env (trace s) m prompt ar, s)).

Definition edit_image (m : image_handle) (base_image : image)
    (prompt edit_mode mask_mode : pystr) : M image_response :=
  perform (EditImage m base_image prompt edit_mode mask_mode) ImagesOf
    (fun s =>
       (edit_service env (trace s) m base_image prompt edit_mode mask_mode, s)).

Definition read_file (c : call) (path : pystr) : M image :=
  perform c ImageOf
    (guard c (fun s =>
       match fs s !! path with
       | Some i => (inr i, s)
       | None => (inl (FileNotFoundError path), s)
       end)).

Definition PIL_Image_open (path : pystr) : M image :=
  read_file (PilOpen path) path.

Definition load_from_file (location : pystr) : M image :=
  read_file (LoadFromFile location) location.

Definition os_path_exists (path : pystr) : M bool :=
  fun s => (inr (bool_decide (is_Some (fs s !! path))), s).

Definition os_remove (path : pystr) : M unit :=
  perform (OsRemove path) (fun _ => NoValue)
    (guard (OsRemove path) (fun s =>
       match fs s !! path with
       | Some _ => (inr tt, with_fs (delete path) s)
       | None => (inl (FileNotFoundError path), s)
       end)).

Definition save (i : image) (path : pystr) : M unit :=
  perform (Save i path) (fun _ => NoValue)
    (guard (Save i path) (fun s => (inr tt, with_fs (insert path i) s))).

(** [self.CONFIGS[key]]. *)
Definition config (key : pystr) : M pystr :=
  let* st := get_self in
  match CONFIGS st !! key with
  | Some v => ret v
  | None => raise (KeyError key)
  end.

(** *** [__launch] *)
Definition __launch : M unit :=
  let* st := get_self in
  if negb (launch_state st) then
    let* project := config (py "PROJECT_ID") in
    let* location := config (py "LOCATION") in
    sdk (VertexaiInit project location) ;;
    let* api_key := config (py "API_KEY") in
    sdk (GenaiConfigure api_key) ;;
    let* st := get_self in
    assign (set_pm (Some (GenerativeModel (text_model st)))) ;;
    let* st := get_self in
    let* h := from_pretrained (image_model st) in
    assign (set_im (Some h)) ;;
    let* st := get_self in
    let* h := from_pretrained (edit_model st) in
    assign (set_em (Some h)) ;;
    assign (set_launch_state true) ;;
    print (py "Model Launch successful!")
  else ret tt.

(** *** [load_images] *)
Fixpoint open_each (paths : list pystr) (loaded_images : list image)
    : M (list image) :=
  match paths with
  | [] => ret loaded_images
  | image_path :: rest =>
    let* img := PIL_Image_open image_path in
    let img :=
      if decide (mode img = py "RGBA") then pil_convert env img (py "RGB")
      else img in
    open_each rest (loaded_images ++ [img])
  end.

Definition load_images : M (list image) :=
  __launch ;;
  let* st := get_self in
  match images st with
  | Some paths => open_each paths []
  | None => raise TypeError
  end.

(** *** [extract_image_information] *)
Definition extract_image_information : M pystr :=
  let* images := load_images in
  let model_input := Text extraction_prompt :: map Picture images in
  let* st := get_self in
  let* m := attr (pm st) in
  let* response := generate_content m (Parts model_input) in
  print (py "Attached images examined!") ;;
  response_text response.

(** Truth value of [self.images] and of [self.aspect_ratio]. *)
Definition nonempty {A} (o : option (list A)) : bool :=
  match o with
  | Some (_ :: _) => true
  | _ => false
  end.

Definition ratio_given (o : option ratio) : bool :=
  nonempty (ratio_str <$> o).

(** *** [extract_information] *)
Definition extract_information : M unit :=
  __launch ;;
  let* st := get_self in
  let out_text := analysis_prompt (topic st) in
  let* m := attr (pm st) in
  let* response := generate_content m (Prompt out_text) in
  let* t := response_text response in
  assign (set_text_v0 (Some t)) ;;
  let* st := get_self in
  let out_text := consolidation_prompt (fmt (text_v0 st)) in
  let* out_text :=
    if nonempty (images st) then
      let* image_info := extract_image_information in
      print (py "Product insights: " ++ image_info) ;;
      ret (out_text ++ py " Product insights: " ++ image_info)
    else ret out_text in
  let* st := get_self in
  let* m := attr (pm st) in
  let* response := generate_content m (Prompt out_text) in
  let* t := response_text response in
  assign (set_text_v1 (Some (py_slice (Some 9%Z) (Some (-5)%Z) t))) ;;
  let* st := get_self in
  let out_text := scrapper_prompt (fmt (text_v1 st)) in
  let* m := attr (pm st) in
  let* response := generate_content m (Prompt out_text) in
  let* t := response_text response in
  assign (set_text_v2 (Some t)) ;;
  print (py "Information collection complete!").

(** *** [create_text_prompt] *)
Definition create_text_prompt : M unit :=
  let* st := get_self in
  let out_text := fill_prompt (fmt (text_v2 st)) in
  let* m := attr (pm st) in
  let* response := generate_content m (Prompt out_text) in
  let* t := response_text response in
  assign (set_text_v3 (Some t)) ;;
  print (py "Information processed!").

(** *** [generate_image] *)
Definition generate_image : M pystr :=
  let* st := get_self in
  let prompt := image_prompt (fmt (text_v3 st)) in
  let* m := attr (im st) in
  let* response :=
    if ratio_given (aspect_ratio st)
    then generate_images m prompt (aspect_ratio st)
    else generate_images m prompt None in
  assign (set_img_response_v1 (Some response)) ;;
  let* present := os_path_exists temp_img_path in
  (if present then os_remove temp_img_path else ret tt) ;;
  let* st := get_self in
  let* r := attr (img_response_v1 st) in
  let* i := first_image r in
  save i temp_img_path ;;
  print (py "Image v1 generated!") ;;
  ret temp_img_path.

(** *** [identify_lags] *)
Definition identify_lags : M pystr :=
  let* st := get_self in
  let prompt := critique_prompt (fmt (text_v3 st)) in
  let* m := attr (pm st) in
  let* img := PIL_Image_open temp_img_path in
  let* response := generate_content m (Parts [Text prompt; Picture img]) in
  let* t := response_text response in
  print (py "Lags identified: " ++ t) ;;
  response_text response.

(** *** [fix_image] *)
Definition fix_image (retest : bool) : M pystr :=
  let* lags := identify_lags in
  let prompt := repair_prompt lags in
  let* base_image := load_from_file temp_img_path in
  let* st := get_self in
  let* m := attr (em st) in
  let* response :=
    edit_image m base_image prompt (py "inpainting-insert") (py "background") in
  assign (set_img_response_v2 (Some response)) ;;
  let* st := get_self in
  let* r := attr (img_response_v2 st) in
  let* i := first_image r in
  save i temp_img_path ;;
  print (py "Image v2 generated!") ;;
  (if retest then
     let* lags := identify_lags in
     let prompt := repair_again_prompt lags in
     let* st := get_self in
     let* m := attr (em st) in
     let* base_image := load_from_file temp_img_path in
     let* response :=
       edit_image m base_image prompt (py "inpainting-insert") (py "background") in
     assign (set_img_response_v3 (Some response)) ;;
     let* st := get_self in
     let* r := attr (img_response_v3 st) in
     let* i := first_image r in
     save i temp_img_path ;;
     print (py "Image v3 generated!")
   else ret tt) ;;
  let* st := get_self in
  let path := output_img_path (ucd env) (topic st) in
  let* r := attr (img_response_v2 st) in
  let* i := first_image r in
  save i path ;;
  print (py "Final image saved as: " ++ path) ;;
  ret path.

(** *** [execute] *)
Definition execute (QC : bool) : M pystr :=
  extract_information ;;
  create_text_prompt ;;
  generate_image ;;
  let* final_image_path := fix_image QC in
  ret final_image_path.

End Pipeline.

(** ** The vocabulary of the statements *)

(** *** Calls

    The calls of a run are the events it appends to the trace.  The
    classes below pick out the calls of [__launch], the requests to the
    image service, the edits, the calls that write or delete a file,
    and the calls that describe images (opening one through PIL and
    sending images to the text service). *)

Definition is_setup (ev : event) : bool :=
  match ev.1 with
  | VertexaiInit _ _ | GenaiConfigure _ | FromPretrained _ => true
  | _ => false
  end.

Definition is_generate (ev : event) : bool :=
  match ev.1 with
  | GenerateImages _ _ _ => true
  | _ => false
  end.

Definition is_edit (ev : event) : bool :=
  match ev.1 with
  | EditImage _ _ _ _ _ => true
  | _ => false
  end.

Definition is_write (ev : event) : bool :=
  match ev.1 with
  | OsRemove _ | Save _ _ => true
  | _ => false
  end.

Definition is_describe (ev : event) : bool :=
  match ev.1 with
  | PilOpen _ | GenerateContent _ (Parts _) => true
  | _ => false
  end.

(** An image as [load_images] hands it on (lines 64-65), and the calls
    that open the attached images and ask for their description. *)
Definition as_rgb (env : environment) (img : image) : image :=
  if decide (mode img = py "RGBA") then pil_convert env img (py "RGB") else img.

Definition open_calls (paths : list pystr) (raws : list image) : list event :=
  zip_with (fun path raw => (PilOpen path, inr (ImageOf raw))) paths raws.

Definition describe_calls (env : environment) (m : text_handle)
    (paths : list pystr) (raws : list image) (rsp : response) (info : pystr)
    : list event :=
  open_calls paths raws ++
  [ (GenerateContent m
       (Parts (Text extraction_prompt :: map Picture (map (as_rgb env) raws))),
     inr (ResponseOf rsp));
    (ResponseText rsp, inr (TextOf info)) ].

(** The calls of one critique ([identify_lags]) and of one repair (an
    edit of the temporary image, saved over it). *)
Definition critique_calls (m : text_handle) (prompt : pystr) (img : image)
    (rsp : response) (lags : pystr) : list event :=
  [ (PilOpen temp_img_path, inr (ImageOf img));
    (GenerateContent m (Parts [Text prompt; Picture img]), inr (ResponseOf rsp));
    (ResponseText rsp, inr (TextOf lags));
    (ResponseText rsp, inr (TextOf lags)) ].

Definition repair_calls (m : image_handle) (base_image : image) (prompt : pystr)
    (r : image_response) (i : image) : list event :=
  [ (LoadFromFile temp_img_path, inr (ImageOf base_image));
    (EditImage m base_image prompt (py "inpainting-insert") (py "background"),
     inr (ImagesOf r));
    (Save i temp_img_path, inr NoValue) ].

(** *** Sessions

    The session after a first [__launch], [n] invocations of
    [__launch] in a row, and the declared inputs of a session, which no
    method assigns. *)

Definition launched (st : session) : session :=
  set_launch_state true
    (set_em (Some (ImageGenerationModel (edit_model st)))
       (set_im (Some (ImageGenerationModel (image_model st)))
          (set_pm (Some (GenerativeModel (text_model st))) st))).

Fixpoint launch_times (env : environment) (n : nat) : M unit :=
  match n with
  | O => ret tt
  | S n => bind (__launch env) (fun _ => launch_times env n)
  end.

Definition inputs (st : session) :=
  (CONFIGS st, topic st, images st, aspect_ratio st,
   text_model st, image_model st, edit_model st).

Definition keeps_inputs {A} (m : M A) : Prop :=
  forall s r s', m s = (r, s') -> inputs (self s') = inputs (self s).

(** *** Faults *)

Definition returned (ev : event) : Prop := exists a, ev.2 = inr a.

(** The faults that the interpreter raises by itself, outside any
    call. *)
Definition internal (e : fault) : Prop :=
  match e with
  | KeyError _ | TypeError | AttributeError | IndexError => True
  | _ => False
  end.

(** The calls of a run all returned, and the run returned or ended
    with a fault of the interpreter; or the last call raised and the
    run ended with what it raised. *)
Definition propagated {A} (evs : list event) (r : fault + A) : Prop :=
  (Forall returned evs /\ forall e, r = inl e -> internal e) \/
  exists pre c e, evs = pre ++ [(c, inl e)] /\ Forall returned pre /\ r = inl e.

Definition propagates {A} (m : M A) : Prop :=
  forall s r s', m s = (r, s') ->
  exists evs, trace s' = trace s ++ evs /\ propagated evs r.

Definition orderly {A} (m : M A) : Prop := keeps_inputs m /\ propagates m.

(** *** Texts

    The file name as the specification words it: keep the alphanumeric
    characters and the spaces, cut to 50 characters, strip the
    surrounding whitespace, replace spaces with underscores. *)

Definition keep (db : unicode_db) (e : N) : bool := isalnum db e || (e =? 32).

Definition sanitized (db : unicode_db) (topic : pystr) : pystr :=
  replace 32 95 (strip db (take 50 (List.filter (keep db) topic))).

(** A text without its first [a] and its last [b] characters: the
    characters at the positions from [a] on that are not among the
    last [b]. *)
Definition without_ends (a b : nat) (t : pystr) : pystr :=
  drop a (take (length t - b) t).

(** *** Runs that return

    An environment in which no call fails and every reply is usable; a
    session whose configuration has the three keys that [__launch]
    reads; a state in which every attached image is a file; a session
    whose three model handles are set. *)

Definition reliable (env : environment) : Prop :=
  (forall tr c, fails env tr c = None) /\
  (forall tr m c,
     exists rsp t, text_service env tr m c = inr rsp /\ text rsp = inr t) /\
  (forall tr m q ar,
     exists r i rest, image_service env tr m q ar = inr r /\ generated r = i :: rest) /\
  (forall tr m b q em mm,
     exists r i rest,
       edit_service env tr m b q em mm = inr r /\ generated r = i :: rest).

Definition configured (st : session) : Prop :=
  is_Some (CONFIGS st !! py "PROJECT_ID") /\
  is_Some (CONFIGS st !! py "LOCATION") /\
  is_Some (CONFIGS st !! py "API_KEY").

Definition attached (s : state) : Prop :=
  forall paths,
    images (self s) = Some paths ->
    Forall (fun path => is_Some (fs s !! path)) paths.

Definition handles_set (st : session) : Prop :=
  is_Some (pm st) /\ is_Some (im st) /\ is_Some (em st).

(** ** An example run

    An environment in which no call fails: the text service answers
    with a fenced dictionary, the image service draws picture 1 and the
    edit service returns the picture after its base image. *)

Definition picture (n : N) : image := {| mode := py "RGB"; pixels := n |}.

Definition example_env : environment :=
  {| ucd := {| ucd_alnum := fun _ => false; ucd_space := fun _ => false |};
     pil_convert := fun i m => {| mode := m; pixels := pixels i |};
     fails := fun _ _ => None;
     text_service := fun _ _ _ =>
       inr {| text := inr (py "```python
{'Product': 'Ghee'}
```
") |};
     image_service := fun _ _ _ _ => inr {| generated := [picture 1] |};
     edit_service := fun _ _ base_image _ _ _ =>
       inr {| generated := [picture (pixels base_image + 1)] |} |}.

Definition example_configs : gmap pystr pystr :=
  <[py "PROJECT_ID" := py "banner-project"]>
    (<[py "LOCATION" := py "us-central1"]>
       (<[py "API_KEY" := py "key"]> ∅)).

Definition example_start (topic : pystr) (images : option (list pystr))
    (ar : option ratio) : state :=
  {| self := new_session example_configs topic images ar;
     fs := <[py "ghee.png" := {| mode := py "RGBA"; pixels := 7 |}]> ∅;
     trace := []; stdout := [] |}.

Definition ghee_start : state :=
  example_start (py "Diwali Sale on Premium Ghee 1kg Jar") None None.

Definition ghee_path : pystr :=
  py "images/output/Diwali_Sale_on_Premium_Ghee_1kg_Jar.jpg".

(** The same topic with one attached image, an RGBA file. *)
Definition ghee_with_image : state :=
  example_start (py "Diwali Sale on Premium Ghee 1kg Jar")
    (Some [py "ghee.png"]) (Some R16_9).

(** An environment whose text service fails from its second request
    on. *)
Definition flaky_env : environment :=
  {| ucd := ucd example_env;
     pil_convert := pil_convert example_env;
     fails := fails example_env;
     text_service := fun tr m c =>
       if (length tr <? 6)%nat then text_service example_env tr m c
       else inl (Fault 503);
     image_service := image_service example_env;
     edit_service := edit_service example_env |}.

(** The states of the example run before image generation and before
    the repair. *)
Definition ghee_described : state :=
  (bind (extract_information example_env)
     (fun _ => create_text_prompt example_env) ghee_start).2.

Definition ghee_drafted : state := (generate_image example_env ghee_described).2.

(** ** More vocabulary

    Further classes of calls, the number of calls of a class, and the
    calls of a launch, of a round with the text service (a request and
    the reading of its reply) and of the drawing of the first image. *)

Definition is_request (ev : event) : bool :=
  match ev.1 with
  | GenerateContent _ _ => true
  | _ => false
  end.

Definition is_save (ev : event) : bool :=
  match ev.1 with
  | Save _ _ => true
  | _ => false
  end.

Definition is_open (ev : event) : bool :=
  match ev.1 with
  | PilOpen _ => true
  | _ => false
  end.

Definition setup_calls (st : session) (project location api_key : pystr)
    : list event :=
  [ (VertexaiInit project location, inr NoValue);
    (GenaiConfigure api_key, inr NoValue);
    (FromPretrained (image_model st), inr NoValue);
    (FromPretrained (edit_model st), inr NoValue) ].

Definition count (f : event -> bool) (evs : list event) : nat :=
  length (List.filter f evs).

Definition text_round (m : text_handle) (c : content) (rsp : response)
    (t : pystr) : list event :=
  [ (GenerateContent m c, inr (ResponseOf rsp));
    (ResponseText rsp, inr (TextOf t)) ].

Definition draft_calls (m : image_handle) (prompt : pystr) (ar : option ratio)
    (r : image_response) (stale : bool) (i : image) : list event :=
  (GenerateImages m prompt ar, inr (ImagesOf r)) ::
  (if stale then [(OsRemove temp_img_path, inr NoValue)] else []) ++
  [(Save i temp_img_path, inr NoValue)].

(** *** Invariants of runs

    A relation between the state before a run and the state after it,
    kept by every run of an operation, whatever its outcome.  The
    relations used: the sessions agree but for the fields that [clear]
    resets; the files agree but at the listed paths; a launched session
    stays launched and no setup call is made. *)

Definition upholds {A} (R : relation state) (m : M A) : Prop :=
  forall s r s', m s = (r, s') -> R s s'.

Definition same_but (clear : session -> session) : relation state :=
  fun s s' => clear (self s') = clear (self s).

Definition same_files_but (paths : list pystr) : relation state :=
  fun s s' => forall q, q ∉ paths -> fs s' !! q = fs s !! q.

(** The session with the slots of a launch, of the extraction and of
    the repair reset. *)
Definition launch_slots (st : session) : session :=
  set_launch_state false (set_em None (set_im None (set_pm None st))).

Definition extraction_slots (st : session) : session :=
  set_text_v2 None (set_text_v1 None (set_text_v0 None (launch_slots st))).

Definition repair_slots (st : session) : session :=
  set_img_response_v3 None (set_img_response_v2 None st).

(** No launch on a launched session. *)
Definition warm : relation state :=
  fun s s' =>
    launch_state (self s) = true ->
    launch_state (self s') = true /\
    exists evs,
      trace s' = trace s ++ evs /\ Forall (fun ev => is_setup ev = false) evs.

(** ** The configuration of the module *)

(** The configuration that the module loads when it is imported (lines
    13-18).  A [ConfigParser] that has read its file is taken as it
    answers: [config[name]] is a section or raises [KeyError], and
    [section[option]] is a string or raises. *)
Record config_parser := {
  section : pystr -> option (pystr -> fault + pystr)
}.

Definition getitem (config : config_parser) (name option : pystr)
    : fault + pystr :=
  match section config name with
  | Some options => options option
  | None => inl (KeyError name)
  end.

Definition info (config : config_parser) : fault + gmap pystr pystr :=
  match getitem config (py "credentials") (py "gemini_api_key") with
  | inl e => inl e
  | inr api_key =>
    match getitem config (py "credentials") (py "gcp_project_id") with
    | inl e => inl e
    | inr proj_id =>
      inr (<[py "PROJECT_ID" := proj_id]>
             (<[py "LOCATION" := py "us-central1"]>
                (<[py "API_KEY" := api_key]> ∅)))
    end
  end.

(** ** Further examples *)

(** More states and environments for the examples: a session without
    configuration, the example session once launched, sessions with a
    missing image and with an empty list of images, an image service
    that returns no image, and a state with an old temporary image. *)
Definition bare_start : state :=
  {| self := new_session ∅ (py "Diwali Sale") None None;
     fs := ∅; trace := []; stdout := [] |}.

Definition ghee_launched : state := (__launch example_env ghee_start).2.

Definition missing_image : state :=
  (__launch example_env
     (example_start (py "Diwali Sale on Premium Ghee 1kg Jar")
        (Some [py "ghee.png"; py "missing.png"]) None)).2.

Definition no_image_listed : state :=
  (__launch example_env
     (example_start (py "Diwali Sale on Premium Ghee 1kg Jar") (Some []) None)).2.

Definition blank_env : environment :=
  {| ucd := ucd example_env;
     pil_convert := pil_convert example_env;
     fails := fails example_env;
     text_service := text_service example_env;
     image_service := fun _ _ _ _ => inr {| generated := [] |};
     edit_service := edit_service example_env |}.

Definition stale_draft : state :=
  with_fs (insert temp_img_path (picture 9)) ghee_described.

Definition ghee_banner : state := (execute example_env false ghee_start).2.

Definition example_config : config_parser :=
  {| section := fun name =>
       if decide (name = py "credentials") then
         Some (fun option =>
                 if decide (option = py "gemini_api_key") then inr (py "key")
                 else if decide (option = py "gcp_project_id")
                 then inr (py "banner-project")
                 else inl (KeyError option))
       else None |}.

(** ** Running the monad

    How a run of each operation ends, whatever its outcome.  The
    lemmas are used to follow a stage step by step from a hypothesis
    [m s = (r, s')]. *)

Arguments py : simpl never.
Arguments analysis_prompt : simpl never.
Arguments fill_prompt : simpl never.
Arguments image_prompt : simpl never.
Arguments critique_prompt : simpl never.

Lemma bind_run {A B} (m : M A) (k : A -> M B) s r s' :
  bind m k s = (r, s') ->
  (exists e, m s = (inl e, s') /\ r = inl e) \/
  (exists a s1, m s = (inr a, s1) /\ k a s1 = (r, s')).
Proof.
  unfold bind. destruct (m s) as [[e | a] s1]; intros H.
  - left. exists e. by simplify_eq.
  - right. by exists a, s1.
Qed.

Lemma bind_returns {A B} (m : M A) (k : A -> M B) s b s' :
  bind m k s = (inr b, s') ->
  exists a s1, m s = (inr a, s1) /\ k a s1 = (inr b, s').
Proof.
  intros H. apply bind_run in H as [(e & _ & ?) | H]; [done | exact H].
Qed.

Lemma perform_run {A} c (wrap : A -> answer) run s r s' :
  perform c wrap run s = (r, s') ->
  exists s1, run s = (r, s1) /\ s' = log c (outcome wrap r) s1.
Proof.
  unfold perform. destruct (run s) as [r1 s1]. intros H. simplify_eq. eauto.
Qed.

Section Runs.

Context (env : environment).

Lemma guard_run {A} c (run : state -> (fault + A) * state) s r s' :
  guard env c run s = (r, s') ->
  (exists e, fails env (trace s) c = Some e /\ r = inl e /\ s' = s) \/
  (fails env (trace s) c = None /\ run s = (r, s')).
Proof.
  unfold guard. destruct (fails env (trace s) c) as [e |]; intros H.
  - left. exists e. by simplify_eq.
  - by right.
Qed.

Lemma sdk_run c s r s' :
  sdk env c s = (r, s') ->
  s' = log c (outcome (fun _ => NoValue) r) s /\
  r = match fails env (trace s) c with Some e => inl e | None => inr tt end.
Proof.
  unfold sdk. intros H. apply perform_run in H as (s1 & H & ->).
  apply guard_run in H as [(e & -> & -> & ->) | [-> H]]; [done |].
  by simplify_eq.
Qed.

Lemma from_pretrained_run name s r s' :
  from_pretrained env name s = (r, s') ->
  r = match fails env (trace s) (FromPretrained name) with
      | Some e => inl e
      | None => inr (ImageGenerationModel name)
      end /\
  s' = log (FromPretrained name) (outcome (fun _ => NoValue) r) s.
Proof.
  unfold from_pretrained. intros H.
  apply bind_run in H as [(e & H & ->) | (a & s1 & H & H1)];
    apply sdk_run in H as [-> H].
  - split; [| done]. destruct (fails _ _ _); by simplify_eq.
  - unfold ret in H1. simplify_eq. split; [| done].
    destruct (fails _ _ _); by simplify_eq.
Qed.

Lemma generate_content_run m c s r s' :
  generate_content env m c s = (r, s') ->
  r = text_service env (trace s) m c /\
  s' = log (GenerateContent m c) (outcome ResponseOf r) s.
Proof.
  unfold generate_content. intros H.
  apply perform_run in H as (s1 & H & ->). by simplify_eq.
Qed.

Lemma response_text_run rsp s r s' :
  response_text rsp s = (r, s') ->
  r = text rsp /\ s' = log (ResponseText rsp) (outcome TextOf r) s.
Proof.
  unfold response_text. intros H.
  apply perform_run in H as (s1 & H & ->). by simplify_eq.
Qed.

Lemma generate_images_run m p ar s r s' :
  generate_images env m p ar s = (r, s') ->
  r = image_service env (trace s) m p ar /\
  s' = log (GenerateImages m p ar) (outcome ImagesOf r) s.
Proof.
  unfold generate_images. intros H.
  apply perform_run in H as (s1 & H & ->). by simplify_eq.
Qed.

Lemma edit_image_run m b p em mm s r s' :
  edit_image env m b p em mm s = (r, s') ->
  r = edit_service env (trace s) m b p em mm /\
  s' = log (EditImage m b p em mm) (outcome ImagesOf r) s.
Proof.
  unfold edit_image. intros H.
  apply perform_run in H as (s1 & H & ->). by simplify_eq.
Qed.

Lemma read_file_run c path s r s' :
  read_file env c path s = (r, s') ->
  r = match fails env (trace s) c with
      | Some e => inl e
      | None =>
        match fs s !! path with
        | Some i => inr i
        | None => inl (FileNotFoundError path)
        end
      end /\
  s' = log c (outcome ImageOf r) s.
Proof.
  unfold read_file. intros H. apply perform_run in H as (s1 & H & ->).
  apply guard_run in H as [(e & -> & -> & ->) | [-> H]]; [done |].
  destruct (fs s !! path) as [i |]; by simplify_eq.
Qed.

Lemma os_remove_run path s r s' :
  os_remove env path s = (r, s') ->
  r = match fails env (trace s) (OsRemove path) with
      | Some e => inl e
      | None =>
        match fs s !! path with
        | Some _ => inr tt
        | None => inl (FileNotFoundError path)
        end
      end /\
  s' = log (OsRemove path) (outcome (fun _ => NoValue) r)
         (match r with inr _ => with_fs (delete path) s | inl _ => s end).
Proof.
  unfold os_remove. intros H. apply perform_run in H as (s1 & H & ->).
  apply guard_run in H as [(e & -> & -> & ->) | [-> H]]; [done |].
  destruct (fs s !! path) as [i |]; by simplify_eq.
Qed.

Lemma save_run i path s r s' :
  save env i path s = (r, s') ->
  r = match fails env (trace s) (Save i path) with
      | Some e => inl e
      | None => inr tt
      end /\
  s' = log (Save i path) (outcome (fun _ => NoValue) r)
         (match r with inr _ => with_fs (insert path i) s | inl _ => s end).
Proof.
  unfold save. intros H. apply perform_run in H as (s1 & H & ->).
  apply guard_run in H as [(e & -> & -> & ->) | [-> H]]; [done |].
  by simplify_eq.
Qed.

End Runs.

(** Unfolding the state and session accessors, and nothing else. *)
Ltac unfold_state :=
  cbn [self fs trace stdout log with_self with_fs write_line
       CONFIGS topic images aspect_ratio text_model image_model edit_model
       pm im em text_v0 text_v1 text_v2 text_v3
       img_response_v1 img_response_v2 img_response_v3 launch_state
       set_pm set_im set_em set_text_v0 set_text_v1 set_text_v2 set_text_v3
       set_img_response_v1 set_img_response_v2 set_img_response_v3
       set_launch_state outcome] in *.

(** One step of a run: [H : m s = (r, s')] for an operation [m]. *)
Tactic Notation "run_bind" hyp(H) "as" ident(H1) :=
  let e := fresh "e" in
  let a := fresh "a" in
  let s1 := fresh "s" in
  lazymatch type of H with
  | bind _ _ _ = (inr _, _) => apply bind_returns in H as (a & s1 & H1 & H)
  | bind _ _ _ = _ =>
    apply bind_run in H as [(e & H & ?) | (a & s1 & H1 & H)]; [subst |]
  end;
  cbv beta zeta in H.

Ltac case_fails H :=
  match type of H with
  | context [match fails ?e ?t ?c with _ => _ end] =>
    destruct (fails e t c) eqn:?
  end.

Ltac case_file H :=
  match type of H with
  | context [match fs ?s !! ?p with _ => _ end] => destruct (fs s !! p) eqn:?
  end.

Ltac run_file H :=
  apply read_file_run in H as [H ->];
  case_fails H; [| case_file H]; simplify_eq.

Ltac run_prim_at H :=
  lazymatch type of H with
  | ret _ _ = _ => unfold ret in H; simplify_eq
  | raise _ _ = _ => unfold raise in H; simplify_eq
  | get_self _ = _ => unfold get_self in H; simplify_eq
  | assign _ _ = _ => unfold assign in H; simplify_eq
  | print _ _ = _ => unfold print in H; simplify_eq
  | os_path_exists _ _ = _ => unfold os_path_exists in H; simplify_eq
  | attr ?o _ = _ =>
    let E := fresh "E" in
    destruct o eqn:E; unfold attr, ret, raise in H; simplify_eq
  | first_image ?r _ = _ =>
    let E := fresh "E" in
    unfold first_image, ret, raise in H;
    destruct (generated r) eqn:E; simplify_eq
  | config _ _ = _ =>
    unfold config, bind, get_self in H;
    match type of H with
    | context [CONFIGS ?st !! ?k] => destruct (CONFIGS st !! k) eqn:?
    end;
    unfold ret, raise in H; simplify_eq
  | sdk _ _ _ = _ =>
    apply sdk_run in H as [-> H]; case_fails H; simplify_eq
  | from_pretrained _ _ _ = _ =>
    apply from_pretrained_run in H as [H ->]; case_fails H; simplify_eq
  | generate_content _ _ _ _ = _ => apply generate_content_run in H as [H ->]
  | response_text _ _ = _ => apply response_text_run in H as [H ->]
  | generate_images _ _ _ _ _ = _ => apply generate_images_run in H as [H ->]
  | edit_image _ _ _ _ _ _ _ = _ => apply edit_image_run in H as [H ->]
  | PIL_Image_open _ _ _ = _ => run_file H
  | load_from_file _ _ _ = _ => run_file H
  | read_file _ _ _ _ = _ => run_file H
  | save _ _ _ _ = _ =>
    apply save_run in H as [H ->]; case_fails H; simplify_eq
  | os_remove _ _ _ = _ =>
    apply os_remove_run in H as [H ->];
    case_fails H; [| case_file H]; simplify_eq
  end;
  unfold_state.

Tactic Notation "run_prim" hyp(H) := run_prim_at H.

(** Two readings of one reply are equal. *)
Ltac same_reply :=
  repeat match goal with
         | H1 : inr ?x = ?t, H2 : inr ?y = ?t |- _ =>
           tryif constr_eq x y then fail
           else (assert (x = y) by congruence; subst x)
         end.

(** Two readings of one field are equal. *)
Ltac same_field :=
  repeat match goal with
         | H1 : ?t = Some _, H2 : ?t = Some _ |- _ =>
           rewrite H1 in H2; simplify_eq
         end.

(** Two readings of the images of one response are equal. *)
Ltac same_images :=
  repeat match goal with
         | H1 : generated ?r = _, H2 : generated ?r = _ |- _ =>
           rewrite H1 in H2; simplify_eq
         end.

(** A run followed to its end, whatever its outcome: one goal for each
    place where it can stop. *)
Ltac run_any :=
  repeat match goal with
         | H : bind _ _ _ = _ |- _ =>
           let R := fresh "R" in run_bind H as R
         | H : _ = (_, _) |- _ => run_prim H
         end.

(** The calls of a run, read off its final state. *)
Ltac new_calls :=
  cbn [fst snd]; unfold_state;
  first
    [ exists []; split; [by rewrite app_nil_r |]
    | eexists; split; [rewrite <- ?app_assoc; reflexivity |] ].

(** Membership in an explicit list of calls. *)
Ltac among H :=
  cbn [app] in H;
  repeat (apply elem_of_cons in H as [H | H]; [simplify_eq |]);
  try (by apply elem_of_nil in H).

(** A run that returned, followed to its end. *)
Ltac run_returned :=
  repeat match goal with
         | H : bind _ _ _ = (inr _, _) |- _ =>
           let R := fresh "R" in run_bind H as R
         | H : _ = (inr _, _) |- _ => run_prim H
         end;
  same_reply; subst.

(** *** Frame: the declared inputs of the session are never assigned *)

Lemma keeps_bind {A B} (m : M A) (k : A -> M B) :
  keeps_inputs m -> (forall a, keeps_inputs (k a)) -> keeps_inputs (bind m k).
Proof.
  intros Hm Hk s r s' H.
  apply bind_run in H as [(e & H & ->) | (a & s1 & H1 & H)].
  - by eapply Hm.
  - etrans; [by eapply Hk | by eapply Hm].
Qed.

Lemma keeps_ret {A} (a : A) : keeps_inputs (ret a).
Proof. intros s r s' H. by run_prim H. Qed.

Lemma keeps_raise {A} e : keeps_inputs (@raise A e).
Proof. intros s r s' H. by run_prim H. Qed.

Lemma keeps_get_self : keeps_inputs get_self.
Proof. intros s r s' H. by run_prim H. Qed.

Lemma keeps_print line : keeps_inputs (print line).
Proof. intros s r s' H. by run_prim H. Qed.

Lemma keeps_attr {A} (o : option A) : keeps_inputs (attr o).
Proof. destruct o; [apply keeps_ret | apply keeps_raise]. Qed.

Lemma keeps_first_image r : keeps_inputs (first_image r).
Proof.
  unfold first_image. destruct (generated r); [apply keeps_raise | apply keeps_ret].
Qed.

Lemma keeps_assign f :
  (forall st, inputs (f st) = inputs st) -> keeps_inputs (assign f).
Proof. intros Hf s r s' H. run_prim H. apply Hf. Qed.

Lemma keeps_perform {A} c (wrap : A -> answer) run :
  (forall s, self (run s).2 = self s) -> keeps_inputs (perform c wrap run).
Proof.
  intros Hrun s r s' H. apply perform_run in H as (s1 & H & ->).
  unfold_state. specialize (Hrun s). rewrite H in Hrun. simpl in Hrun.
  by rewrite Hrun.
Qed.

Lemma guard_self {A} env c (run : state -> (fault + A) * state) s :
  (forall s, self (run s).2 = self s) -> self (guard env c run s).2 = self s.
Proof. intros Hrun. unfold guard. by destruct (fails _ _ _). Qed.

Lemma guard_trace {A} env c (run : state -> (fault + A) * state) s :
  (forall s, trace (run s).2 = trace s) -> trace (guard env c run s).2 = trace s.
Proof. intros Hrun. unfold guard. by destruct (fails _ _ _). Qed.

(** *** Faults: no operation catches one *)

Lemma propagated_returns {A} evs (a : A) :
  propagated evs (inr a) -> Forall returned evs.
Proof. intros [[H _] | (pre & c & e & _ & _ & ?)]; [exact H | done]. Qed.

Lemma propagates_bind {A B} (m : M A) (k : A -> M B) :
  propagates m -> (forall a, propagates (k a)) -> propagates (bind m k).
Proof.
  intros Hm Hk s r s' H.
  apply bind_run in H as [(e & H & ->) | (a & s1 & H1 & H)].
  - apply Hm in H as (evs & Ht & [[Hall Hint] | (pre & c & e' & -> & Hpre & [= <-])]).
    + exists evs. split; [done |]. left. split; [done |].
      intros e' [= <-]. by apply Hint.
    + eexists. split; [done |]. right. by exists pre, c, e.
  - apply Hm in H1 as (evs1 & Ht1 & Hp1). apply propagated_returns in Hp1.
    apply Hk in H as (evs2 & Ht2 & Hp2).
    exists (evs1 ++ evs2). split; [by rewrite Ht2, Ht1, app_assoc |].
    destruct Hp2 as [[Hall Hint] | (pre & c & e & -> & Hpre & ->)].
    + left. split; [by apply Forall_app | done].
    + right. exists (evs1 ++ pre), c, e.
      split; [by rewrite app_assoc |]. split; [by apply Forall_app | done].
Qed.

Lemma propagates_silent {A} (m : M A) :
  (forall s, trace (m s).2 = trace s) ->
  (forall s e, (m s).1 = inl e -> internal e) ->
  propagates m.
Proof.
  intros Hm Hint s r s' H. exists []. specialize (Hm s). specialize (Hint s).
  rewrite H in Hm, Hint. simpl in Hm, Hint.
  split; [by rewrite app_nil_r |]. left. split; [done |].
  intros e ->. by apply Hint.
Qed.

Lemma propagates_perform {A} c (wrap : A -> answer) run :
  (forall s, trace (run s).2 = trace s) -> propagates (perform c wrap run).
Proof.
  intros Hrun s r s' H. apply perform_run in H as (s1 & H & ->).
  specialize (Hrun s). rewrite H in Hrun. simpl in Hrun.
  exists [(c, outcome wrap r)]. unfold_state. split; [by rewrite Hrun |].
  destruct r as [e | a]; unfold_state.
  - right. exists [], c, e. by split_and!.
  - left. split; [| done]. apply Forall_singleton. by eexists.
Qed.

(** *** Both disciplines, stage by stage *)

Lemma orderly_bind {A B} (m : M A) (k : A -> M B) :
  orderly m -> (forall a, orderly (k a)) -> orderly (bind m k).
Proof.
  intros [? ?] Hk. split.
  - apply keeps_bind; [done | intros a; apply Hk].
  - apply propagates_bind; [done | intros a; apply Hk].
Qed.

Lemma orderly_still {A} (m : M A) :
  (forall s, (m s).2 = s) ->
  (forall s e, (m s).1 = inl e -> internal e) ->
  orderly m.
Proof.
  intros Hm Hint. split.
  - intros s r s' H. specialize (Hm s). rewrite H in Hm. simpl in Hm. by subst.
  - apply propagates_silent; [| done]. intros s. by rewrite Hm.
Qed.

Lemma orderly_ret {A} (a : A) : orderly (ret a).
Proof. by apply orderly_still. Qed.

Lemma orderly_raise {A} e : internal e -> orderly (@raise A e).
Proof. intros He. apply orderly_still; [done |]. by intros s e' [= <-]. Qed.

Lemma orderly_get_self : orderly get_self.
Proof. by apply orderly_still. Qed.

Lemma orderly_attr {A} (o : option A) : orderly (attr o).
Proof. destruct o; [apply orderly_ret | by apply orderly_raise]. Qed.

Lemma orderly_first_image r : orderly (first_image r).
Proof.
  unfold first_image.
  destruct (generated r); [by apply orderly_raise | apply orderly_ret].
Qed.

Lemma orderly_os_path_exists path : orderly (os_path_exists path).
Proof. by apply orderly_still. Qed.

Lemma orderly_print line : orderly (print line).
Proof. split; [apply keeps_print | by apply propagates_silent]. Qed.

Lemma orderly_assign f :
  (forall st, inputs (f st) = inputs st) -> orderly (assign f).
Proof. split; [by apply keeps_assign | by apply propagates_silent]. Qed.

Lemma orderly_perform {A} c (wrap : A -> answer) run :
  (forall s, self (run s).2 = self s) ->
  (forall s, trace (run s).2 = trace s) ->
  orderly (perform c wrap run).
Proof. split; [by apply keeps_perform | by apply propagates_perform]. Qed.

Section Discipline.

Context (env : environment).

Ltac outside :=
  apply orderly_perform; intros s;
  try (first [apply guard_self | apply guard_trace]; clear s; intros s);
  try done; by destruct (fs s !! _).

Lemma orderly_sdk c : orderly (sdk env c).
Proof. outside. Qed.

Lemma orderly_generate_content m c : orderly (generate_content env m c).
Proof. outside. Qed.

Lemma orderly_response_text r : orderly (response_text r).
Proof. outside. Qed.

Lemma orderly_generate_images m p ar : orderly (generate_images env m p ar).
Proof. outside. Qed.

Lemma orderly_edit_image m b p em mm : orderly (edit_image env m b p em mm).
Proof. outside. Qed.

Lemma orderly_read_file c path : orderly (read_file env c path).
Proof. outside. Qed.

Lemma orderly_os_remove path : orderly (os_remove env path).
Proof. outside. Qed.

Lemma orderly_save i path : orderly (save env i path).
Proof. outside. Qed.

(** Descends through a stage: binds, branches and the operations
    above. *)
Ltac orderly_step :=
  first
    [ apply orderly_bind
    | apply orderly_ret | apply orderly_raise; exact I | apply orderly_get_self
    | apply orderly_attr | apply orderly_first_image
    | apply orderly_os_path_exists | apply orderly_print
    | apply orderly_assign; done
    | apply orderly_sdk | apply orderly_generate_content
    | apply orderly_response_text | apply orderly_generate_images
    | apply orderly_edit_image | apply orderly_read_file
    | apply orderly_os_remove | apply orderly_save
    | progress intros
    | match goal with
      | |- orderly (if ?b then _ else _) => destruct b
      | |- orderly (match ?o with Some _ => _ | None => _ end) => destruct o
      end ].

Lemma orderly_from_pretrained name : orderly (from_pretrained env name).
Proof. unfold from_pretrained. repeat orderly_step. Qed.

Lemma orderly_config key : orderly (config key).
Proof. unfold config. repeat orderly_step. Qed.

Lemma orderly_launch : orderly (__launch env).
Proof.
  unfold __launch.
  repeat first [apply orderly_from_pretrained | apply orderly_config | orderly_step].
Qed.

Lemma orderly_open_each paths loaded : orderly (open_each env paths loaded).
Proof.
  revert loaded. induction paths as [| image_path rest IH]; intros loaded; simpl.
  - apply orderly_ret.
  - apply orderly_bind; [apply orderly_read_file | intros img; apply IH].
Qed.

Lemma orderly_load_images : orderly (load_images env).
Proof.
  unfold load_images.
  repeat first [apply orderly_launch | apply orderly_open_each | orderly_step].
Qed.

Lemma orderly_extract_image_information :
  orderly (extract_image_information env).
Proof.
  unfold extract_image_information.
  repeat first [apply orderly_load_images | orderly_step].
Qed.

Lemma orderly_extract_information : orderly (extract_information env).
Proof.
  unfold extract_information.
  repeat first
    [apply orderly_launch | apply orderly_extract_image_information | orderly_step].
Qed.

Lemma orderly_create_text_prompt : orderly (create_text_prompt env).
Proof. unfold create_text_prompt. repeat orderly_step. Qed.

Lemma orderly_generate_image : orderly (generate_image env).
Proof. unfold generate_image. repeat orderly_step. Qed.

Lemma orderly_identify_lags : orderly (identify_lags env).
Proof. unfold identify_lags, PIL_Image_open. repeat orderly_step. Qed.

Lemma orderly_fix_image retest : orderly (fix_image env retest).
Proof.
  unfold fix_image, load_from_file.
  repeat first [apply orderly_identify_lags | orderly_step].
Qed.

Lemma orderly_execute QC : orderly (execute env QC).
Proof.
  unfold execute.
  repeat first
    [ apply orderly_extract_information | apply orderly_create_text_prompt
    | apply orderly_generate_image | apply orderly_fix_image | orderly_step ].
Qed.

End Discipline.

(** ** The stages, one by one *)

Section Claims.

Context (env : environment).

(** C8.  No stage of [execute] catches or translates a fault.  In every
    run of [execute], a call to the text service, to an image service or
    to the file system that raises [e] is the last call of the run, all
    calls before it returned, and [execute] ends with [e] itself.
    Conversely a run that ends with a fault ends with the fault of its
    last call, or with a fault of the interpreter (a missing key,
    attribute or index) when no call raised; slicing a string raises
    nothing. *)
Theorem execute_propagates_faults (QC : bool) (s : state) :
  exists evs,
    trace (execute env QC s).2 = trace s ++ evs /\
    (forall c e, (c, inl e) ∈ evs ->
       (execute env QC s).1 = inl e /\
       exists pre, evs = pre ++ [(c, inl e)] /\ Forall returned pre) /\
    (forall e, (execute env QC s).1 = inl e ->
       (exists pre c, evs = pre ++ [(c, inl e)]) \/
       (Forall returned evs /\ internal e)).
Proof.
  destruct (execute env QC s) as [r s'] eqn:H.
  apply (orderly_execute env QC) in H as (evs & Ht & Hp).
  exists evs. split; [done |]. simpl. split.
  - intros c e Hin.
    destruct Hp as [[Hall _] | (pre & c' & e' & -> & Hpre & ->)].
    + rewrite Forall_forall in Hall. by destruct (Hall _ Hin) as [a ?].
    + apply elem_of_app in Hin as [Hin | Hin].
      * rewrite Forall_forall in Hpre. by destruct (Hpre _ Hin) as [a ?].
      * apply list_elem_of_singleton in Hin. simplify_eq. eauto.
  - intros e ->.
    destruct Hp as [[Hall Hint] | (pre & c' & e' & -> & Hpre & [= <-])].
    + right. split; [done | by apply Hint].
    + left. by exists pre, c'.
Qed.

(** *** [__launch] *)

Lemma launch_again s :
  launch_state (self s) = true -> __launch env s = (inr tt, s).
Proof. intros H. unfold __launch, bind, get_self. by rewrite H. Qed.

Lemma launch_first s s' :
  launch_state (self s) = false ->
  __launch env s = (inr tt, s') ->
  self s' = launched (self s) /\ fs s' = fs s /\
  stdout s' = stdout s ++ [py "Model Launch successful!"].
Proof.
  intros Hl H. unfold __launch in H.
  run_bind H as R. run_prim R. rewrite Hl in H. simpl in H.
  run_returned.
  done.
Qed.

(** C10.  The lazy launch is idempotent.  An invocation on a session
    not yet launched that returns has set the three model handles, from
    the three model names, and [launch_state]; every later invocation
    returns at once and leaves the whole state (handles, the rest of
    the session, files, calls made, console) as it is. *)
Theorem launch_idempotent (s s' : state) :
  __launch env s = (inr tt, s') ->
  (launch_state (self s) = false ->
   pm (self s') = Some (GenerativeModel (text_model (self s))) /\
   im (self s') = Some (ImageGenerationModel (image_model (self s))) /\
   em (self s') = Some (ImageGenerationModel (edit_model (self s))) /\
   launch_state (self s') = true) /\
  forall n, launch_times env n s' = (inr tt, s').
Proof.
  intros H.
  assert (Hdone : launch_state (self s') = true).
  { destruct (launch_state (self s)) eqn:Hl.
    - rewrite (launch_again _ Hl) in H. by simplify_eq.
    - apply (launch_first _ _ Hl) in H as (-> & _). done. }
  split.
  - intros Hl. apply (launch_first _ _ Hl) in H as (-> & _). done.
  - induction n as [| n IH]; [done |].
    simpl. unfold bind. by rewrite (launch_again _ Hdone).
Qed.

(** *** Critique and repair *)

Lemma identify_lags_returns s lags s' :
  identify_lags env s = (inr lags, s') ->
  exists m img rsp,
    pm (self s) = Some m /\ fs s !! temp_img_path = Some img /\
    self s' = self s /\ fs s' = fs s /\
    trace s' =
      trace s ++
      critique_calls m (critique_prompt (fmt (text_v3 (self s)))) img rsp lags.
Proof.
  intros H. unfold identify_lags in H. run_returned.
  eexists _, _, _. split_and!; try done.
  unfold critique_calls. by rewrite <- !app_assoc.
Qed.

Lemma fix_image_returns retest s p s' :
  fix_image env retest s = (inr p, s') ->
  let prompt := critique_prompt (fmt (text_v3 (self s))) in
  exists m e img1 rsp1 lags1 r2 i2 rest2 again,
    pm (self s) = Some m /\ em (self s) = Some e /\
    fs s !! temp_img_path = Some img1 /\
    p = output_img_path (ucd env) (topic (self s)) /\
    img_response_v2 (self s') = Some r2 /\
    generated r2 = i2 :: rest2 /\
    trace s' =
      trace s ++ critique_calls m prompt img1 rsp1 lags1 ++
      repair_calls e img1 (repair_prompt lags1) r2 i2 ++ again ++
      [(Save i2 p, inr NoValue)] /\
    if retest then
      exists rsp2 lags2 r3 i3 rest3,
        again =
          critique_calls m prompt i2 rsp2 lags2 ++
          repair_calls e i2 (repair_again_prompt lags2) r3 i3 /\
        img_response_v3 (self s') = Some r3 /\
        generated r3 = i3 :: rest3 /\
        fs s' =
          <[p := i2]> (<[temp_img_path := i3]> (<[temp_img_path := i2]> (fs s)))
    else
      again = [] /\
      img_response_v3 (self s') = img_response_v3 (self s) /\
      fs s' = <[p := i2]> (<[temp_img_path := i2]> (fs s)).
Proof.
  intros H prompt. unfold fix_image in H.
  run_bind H as L1.
  apply identify_lags_returns in L1
    as (m & img1 & rsp1 & Hpm & Himg & Hself & Hfs & Htr).
  run_returned.
  destruct retest.
  - match goal with
    | R : bind _ _ _ = _ |- _ => run_bind R as L2
    end.
    apply identify_lags_returns in L2
      as (m2 & img2 & rsp2 & Hpm2 & Himg2 & Hself2 & Hfs2 & Htr2).
    run_returned. unfold_state.
    rewrite ?Hself2, ?Hfs2, ?Htr2 in *. unfold_state.
    rewrite ?Hself, ?Hfs, ?Htr in *. simplify_map_eq. same_field. same_images.
    eexists _, _, _, _, _, _, _, _, _.
    split_and!; [done | done | done | done | done | done | |].
    2: { eexists _, _, _, _, _. split_and!; [reflexivity | done | done | done]. }
    unfold repair_calls. rewrite <- !app_assoc. done.
  - match goal with
    | R : ret _ _ = _ |- _ => run_prim R
    end.
    rewrite ?Hself, ?Hfs, ?Htr in *. simplify_map_eq. same_field. same_images.
    eexists _, _, _, _, _, _, _, _, _.
    split_and!; [done | done | done | done | done | done | | done | done | done].
    unfold repair_calls. rewrite <- !app_assoc. done.
Qed.

End Claims.

(** *** The output file name *)

Section FileName.

Context (db : unicode_db).

Lemma py_slice_head (n : nat) (s : pystr) :
  py_slice None (Some (Z.of_nat n)) s = take n s.
Proof.
  unfold py_slice, slice_index.
  destruct (Z.ltb_spec (Z.of_nat n) 0) as [Hneg | _]; [lia |].
  rewrite Nat2Z.id, Nat.sub_0_r, drop_0.
  destruct (Nat.le_ge_cases n (length s)) as [Hle | Hge].
  - by rewrite Nat.min_l.
  - rewrite Nat.min_r by done. by rewrite !take_ge.
Qed.

Lemma output_filename_sanitized topic :
  output_filename db topic = sanitized db topic ++ py ".jpg".
Proof.
  unfold output_filename, sanitized. by rewrite (py_slice_head 50).
Qed.

Lemma lstrip_suffix (s : pystr) : exists pre, s = pre ++ lstrip db s.
Proof.
  induction s as [| c r [pre IH]]; simpl.
  - by exists [].
  - destruct (isspace db c).
    + exists (c :: pre). simpl. by rewrite <- IH.
    + by exists [].
Qed.

Lemma strip_infix (s : pystr) : exists pre suf, s = pre ++ strip db s ++ suf.
Proof.
  unfold strip, rstrip.
  destruct (lstrip_suffix s) as [pre Hpre].
  destruct (lstrip_suffix (rev (lstrip db s))) as [suf Hsuf].
  exists pre, (rev suf). rewrite <- rev_app_distr, <- Hsuf, rev_involutive.
  exact Hpre.
Qed.

Lemma strip_Forall (P : N -> Prop) (s : pystr) :
  Forall P s -> Forall P (strip db s).
Proof.
  intros H. destruct (strip_infix s) as (pre & suf & Hs). rewrite Hs in H.
  apply Forall_app in H as [_ H]. by apply Forall_app in H as [H _].
Qed.

Lemma strip_length (s : pystr) : (length (strip db s) <= length s)%nat.
Proof.
  destruct (strip_infix s) as (pre & suf & Hs).
  rewrite Hs at 2. rewrite !length_app. lia.
Qed.

Lemma sanitized_length topic : (length (sanitized db topic) <= 50)%nat.
Proof.
  unfold sanitized, replace. rewrite length_map.
  etrans; [apply strip_length |]. rewrite length_take. lia.
Qed.

(** Every character of the name is alphanumeric or an underscore. *)
Lemma sanitized_chars topic :
  Forall (fun c => isalnum db c = true \/ c = 95) (sanitized db topic).
Proof.
  unfold sanitized, replace. apply Forall_map, strip_Forall, Forall_take.
  apply Forall_forall. intros c Hc. apply list_elem_of_In, filter_In in Hc as [_ Hc].
  simpl. unfold keep in Hc. destruct (c =? 32) eqn:E; [by right |].
  left. by rewrite orb_false_r in Hc.
Qed.

Lemma output_path_sanitized topic :
  output_img_path db topic =
  py "images/output/" ++ sanitized db topic ++ py ".jpg".
Proof.
  unfold output_img_path, os_path_join. rewrite output_filename_sanitized.
  assert (startswith 47 (sanitized db topic ++ py ".jpg") = false) as ->.
  { pose proof (sanitized_chars topic) as H.
    destruct (sanitized db topic) as [| c r]; [done |].
    apply Forall_cons in H as [[Hc | ->] _]; [| done].
    simpl. destruct (c =? 47) eqn:E; [| done].
    apply N.eqb_eq in E as ->. by vm_compute in Hc. }
  done.
Qed.

Lemma sanitized_nothing topic :
  Forall (fun c => isalnum db c = false /\ c <> 32) topic ->
  sanitized db topic = [].
Proof.
  intros H. unfold sanitized.
  assert (List.filter (keep db) topic = []) as ->; [| done].
  induction H as [| c r [Hc Hsp] _ IH]; [done |].
  simpl. unfold keep at 1. rewrite Hc. simpl.
  by apply N.eqb_neq in Hsp as ->.
Qed.

End FileName.

Section Repair.

Context (env : environment).

(** A run of [execute] that returned ran [fix_image] last, on a session
    with the inputs it started from. *)
Lemma execute_returns_fix QC s p s' :
  execute env QC s = (inr p, s') ->
  exists s3,
    fix_image env QC s3 = (inr p, s') /\
    inputs (self s3) = inputs (self s) /\
    exists evs, trace s3 = trace s ++ evs.
Proof.
  intros H. unfold execute in H.
  run_bind H as R1. run_bind H as R2. run_bind H as R3. run_bind H as R4.
  run_prim H.
  pose proof (orderly_extract_information env) as [K1 P1].
  pose proof (orderly_create_text_prompt env) as [K2 P2].
  pose proof (orderly_generate_image env) as [K3 P3].
  eexists. split; [exact R4 |]. split.
  - rewrite (K3 _ _ _ R3), (K2 _ _ _ R2). exact (K1 _ _ _ R1).
  - destruct (P1 _ _ _ R1) as (e1 & E1 & _).
    destruct (P2 _ _ _ R2) as (e2 & E2 & _).
    destruct (P3 _ _ _ R3) as (e3 & E3 & _).
    exists (e1 ++ e2 ++ e3). by rewrite E3, E2, E1, <- !app_assoc.
Qed.

Lemma inputs_topic st st' : inputs st' = inputs st -> topic st' = topic st.
Proof. unfold inputs. by intros [= ]. Qed.

Lemma execute_returns_path QC s p s' :
  execute env QC s = (inr p, s') ->
  p = py "images/output/" ++ sanitized (ucd env) (topic (self s)) ++ py ".jpg".
Proof.
  intros H. apply execute_returns_fix in H as (s3 & H & Hin & _).
  apply fix_image_returns in H
    as (m & e & img1 & rsp1 & lags1 & r2 & i2 & rest2 & again & _ & _ & _ & -> & _).
  by rewrite (inputs_topic _ _ Hin), output_path_sanitized.
Qed.


(** C3.  A run of the repair stage that returns has made exactly two
    calls to the edit service when [retest] is set and exactly one
    otherwise.  The first edits the image found at the temporary path,
    the second the image that the first edit saved there; both insert
    into the background. *)
Theorem fix_image_edit_calls (retest : bool) (s : state) (p : pystr) (s' : state) :
  fix_image env retest s = (inr p, s') ->
  exists evs e base q1 r2 i2 rest2 second,
    trace s' = trace s ++ evs /\
    length (List.filter is_edit evs) = (if retest then 2 else 1)%nat /\
    fs s !! temp_img_path = Some base /\
    generated r2 = i2 :: rest2 /\
    List.filter is_edit evs =
      (EditImage e base q1 (py "inpainting-insert") (py "background"),
       inr (ImagesOf r2)) :: second /\
    if retest then
      exists q2 r3,
        second =
          [(EditImage e i2 q2 (py "inpainting-insert") (py "background"),
            inr (ImagesOf r3))]
    else second = [].
Proof.
  intros H. apply fix_image_returns in H
    as (m & e & img1 & rsp1 & lags1 & r2 & i2 & rest2 & again &
        _ & _ & Himg & _ & _ & Hr2 & Htr & Hagain).
  destruct retest.
  - destruct Hagain as (rsp2 & lags2 & r3 & i3 & rest3 & -> & _).
    eexists _, e, img1, _, r2, i2, rest2, _.
    split_and!; [exact Htr | done | done | done | reflexivity |].
    by eexists _, _.
  - destruct Hagain as (-> & _).
    eexists _, e, img1, _, r2, i2, rest2, _.
    split_and!; [exact Htr | done | done | done | reflexivity | done].
Qed.

(** With [retest] set, whatever the services answer, the image at the
    output path is the first image of the first edit; the response of
    the second edit is kept in [img_response_v3] only. *)
Lemma fix_image_saves_first_edit (s : state) (p : pystr) (s' : state) :
  fix_image env true s = (inr p, s') ->
  exists evs e b1 q1 r2 b2 q2 r3 i2 rest2,
    trace s' = trace s ++ evs /\
    List.filter is_edit evs =
      [ (EditImage e b1 q1 (py "inpainting-insert") (py "background"),
         inr (ImagesOf r2));
        (EditImage e b2 q2 (py "inpainting-insert") (py "background"),
         inr (ImagesOf r3)) ] /\
    generated r2 = i2 :: rest2 /\
    fs s' !! p = Some i2 /\
    img_response_v3 (self s') = Some r3.
Proof.
  intros H. apply fix_image_returns in H
    as (m & e & img1 & rsp1 & lags1 & r2 & i2 & rest2 & again &
        _ & _ & _ & _ & _ & Hr2 & Htr & Hagain).
  destruct Hagain as (rsp2 & lags2 & r3 & i3 & rest3 & -> & Hv3 & _ & Hfs).
  eexists _, e, img1, _, r2, i2, _, r3, i2, rest2.
  split_and!; [exact Htr | reflexivity | done | | done].
  rewrite Hfs. apply lookup_insert_eq.
Qed.

(** A run of the repair stage that does not return has made fewer
    edit calls, never more. *)
Lemma fix_image_edits_bound (retest : bool) (s : state) :
  exists evs,
    trace (fix_image env retest s).2 = trace s ++ evs /\
    (length (List.filter is_edit evs) <= if retest then 2 else 1)%nat.
Proof.
  destruct (fix_image env retest s) as [r s'] eqn:H.
  unfold fix_image, identify_lags in H.
  destruct retest; run_any.
  all: new_calls; cbn [app]; simpl; lia.
Qed.

End Repair.

(** *** Image generation *)

Section Generate.

Context (env : environment).

Lemma ratio_given_is_Some (o : option ratio) :
  ratio_given o = bool_decide (is_Some o).
Proof. by destruct o as [[] |]. Qed.

(** The two branches of lines 135-138 make the same request: the
    ratio of the session when there is one, no ratio argument
    otherwise. *)
Lemma generate_images_request m prompt (o : option ratio) :
  (if ratio_given o then generate_images env m prompt o
   else generate_images env m prompt None) =
  generate_images env m prompt o.
Proof. by destruct o as [[] |]. Qed.

(** C5.  In every run of the image-generation stage, each request made
    to the image service carries the aspect ratio of the session:
    that very ratio when one is supplied, no ratio argument when none
    is.  When the image model is set there is exactly one such request,
    and it is the first call of the stage. *)
Theorem generate_image_request_ratio (s : state) :
  exists evs,
    trace (generate_image env s).2 = trace s ++ evs /\
    (forall m q kw o,
       (GenerateImages m q kw, o) ∈ evs -> kw = aspect_ratio (self s)) /\
    (forall m, im (self s) = Some m ->
       exists o rest,
         evs =
           (GenerateImages m (image_prompt (fmt (text_v3 (self s))))
              (aspect_ratio (self s)), o) :: rest /\
         List.filter is_generate rest = []).
Proof.
  destruct (generate_image env s) as [r s'] eqn:H. unfold generate_image in H.
  run_any; rewrite ?generate_images_request in *; run_any.
  all: try (destruct (bool_decide _) eqn:?).
  all: run_any.
  all: new_calls; split;
    [ intros m q kw o Hin; among Hin; done
    | intros m Hm; simplify_eq; eexists _, _; split; reflexivity ].
Qed.

(** C7.  A run of the image-generation stage that returns has written
    the first generated image to the one fixed path
    images/temp/temp.jpg and returned that path.  A file already there
    was removed first and no other file was written or deleted, so the
    run replaces the temporary image: every other path is untouched,
    and when the temporary image existed before, the set of files is
    the same after the run. *)
Theorem generate_image_overwrites_temp (s : state) (p : pystr) (s' : state) :
  generate_image env s = (inr p, s') ->
  p = temp_img_path /\ p = py "images/temp/temp.jpg" /\
  exists r i rest evs,
    img_response_v1 (self s') = Some r /\ generated r = i :: rest /\
    fs s' = <[temp_img_path := i]> (fs s) /\
    trace s' = trace s ++ evs /\
    List.filter is_write evs =
      (if decide (is_Some (fs s !! temp_img_path))
       then [(OsRemove temp_img_path, inr NoValue)] else []) ++
      [(Save i temp_img_path, inr NoValue)] /\
    (forall q, q <> temp_img_path -> fs s' !! q = fs s !! q) /\
    (is_Some (fs s !! temp_img_path) -> dom (fs s') = dom (fs s)).
Proof.
  intros H. unfold generate_image in H.
  run_returned. rewrite generate_images_request in *. run_returned.
  destruct (decide (is_Some (fs s1 !! temp_img_path))) as [Hthere | Hnot].
  - match goal with
    | R : (if bool_decide _ then _ else _) _ = _ |- _ =>
      rewrite bool_decide_eq_true_2 in R by done
    end.
    run_returned. same_images.
    split_and!; [done | done |]. eexists _, _, _, _.
    split_and!; [done | done | | by rewrite <- !app_assoc | done | |].
    + apply insert_delete_eq.
    + intros q Hq. rewrite insert_delete_eq. by apply lookup_insert_ne.
    + intros _. rewrite insert_delete_eq, dom_insert_L.
      by apply subseteq_union_1_L, singleton_subseteq_l, elem_of_dom.
  - match goal with
    | R : (if bool_decide _ then _ else _) _ = _ |- _ =>
      rewrite bool_decide_eq_false_2 in R by done
    end.
    run_returned. same_images.
    split_and!; [done | done |]. eexists _, _, _, _.
    split_and!; [done | done | done | by rewrite <- !app_assoc | done | |].
    + intros q Hq. by apply lookup_insert_ne.
    + done.
Qed.

(** No run of the stage, returning or not, touches a file other than
    the temporary image. *)
Lemma generate_image_frame (s : state) (q : pystr) :
  q <> temp_img_path -> fs (generate_image env s).2 !! q = fs s !! q.
Proof.
  intros Hq. destruct (generate_image env s) as [r s'] eqn:H.
  unfold generate_image in H.
  run_any; rewrite ?generate_images_request in *; run_any.
  all: try (destruct (bool_decide _) eqn:?); run_any.
  all: cbn [fst snd]; unfold_state.
  all: by rewrite ?lookup_insert_ne, ?lookup_delete_ne.
Qed.

End Generate.

(** *** Information extraction *)

Section Extract.

Context (env : environment).

Lemma launch_calls s r s' :
  __launch env s = (r, s') ->
  exists evs, trace s' = trace s ++ evs /\ Forall (fun ev => is_setup ev = true) evs.
Proof.
  intros H. unfold __launch in H. run_any.
  destruct (launch_state (self _)); simpl in H; run_any.
  all: new_calls; repeat (apply Forall_cons; split; [done |]); done.
Qed.

Lemma open_each_returns paths : forall acc s imgs s',
  open_each env paths acc s = (inr imgs, s') ->
  exists raws,
    Forall2 (fun path raw => fs s !! path = Some raw) paths raws /\
    imgs = acc ++ map (as_rgb env) raws /\
    self s' = self s /\ fs s' = fs s /\ stdout s' = stdout s /\
    trace s' = trace s ++ open_calls paths raws.
Proof.
  induction paths as [| path rest IH]; intros acc s imgs s' H; simpl in H.
  - run_prim H. exists []. split_and!; try done; by rewrite app_nil_r.
  - run_bind H as R. run_prim R.
    apply IH in H as (raws & Hall & -> & Hself & Hfs & Hout & Htr).
    unfold_state. eexists (_ :: raws). split_and!; try done.
    + by constructor.
    + by rewrite <- app_assoc.
    + rewrite Htr. by rewrite <- app_assoc.
Qed.

Lemma launch_returns s (u : unit) s' :
  __launch env s = (inr u, s') ->
  launch_state (self s') = true /\ inputs (self s') = inputs (self s) /\
  fs s' = fs s /\
  exists setup,
    trace s' = trace s ++ setup /\ Forall (fun ev => is_setup ev = true) setup.
Proof.
  destruct u. intros H. split_and!.
  - destruct (launch_state (self s)) eqn:Hl.
    + rewrite (launch_again _ _ Hl) in H. by simplify_eq.
    + by apply (launch_first _ _ _ Hl) in H as (-> & _).
  - destruct (orderly_launch env) as [K _]. exact (K _ _ _ H).
  - destruct (launch_state (self s)) eqn:Hl.
    + rewrite (launch_again _ _ Hl) in H. by simplify_eq.
    + by apply (launch_first _ _ _ Hl) in H as (_ & -> & _).
  - by apply launch_calls in H.
Qed.

Lemma extract_image_information_returns s info s' :
  launch_state (self s) = true ->
  extract_image_information env s = (inr info, s') ->
  exists paths raws m rsp,
    images (self s) = Some paths /\ pm (self s) = Some m /\
    Forall2 (fun path raw => fs s !! path = Some raw) paths raws /\
    self s' = self s /\ fs s' = fs s /\
    trace s' = trace s ++ describe_calls env m paths raws rsp info.
Proof.
  intros Hl H. unfold extract_image_information, load_images in H.
  run_bind H as R. run_bind R as L. rewrite (launch_again _ _ Hl) in L.
  simplify_eq. run_bind R as G. run_prim G.
  destruct (images (self _)) as [paths |] eqn:Hpaths; [| by run_prim R].
  apply open_each_returns in R as (raws & Hall & -> & Hself & Hfs & Hout & Htr).
  run_returned. rewrite Hself, Hfs, Htr in *.
  eexists _, _, _, _. split_and!; try done.
  unfold describe_calls. by rewrite <- !app_assoc.
Qed.

Lemma extract_information_returns s s' :
  extract_information env s = (inr tt, s') ->
  exists setup m rsp0 v0 described q rsp1 t1 rsp2 v2,
    Forall (fun ev => is_setup ev = true) setup /\
    trace s' =
      trace s ++ setup ++
      [ (GenerateContent m (Prompt (analysis_prompt (topic (self s)))),
         inr (ResponseOf rsp0));
        (ResponseText rsp0, inr (TextOf v0)) ] ++
      described ++
      [ (GenerateContent m (Prompt q), inr (ResponseOf rsp1));
        (ResponseText rsp1, inr (TextOf t1));
        (GenerateContent m
           (Prompt (scrapper_prompt (py_slice (Some 9%Z) (Some (-5)%Z) t1))),
         inr (ResponseOf rsp2));
        (ResponseText rsp2, inr (TextOf v2)) ] /\
    text_v0 (self s') = Some v0 /\
    text_v1 (self s') = Some (py_slice (Some 9%Z) (Some (-5)%Z) t1) /\
    text_v2 (self s') = Some v2 /\
    fs s' = fs s /\
    text rsp1 = inr t1 /\
    if nonempty (images (self s)) then
      exists paths raws rsp info,
        images (self s) = Some paths /\
        Forall2 (fun path raw => fs s !! path = Some raw) paths raws /\
        described = describe_calls env m paths raws rsp info /\
        q = consolidation_prompt v0 ++ py " Product insights: " ++ info
    else described = [] /\ q = consolidation_prompt v0.
Proof.
  intros H. unfold extract_information in H.
  run_bind H as L.
  apply launch_returns in L as (Hl & Hin & Hfs & setup & Htr & Hsetup).
  run_returned.
  match goal with
  | Hi : images _ = images (self s), R : (if nonempty _ then _ else _) _ = _ |- _ =>
    rewrite Hi in R; destruct (nonempty (images (self s))) eqn:Hne
  end.
  - match goal with
    | R : bind _ _ _ = _ |- _ => run_bind R as D
    end.
    apply extract_image_information_returns in D
      as (paths & raws & m' & rsp & Hp & Hpm & Hall & Hself & Hfs' & Htr');
      [| by unfold_state].
    run_returned. unfold_state.
    rewrite ?Hself, ?Hfs', ?Htr' in *. unfold_state.
    rewrite ?Hfs, ?Htr in *. simplify_eq.
    cbn [fmt default from_option id] in *.
    match goal with
    | Ht : topic _ = topic (self s), Hi : images _ = images (self s) |- _ =>
      rewrite ?Ht, ?Hi in *
    end.
    eexists _, _, _, _, _, _, _, _, _, _.
    split; [exact Hsetup |].
    split; [| split_and!; [done | done | done | done | done |]].
    2: { eexists _, _, _, _. split_and!; [done | done | reflexivity | reflexivity]. }
    rewrite <- !app_assoc. reflexivity.
  - run_returned. unfold_state. rewrite ?Hfs, ?Htr in *.
    cbn [fmt default from_option id] in *. same_field.
    match goal with
    | Ht : topic _ = topic (self s) |- _ => rewrite ?Ht in *
    end.
    eexists _, _, _, _, _, _, _, _, _, _.
    split; [exact Hsetup |].
    split; [| split_and!; [done | done | done | done | done | reflexivity | reflexivity]].
    rewrite <- !app_assoc. reflexivity.
Qed.

Lemma setup_not_describe (evs : list event) :
  Forall (fun ev => is_setup ev = true) evs -> List.filter is_describe evs = [].
Proof.
  induction 1 as [| [c o] evs Hc _ IH]; [done |].
  simpl. rewrite IH. by destruct c.
Qed.

(** Without images no call of any run of the stage, returning or not,
    opens an image or sends one to the text service. *)
Lemma extract_information_no_images s :
  nonempty (images (self s)) = false ->
  exists evs,
    trace (extract_information env s).2 = trace s ++ evs /\
    List.filter is_describe evs = [].
Proof.
  intros Hne. destruct (extract_information env s) as [r s'] eqn:H.
  unfold extract_information in H. run_bind H as L.
  - apply launch_calls in H as (setup & Htr & Hsetup).
    exists setup. split; [done | by apply setup_not_describe].
  - apply launch_returns in L as (Hl & Hin & Hfs & setup & Htr & Hsetup).
    unfold inputs in Hin. simplify_eq.
    run_any.
    all: match goal with
         | Hi : images _ = images _,
           R : (if nonempty _ then _ else _) _ = _ |- _ =>
           rewrite Hi, Hne in R
         | _ => idtac
         end.
    all: run_any.
    all: cbn [fst snd]; unfold_state; rewrite Htr;
      eexists; (split; [rewrite <- ?app_assoc; reflexivity |]);
      rewrite ?List.filter_app, (setup_not_describe _ Hsetup); reflexivity.
Qed.

Lemma slice_9_5 (t : pystr) :
  py_slice (Some 9%Z) (Some (-5)%Z) t = without_ends 9 5 t.
Proof.
  unfold py_slice, without_ends, slice_index.
  change (9 <? 0)%Z with false. change (-5 <? 0)%Z with true. cbv iota.
  change (Z.to_nat 9) with 9%nat.
  replace (Z.to_nat (Z.max (-5 + Z.of_nat (length t)) 0))
    with (length t - 5)%nat by lia.
  destruct (decide (length t < 14)%nat) as [Hshort | Hlong].
  - rewrite (drop_ge (take _ _)) by (rewrite length_take; lia).
    replace (length t - 5 - 9 `min` length t)%nat with 0%nat by lia. done.
  - rewrite Nat.min_l by lia. rewrite take_drop_commute. f_equal. f_equal. lia.
Qed.

Lemma without_ends_long (t : pystr) :
  (14 <= length t)%nat ->
  exists head tail,
    t = head ++ without_ends 9 5 t ++ tail /\ length head = 9%nat /\
    length tail = 5%nat.
Proof.
  intros Hlen. exists (take 9 t), (drop (length t - 5) t). split_and!.
  - unfold without_ends. rewrite drop_take_drop by lia. by rewrite take_drop.
  - rewrite length_take. lia.
  - rewrite length_drop. lia.
Qed.

Lemma without_ends_short (t : pystr) :
  (length t < 14)%nat -> without_ends 9 5 t = [].
Proof. intros Hlen. apply drop_ge. rewrite length_take. lia. Qed.

(** C4.  In a run of the extraction stage that returns, [text_v1] is
    the text of the reply to the consolidation request without its
    first 9 and its last 5 characters, whatever the reply is: a reply
    of 14 characters or more loses exactly a head of 9 and a tail of 5,
    a shorter one leaves the empty text. *)
Theorem text_v1_is_sliced_reply (s s' : state) :
  extract_information env s = (inr tt, s') ->
  exists evs m q rsp t,
    trace s' = trace s ++ evs /\
    (GenerateContent m (Prompt q), inr (ResponseOf rsp)) ∈ evs /\
    consolidation_prompt (fmt (text_v0 (self s'))) `prefix_of` q /\
    text rsp = inr t /\
    text_v1 (self s') = Some (without_ends 9 5 t) /\
    ((14 <= length t)%nat ->
     exists head tail,
       t = head ++ without_ends 9 5 t ++ tail /\ length head = 9%nat /\
       length tail = 5%nat) /\
    ((length t < 14)%nat -> text_v1 (self s') = Some []).
Proof.
  intros H. apply extract_information_returns in H
    as (setup & m & rsp0 & v0 & described & q & rsp1 & t1 & rsp2 & v2 &
        _ & Htr & Hv0 & Hv1 & _ & _ & Ht1 & Hq).
  eexists _, m, q, rsp1, t1. split_and!.
  - exact Htr.
  - rewrite !elem_of_app. right. right. right. apply elem_of_cons. by left.
  - rewrite Hv0. simpl. destruct (nonempty _).
    + destruct Hq as (? & ? & ? & info & _ & _ & _ & ->). by eexists.
    + destruct Hq as (_ & ->). done.
  - done.
  - by rewrite Hv1, slice_9_5.
  - apply without_ends_long.
  - intros Hlen. by rewrite Hv1, slice_9_5, without_ends_short.
Qed.

(** C6.  In every run of the extraction stage on a session without
    images (the list empty or absent) no image is opened and no
    request with images is made.  In a run that returns on a session
    with images, the images are opened from their paths and sent with
    the extraction prompt, and the description the text service gives
    is appended, after " Product insights: ", to the consolidation
    request, which is made right after it; without images the
    consolidation request is the bare prompt. *)
Theorem extract_information_describes_images (s : state) :
  let run := extract_information env s in
  exists evs,
    trace run.2 = trace s ++ evs /\
    (nonempty (images (self s)) = false -> List.filter is_describe evs = []) /\
    (run.1 = inr tt ->
     exists setup m rsp0 v0 described q rsp1 rest,
       Forall (fun ev => is_setup ev = true) setup /\
       text_v0 (self run.2) = Some v0 /\
       evs =
         setup ++
         [ (GenerateContent m (Prompt (analysis_prompt (topic (self s)))),
            inr (ResponseOf rsp0));
           (ResponseText rsp0, inr (TextOf v0)) ] ++
         described ++
         (GenerateContent m (Prompt q), inr (ResponseOf rsp1)) :: rest /\
       List.filter is_describe rest = [] /\
       if nonempty (images (self s)) then
         exists paths raws rsp info,
           images (self s) = Some paths /\
           Forall2 (fun path raw => fs s !! path = Some raw) paths raws /\
           described = describe_calls env m paths raws rsp info /\
           q = consolidation_prompt v0 ++ py " Product insights: " ++ info
       else described = [] /\ q = consolidation_prompt v0).
Proof.
  intros run. subst run.
  destruct (orderly_extract_information env) as [_ P].
  destruct (extract_information env s) as [r s'] eqn:H.
  destruct (P _ _ _ H) as (evs & Htr & _). exists evs. simpl.
  split_and!; [done | |].
  - intros Hne. destruct (extract_information_no_images s Hne) as (evs' & Htr' & Hf).
    rewrite H in Htr'. simpl in Htr'. rewrite Htr in Htr'.
    by apply app_inv_head in Htr' as ->.
  - intros ->. apply extract_information_returns in H
      as (setup & m & rsp0 & v0 & described & q & rsp1 & t1 & rsp2 & v2 &
          Hsetup & Htr' & Hv0 & _ & _ & _ & _ & Hq).
    rewrite Htr in Htr'. apply app_inv_head in Htr' as ->.
    eexists setup, m, rsp0, v0, described, q, rsp1, _.
    split_and!; [done | done | reflexivity | reflexivity | done].
Qed.

End Extract.

(** ** Runs that return

    In an environment where no call fails and every reply is usable,
    the pipeline runs to its end. *)

(** The replies that a reliable environment gives to the calls at
    hand. *)
Ltac replies Hrel :=
  let Hfails := fresh "Hfails" in
  let Htext := fresh "Htext" in
  let Himage := fresh "Himage" in
  let Hedit := fresh "Hedit" in
  pose proof Hrel as (Hfails & Htext & Himage & Hedit);
  repeat match goal with
         | H : fails _ _ _ = Some _ |- _ => by rewrite Hfails in H
         | H : context [text_service ?e ?tr ?m ?c] |- _ =>
           lazymatch goal with
           | _ : text_service e tr m c = inr _ |- _ => fail
           | _ => destruct (Htext tr m c) as (? & ? & ? & ?)
           end
         | H : context [image_service ?e ?tr ?m ?q ?ar] |- _ =>
           lazymatch goal with
           | _ : image_service e tr m q ar = inr _ |- _ => fail
           | _ => destruct (Himage tr m q ar) as (? & ? & ? & ? & ?)
           end
         | H : context [edit_service ?e ?tr ?m ?b ?q ?em ?mm] |- _ =>
           lazymatch goal with
           | _ : edit_service e tr m b q em mm = inr _ |- _ => fail
           | _ => destruct (Hedit tr m b q em mm) as (? & ? & ? & ? & ?)
           end
         end;
  clear Hfails Htext Himage Hedit.

(** A branch that cannot be: a field read as [None] that is set, or a
    reply that a reliable environment does not give. *)
Ltac none_is_some :=
  match goal with
  | Hn : ?x = None, Hs : is_Some ?x |- _ => rewrite Hn in Hs; by destruct Hs
  | Hs : is_Some None |- _ => by destruct Hs
  | Hb : bool_decide (is_Some ?x) = true, Hn : ?x = None |- _ =>
    apply bool_decide_eq_true in Hb; rewrite Hn in Hb; by destruct Hb
  end.

Ltac no_fault Hrel :=
  exfalso;
  solve [ none_is_some | congruence
        | replies Hrel; first [none_is_some | congruence] ].

Lemma bind_returned {A B} (m : M A) (k : A -> M B) s a s1 :
  m s = (inr a, s1) -> bind m k s = k a s1.
Proof. intros H. unfold bind. by rewrite H. Qed.

Section Returns.

Context (env : environment) (Hrel : reliable env).

Lemma launch_succeeds s :
  launch_state (self s) = false -> configured (self s) ->
  exists s',
    __launch env s = (inr tt, s') /\ self s' = launched (self s) /\ fs s' = fs s.
Proof.
  intros Hl (Hproject & Hlocation & Hkey).
  destruct (__launch env s) as [[e | []] s'] eqn:H.
  - exfalso. unfold __launch in H. run_any.
    rewrite Hl in H. simpl in H. run_any.
    all: try replies Hrel.
    all: by match goal with
            | Hn : ?x = None, Hs : is_Some ?x |- _ =>
              rewrite Hn in Hs; destruct Hs
            | Hs : is_Some None |- _ => destruct Hs
            end.
  - exists s'. by apply (launch_first _ _ _ Hl) in H as (? & ? & _).
Qed.

Lemma create_text_prompt_succeeds s :
  handles_set (self s) ->
  exists s',
    create_text_prompt env s = (inr tt, s') /\ handles_set (self s') /\
    fs s' = fs s.
Proof.
  intros (Hpm & Him & Hem).
  destruct (create_text_prompt env s) as [r s'] eqn:H.
  unfold create_text_prompt in H. run_any.
  all: first [no_fault Hrel | by eexists].
Qed.

Lemma generate_image_succeeds s :
  handles_set (self s) ->
  exists s',
    generate_image env s = (inr temp_img_path, s') /\ handles_set (self s') /\
    is_Some (fs s' !! temp_img_path).
Proof.
  intros (Hpm & Him & Hem).
  destruct (generate_image env s) as [r s'] eqn:H.
  unfold generate_image in H.
  run_any; rewrite ?generate_images_request in *; run_any.
  all: try (destruct (bool_decide _) eqn:?); run_any.
  all: try no_fault Hrel.
  all: eexists; (split; [reflexivity |]); unfold handles_set; unfold_state;
    split_and!; try done; by rewrite lookup_insert_eq.
Qed.

Lemma identify_lags_succeeds s :
  handles_set (self s) -> is_Some (fs s !! temp_img_path) ->
  exists lags s',
    identify_lags env s = (inr lags, s') /\ self s' = self s /\ fs s' = fs s.
Proof.
  intros (Hpm & Him & Hem) Htemp.
  destruct (identify_lags env s) as [r s'] eqn:H.
  unfold identify_lags in H. run_any.
  all: try no_fault Hrel.
  match goal with
  | R : inr _ = text ?rsp |- context [text ?rsp] => rewrite <- R
  end.
  by eexists _, _.
Qed.

Lemma fix_image_succeeds retest s :
  handles_set (self s) -> is_Some (fs s !! temp_img_path) ->
  exists p s', fix_image env retest s = (inr p, s').
Proof.
  intros Hset Htemp.
  destruct (identify_lags_succeeds s Hset Htemp) as (lags & s1 & E & Hself & Hfs).
  destruct (fix_image env retest s) as [r s'] eqn:H.
  unfold fix_image in H. rewrite (bind_returned _ _ _ _ _ E) in H.
  cbv beta zeta in H. destruct Hset as (Hpm & Him & Hem).
  destruct retest; run_any.
  all: rewrite ?Hself, ?Hfs in *.
  all: try match goal with
           | L : identify_lags env ?S = _ |- _ =>
             let E' := fresh "E" in
             destruct (identify_lags_succeeds S) as (? & ? & E' & ? & ?);
             [ unfold handles_set; unfold_state; by rewrite Hself
             | unfold_state; by rewrite lookup_insert_eq
             | rewrite E' in L; simplify_eq ]
           end.
  all: unfold_state.
  all: repeat match goal with
              | Hs : self ?x = _ |- _ => rewrite Hs in *; clear Hs
              | Hf : fs ?x = _ |- _ => rewrite Hf in *; clear Hf
              end.
  all: unfold_state.
  all: try simplify_map_eq.
  all: try no_fault Hrel.
  all: by eexists _, _.
Qed.

Lemma open_each_succeeds paths : forall acc s,
  Forall (fun path => is_Some (fs s !! path)) paths ->
  exists imgs s',
    open_each env paths acc s = (inr imgs, s') /\ self s' = self s /\
    fs s' = fs s.
Proof.
  induction paths as [| path rest IH]; intros acc s Hall; simpl.
  - by eexists _, _.
  - apply Forall_cons in Hall as [Hpath Hrest].
    destruct (PIL_Image_open env path s) as [r s1] eqn:R.
    pose proof R as R'. run_prim R'; try no_fault Hrel.
    rewrite (bind_returned _ _ _ _ _ R).
    match goal with
    | |- context [open_each env rest ?acc' ?s1] =>
      destruct (IH acc' s1) as (imgs & s' & E & Hself & Hfs); [exact Hrest |]
    end.
    eexists _, _. split; [exact E | by rewrite Hself, Hfs].
Qed.

Lemma extract_image_information_succeeds s :
  launch_state (self s) = true -> is_Some (pm (self s)) ->
  nonempty (images (self s)) = true -> attached s ->
  exists info s',
    extract_image_information env s = (inr info, s') /\ self s' = self s /\
    fs s' = fs s.
Proof.
  intros Hl Hpm Hne Hatt.
  destruct (images (self s)) as [paths |] eqn:Hpaths; [| done].
  destruct (open_each_succeeds paths [] s (Hatt _ Hpaths))
    as (imgs & s1 & E & Hself & Hfs).
  assert (load_images env s = (inr imgs, s1)) as L.
  { unfold load_images. rewrite (bind_returned _ _ _ _ _ (launch_again _ _ Hl)).
    unfold bind, get_self. by rewrite Hpaths. }
  destruct (extract_image_information env s) as [r s'] eqn:H.
  unfold extract_image_information in H.
  rewrite (bind_returned _ _ _ _ _ L) in H. cbv beta zeta in H.
  run_any.
  all: rewrite ?Hself, ?Hfs in *.
  all: try no_fault Hrel.
  replies Hrel.
  match goal with
  | R : inr _ = ?call, Q : ?call = inr _ |- _ => rewrite Q in R; simplify_eq
  end.
  match goal with
  | R : text ?rsp = inr _ |- context [text ?rsp] => rewrite R
  end.
  eexists _, _. split; [reflexivity |]. by unfold_state.
Qed.

Lemma extract_information_succeeds s :
  launch_state (self s) = false -> configured (self s) -> attached s ->
  exists s',
    extract_information env s = (inr tt, s') /\ handles_set (self s') /\
    fs s' = fs s.
Proof.
  intros Hl Hconf Hatt.
  destruct (launch_succeeds s Hl Hconf) as (s1 & E & Hself & Hfs).
  destruct (extract_information env s) as [r s'] eqn:H.
  unfold extract_information in H.
  rewrite (bind_returned _ _ _ _ _ E) in H. cbv beta zeta in H.
  run_any.
  all: rewrite ?Hself, ?Hfs in *; unfold launched in *; unfold_state.
  all: try no_fault Hrel.
  all: destruct (nonempty (images (self s))) eqn:Hne.
  all: run_any.
  all: try match goal with
           | L : extract_image_information env ?S = _ |- _ =>
             let E' := fresh "E" in
             destruct (extract_image_information_succeeds S)
               as (? & ? & E' & ? & ?);
             [ unfold_state; by rewrite Hself
             | unfold_state; by rewrite Hself
             | unfold_state; by rewrite Hself
             | unfold attached; unfold_state; rewrite Hself, Hfs; exact Hatt
             | rewrite E' in L; simplify_eq ]
           end.
  all: try (eexists; split; [reflexivity |]); unfold handles_set in *.
  all: unfold_state.
  all: repeat match goal with
              | Hs : self ?x = _ |- _ => rewrite Hs in *; clear Hs
              | Hf : fs ?x = _ |- _ => rewrite Hf in *; clear Hf
              end.
  all: unfold_state.
  all: try no_fault Hrel.
  all: by split_and!.
Qed.

(** On a new session whose configuration has the three keys and whose
    attached images are files, [execute] returns. *)
Lemma execute_succeeds QC s :
  launch_state (self s) = false -> configured (self s) -> attached s ->
  exists p s', execute env QC s = (inr p, s').
Proof.
  intros Hl Hconf Hatt.
  destruct (extract_information_succeeds s Hl Hconf Hatt) as (s1 & E1 & Hset1 & _).
  destruct (create_text_prompt_succeeds s1 Hset1) as (s2 & E2 & Hset2 & _).
  destruct (generate_image_succeeds s2 Hset2) as (s3 & E3 & Hset3 & Htemp).
  destruct (fix_image_succeeds QC s3 Hset3 Htemp) as (p & s4 & E4).
  exists p, s4. unfold execute.
  rewrite (bind_returned _ _ _ _ _ E1), (bind_returned _ _ _ _ _ E2),
    (bind_returned _ _ _ _ _ E3), (bind_returned _ _ _ _ _ E4).
  done.
Qed.

End Returns.


(** ** The example run, evaluated *)

Lemma returned_run {A} (m : M A) (s : state) (a : A) :
  (m s).1 = inr a -> m s = (inr a, (m s).2).
Proof. destruct (m s) as [r s']. simpl. by intros ->. Qed.

Lemma ghee_returns (QC : bool) :
  (execute example_env QC ghee_start).1 = inr ghee_path.
Proof. destruct QC; vm_compute; reflexivity. Qed.

(** C1.  With the quality-check flag, the second critique and repair
    are made: the run has two edit calls, the first returning picture 2
    and the last returning picture 3.  The image at the output path is
    picture 2, the result of the first edit ([img_response_v2], line
    197); the result of the last edit is only at the temporary path. *)
Theorem qc_output_is_first_edit :
  let run := execute example_env true ghee_start in
  run.1 = inr ghee_path /\
  map snd (List.filter is_edit (trace run.2)) =
    [inr (ImagesOf {| generated := [picture 2] |});
     inr (ImagesOf {| generated := [picture 3] |})] /\
  fs run.2 !! ghee_path = Some (picture 2) /\
  fs run.2 !! temp_img_path = Some (picture 3) /\
  picture 2 <> picture 3.
Proof. vm_compute. split_and!; try reflexivity. discriminate. Qed.

Lemma ghee_launch_returns : (__launch example_env ghee_start).1 = inr tt.
Proof. vm_compute. reflexivity. Qed.

Lemma ghee_extract_returns :
  (extract_information example_env ghee_start).1 = inr tt.
Proof. vm_compute. reflexivity. Qed.

Lemma ghee_generate_returns :
  (generate_image example_env ghee_described).1 = inr temp_img_path.
Proof. vm_compute. reflexivity. Qed.

Lemma ghee_fix_returns (retest : bool) :
  (fix_image example_env retest ghee_drafted).1 = inr ghee_path.
Proof. destruct retest; vm_compute; reflexivity. Qed.

Lemma bangs_returns :
  (execute example_env false (example_start (py "!!!") None None)).1 =
  inr (py "images/output/.jpg").
Proof. vm_compute. reflexivity. Qed.

Lemma fix_image_edit_calls_witness :
  exists evs,
    trace (fix_image example_env true ghee_drafted).2 =
    trace ghee_drafted ++ evs /\
    length (List.filter is_edit evs) = 2%nat.
Proof.
  destruct (fix_image_edit_calls example_env true ghee_drafted _ _
              (returned_run _ _ _ (ghee_fix_returns true)))
    as (evs & _ & _ & _ & _ & _ & _ & _ & Htr & Hlen & _).
  exists evs. split; [exact Htr | exact Hlen].
Defined.

Lemma text_v1_is_sliced_reply_witness :
  exists t,
    text_v1 (self (extract_information example_env ghee_start).2) =
    Some (without_ends 9 5 t).
Proof.
  destruct (text_v1_is_sliced_reply example_env ghee_start _
              (returned_run _ _ _ ghee_extract_returns))
    as (_ & _ & _ & _ & t & _ & _ & _ & _ & Hv1 & _).
  exists t. exact Hv1.
Defined.

Lemma generate_image_overwrites_temp_witness :
  temp_img_path = py "images/temp/temp.jpg" /\
  exists i, fs ghee_drafted !! temp_img_path = Some i.
Proof.
  destruct (generate_image_overwrites_temp example_env ghee_described _ _
              (returned_run _ _ _ ghee_generate_returns))
    as (_ & Hp & _ & i & _ & _ & _ & _ & Hfs & _).
  split; [exact Hp |]. exists i. unfold ghee_drafted. rewrite Hfs.
  apply lookup_insert_eq.
Defined.


Lemma launch_idempotent_witness :
  __launch example_env (__launch example_env ghee_start).2 =
  (inr tt, (__launch example_env ghee_start).2).
Proof.
  exact (proj2 (launch_idempotent example_env ghee_start _
                  (returned_run _ _ _ ghee_launch_returns)) 1%nat).
Defined.

(** With an attached image, the image is opened, converted to RGB and
    sent with the extraction prompt, and the image request carries the
    ratio 16:9. *)
Lemma ghee_with_image_run :
  let run := execute example_env false ghee_with_image in
  run.1 = inr ghee_path /\
  List.filter is_describe (trace run.2) =
    [ (PilOpen (py "ghee.png"), inr (ImageOf {| mode := py "RGBA"; pixels := 7 |}));
      (GenerateContent (GenerativeModel (py "gemini-1.5-flash"))
         (Parts [Text extraction_prompt;
                 Picture {| mode := py "RGB"; pixels := 7 |}]),
       inr (ResponseOf {| text := inr (py "```python
{'Product': 'Ghee'}
```
") |}));
      (PilOpen temp_img_path, inr (ImageOf (picture 1)));
      (GenerateContent (GenerativeModel (py "gemini-1.5-flash"))
         (Parts [Text (critique_prompt (py "```python
{'Product': 'Ghee'}
```
")); Picture (picture 1)]),
       inr (ResponseOf {| text := inr (py "```python
{'Product': 'Ghee'}
```
") |})) ] /\
  map (fun ev => match ev.1 with
                 | GenerateImages _ _ ar => ar
                 | _ => None
                 end)
    (List.filter is_generate (trace run.2)) = [Some R16_9] /\
  text_v1 (self run.2) = Some (py "
{'Product': 'Ghee'}").
Proof. vm_compute. split_and!; reflexivity. Qed.

(** When the text service fails on the consolidation request, the run
    ends there with the fault of the service and no image is made. *)
Lemma flaky_run :
  let run := execute flaky_env false ghee_start in
  run.1 = inl (Fault 503) /\
  last (map snd (trace run.2)) = Some (inl (Fault 503)) /\
  length (trace run.2) = 7%nat /\
  fs run.2 !! temp_img_path = None /\ fs run.2 !! ghee_path = None.
Proof. vm_compute. split_and!; reflexivity. Qed.

Lemma example_reliable : reliable example_env.
Proof.
  split_and!.
  - done.
  - intros tr m c. eexists _, _. split; reflexivity.
  - intros tr m q ar. eexists _, _, _. split; reflexivity.
  - intros tr m b q em mm. eexists _, _, _. split; reflexivity.
Qed.

Lemma example_configured topic images ar :
  configured (self (example_start topic images ar)).
Proof. split_and!; vm_compute; by eexists. Qed.

Lemma ghee_attached : attached ghee_start.
Proof. intros paths H. discriminate H. Qed.


(** ** Further properties of the stages

    *** [__launch] *)

Section Launch.
Context (env : environment).

(** X1.  A first [__launch] that returns has made exactly four calls,
    in this order: [vertexai.init] with the [PROJECT_ID] and [LOCATION]
    of [CONFIGS], [genai.configure] with its [API_KEY], and
    [from_pretrained] for the image model and for the edit model.  It
    has printed its one line. *)
Theorem launch_setup_calls (s s' : state) :
  launch_state (self s) = false ->
  __launch env s = (inr tt, s') ->
  exists project location api_key,
    CONFIGS (self s) !! py "PROJECT_ID" = Some project /\
    CONFIGS (self s) !! py "LOCATION" = Some location /\
    CONFIGS (self s) !! py "API_KEY" = Some api_key /\
    trace s' = trace s ++ setup_calls (self s) project location api_key /\
    stdout s' = stdout s ++ [py "Model Launch successful!"].
Proof.
  intros Hl H. unfold __launch in H.
  run_bind H as R. run_prim R. rewrite Hl in H. simpl in H.
  run_returned.
  eexists _, _, _. split_and!; try done.
  unfold setup_calls. by rewrite <- !app_assoc.
Qed.

(** X2.  On a session not yet launched, a key missing from [CONFIGS]
    ends [__launch] with [KeyError] for that key, the keys being read
    in the order [PROJECT_ID], [LOCATION], [API_KEY].  For the first two
    nothing has been done; for [API_KEY], [vertexai.init] has already
    been called. *)
Theorem launch_missing_key (s : state) :
  launch_state (self s) = false ->
  (CONFIGS (self s) !! py "PROJECT_ID" = None ->
   __launch env s = (inl (KeyError (py "PROJECT_ID")), s)) /\
  (is_Some (CONFIGS (self s) !! py "PROJECT_ID") ->
   CONFIGS (self s) !! py "LOCATION" = None ->
   __launch env s = (inl (KeyError (py "LOCATION")), s)) /\
  (forall project location,
     CONFIGS (self s) !! py "PROJECT_ID" = Some project ->
     CONFIGS (self s) !! py "LOCATION" = Some location ->
     CONFIGS (self s) !! py "API_KEY" = None ->
     fails env (trace s) (VertexaiInit project location) = None ->
     __launch env s =
       (inl (KeyError (py "API_KEY")),
        log (VertexaiInit project location) (inr NoValue) s)).
Proof.
  intros Hl. split_and!.
  - intros Hp. unfold __launch, bind, get_self, config. rewrite Hl. simpl.
    unfold bind, get_self. by rewrite Hp.
  - intros [project Hp] Hloc. unfold __launch, bind, get_self, config. rewrite Hl. simpl.
    unfold bind, get_self, ret. rewrite Hp. simpl. by rewrite Hloc.
  - intros project location Hp Hloc Hkey Hok.
    unfold __launch, bind, get_self, config. rewrite Hl. simpl.
    unfold bind, get_self, ret. rewrite Hp. simpl. rewrite Hloc. simpl.
    unfold sdk, perform, guard. rewrite Hok. simpl. by rewrite Hkey.
Qed.

(** X3.  A [__launch] that ends with a fault was not a repeated launch
    and leaves [launch_state] false, so that the next stage launches
    again; it has not set the edit handle, has written no file and has
    printed nothing. *)
Theorem launch_fault_not_marked (s : state) (e : fault) (s' : state) :
  __launch env s = (inl e, s') ->
  launch_state (self s) = false /\ launch_state (self s') = false /\
  em (self s') = em (self s) /\ fs s' = fs s /\ stdout s' = stdout s.
Proof.
  intros H. unfold __launch in H.
  run_bind H as R; [by run_prim H |]. run_prim R.
  match type of H with
  | context [launch_state ?st] => destruct (launch_state st) eqn:Hl
  end; simpl in H; [by run_prim H |].
  run_any; done.
Qed.

End Launch.

(** *** Invariants, stage by stage *)

#[export] Instance same_but_preorder clear : PreOrder (same_but clear).
Proof.
  split.
  - by intros s.
  - intros s1 s2 s3 H12 H23. unfold same_but in *. by rewrite H23.
Qed.

#[export] Instance same_files_but_preorder paths : PreOrder (same_files_but paths).
Proof.
  split.
  - by intros s q _.
  - intros s1 s2 s3 H12 H23 q Hq. by rewrite (H23 q Hq), (H12 q Hq).
Qed.

#[export] Instance warm_preorder : PreOrder warm.
Proof.
  split.
  - intros s Hl. split; [done |]. exists []. by rewrite app_nil_r.
  - intros s1 s2 s3 H12 H23 Hl.
    destruct (H12 Hl) as (Hl2 & evs1 & E1 & F1).
    destruct (H23 Hl2) as (Hl3 & evs2 & E2 & F2).
    split; [done |]. exists (evs1 ++ evs2).
    split; [by rewrite E2, E1, app_assoc | by apply Forall_app].
Qed.

Section Upholds.

Context (R : relation state) `{!PreOrder R}.

Lemma upholds_bind {A B} (m : M A) (k : A -> M B) :
  upholds R m -> (forall a, upholds R (k a)) -> upholds R (bind m k).
Proof.
  intros Hm Hk s r s' H.
  apply bind_run in H as [(e & H & ->) | (a & s1 & H1 & H)].
  - by eapply Hm.
  - etrans; [by eapply Hm | by eapply Hk].
Qed.

Lemma upholds_still {A} (m : M A) :
  (forall s, (m s).2 = s) -> upholds R m.
Proof.
  intros Hm s r s' H. specialize (Hm s). rewrite H in Hm. simpl in Hm.
  by subst.
Qed.

Lemma upholds_ret {A} (a : A) : upholds R (ret a).
Proof. by apply upholds_still. Qed.

Lemma upholds_raise {A} e : upholds R (@raise A e).
Proof. by apply upholds_still. Qed.

Lemma upholds_get_self : upholds R get_self.
Proof. by apply upholds_still. Qed.

Lemma upholds_attr {A} (o : option A) : upholds R (attr o).
Proof. destruct o; [apply upholds_ret | apply upholds_raise]. Qed.

Lemma upholds_first_image r : upholds R (first_image r).
Proof.
  unfold first_image.
  destruct (generated r); [apply upholds_raise | apply upholds_ret].
Qed.

Lemma upholds_os_path_exists path : upholds R (os_path_exists path).
Proof. by apply upholds_still. Qed.

Lemma upholds_open_each env paths :
  (forall path, upholds R (PIL_Image_open env path)) ->
  forall loaded, upholds R (open_each env paths loaded).
Proof.
  intros Hopen. induction paths as [| image_path rest IH]; intros loaded; simpl.
  - apply upholds_ret.
  - apply upholds_bind; [apply Hopen | intros img; apply IH].
Qed.

End Upholds.

(** One step through a stage; [solver] shows the relation for the
    operations that change the state. *)
Ltac upholds_step solver :=
  first
    [ apply upholds_bind; [tc_solve | |]
    | apply upholds_ret; tc_solve | apply upholds_raise; tc_solve
    | apply upholds_get_self; tc_solve | apply upholds_attr; tc_solve
    | apply upholds_first_image; tc_solve
    | apply upholds_os_path_exists; tc_solve
    | apply upholds_open_each; [tc_solve |]
    | progress intros
    | match goal with
      | |- upholds _ (if ?b then _ else _) => destruct b
      | |- upholds _ (match ?o with Some _ => _ | None => _ end) => destruct o
      end
    | let s := fresh "s" in
      let r := fresh "r" in
      let s' := fresh "s" in
      let H := fresh "H" in
      intros s r s' H; run_prim_at H; solver ].

Ltac slots := unfold same_but; unfold_state; done.

Ltac files :=
  let q := fresh "q" in
  let Hq := fresh "Hq" in
  intros q Hq; unfold_state;
  repeat (apply not_elem_of_cons in Hq as [? Hq]);
  by rewrite ?lookup_insert_ne, ?lookup_delete_ne.

Ltac calls :=
  let Hl := fresh "Hl" in
  intros Hl; unfold_state; (split; [done |]); new_calls;
  repeat constructor.

Section Frames.

Context (env : environment).

Lemma launch_slots_only : upholds (same_but launch_slots) (__launch env).
Proof. unfold __launch, from_pretrained, config. repeat upholds_step slots. Qed.

Lemma extraction_slots_launch : upholds (same_but extraction_slots) (__launch env).
Proof. unfold __launch, from_pretrained, config. repeat upholds_step slots. Qed.

Lemma extraction_slots_only :
  upholds (same_but extraction_slots) (extract_information env).
Proof.
  unfold extract_information, extract_image_information, load_images.
  repeat first [apply extraction_slots_launch | upholds_step slots].
Qed.

Lemma text_v3_only : upholds (same_but (set_text_v3 None)) (create_text_prompt env).
Proof. unfold create_text_prompt. repeat upholds_step slots. Qed.

Lemma img_response_v1_only :
  upholds (same_but (set_img_response_v1 None)) (generate_image env).
Proof. unfold generate_image. repeat upholds_step slots. Qed.

Lemma identify_lags_no_slot : upholds (same_but id) (identify_lags env).
Proof. unfold identify_lags. repeat upholds_step slots. Qed.

Lemma identify_lags_slots clear : upholds (same_but clear) (identify_lags env).
Proof.
  intros s r s' H. apply identify_lags_no_slot in H. unfold same_but in *.
  simpl in H. by rewrite H.
Qed.

Lemma img_response_v2_only :
  upholds (same_but (set_img_response_v2 None)) (fix_image env false).
Proof.
  unfold fix_image.
  repeat first [apply identify_lags_slots | upholds_step slots].
Qed.

Lemma repair_slots_only retest :
  upholds (same_but repair_slots) (fix_image env retest).
Proof.
  unfold fix_image.
  repeat first [apply identify_lags_slots | upholds_step slots].
Qed.

(** Files *)
Lemma launch_files paths : upholds (same_files_but paths) (__launch env).
Proof. unfold __launch, from_pretrained, config. repeat upholds_step files. Qed.

Lemma extract_information_files paths :
  upholds (same_files_but paths) (extract_information env).
Proof.
  unfold extract_information, extract_image_information, load_images.
  repeat first [apply launch_files | upholds_step files].
Qed.

Lemma create_text_prompt_files paths :
  upholds (same_files_but paths) (create_text_prompt env).
Proof. unfold create_text_prompt. repeat upholds_step files. Qed.

Lemma generate_image_files :
  upholds (same_files_but [temp_img_path]) (generate_image env).
Proof. unfold generate_image. repeat upholds_step files. Qed.

Lemma identify_lags_files paths :
  upholds (same_files_but paths) (identify_lags env).
Proof. unfold identify_lags. repeat upholds_step files. Qed.

(** Calls *)
Lemma launch_warm : upholds warm (__launch env).
Proof.
  intros s r s' H Hl. rewrite (launch_again _ _ Hl) in H. simplify_eq.
  split; [done |]. exists []. by rewrite app_nil_r.
Qed.

Lemma extract_information_warm : upholds warm (extract_information env).
Proof.
  unfold extract_information, extract_image_information, load_images.
  repeat first [apply launch_warm | upholds_step calls].
Qed.

Lemma create_text_prompt_warm : upholds warm (create_text_prompt env).
Proof. unfold create_text_prompt. repeat upholds_step calls. Qed.

Lemma generate_image_warm : upholds warm (generate_image env).
Proof. unfold generate_image. repeat upholds_step calls. Qed.

Lemma identify_lags_warm : upholds warm (identify_lags env).
Proof. unfold identify_lags. repeat upholds_step calls. Qed.

Lemma fix_image_warm retest : upholds warm (fix_image env retest).
Proof.
  unfold fix_image.
  repeat first [apply identify_lags_warm | upholds_step calls].
Qed.

Lemma execute_warm QC : upholds warm (execute env QC).
Proof.
  unfold execute.
  repeat first
    [ apply extract_information_warm | apply create_text_prompt_warm
    | apply generate_image_warm | apply fix_image_warm | upholds_step calls ].
Qed.

End Frames.

Section Invariants.

Context (env : environment).

(** X4.  Each stage assigns only its own slots of the session, in
    every run, whatever its outcome: the extraction assigns at most the
    three handles, [launch_state] and [text_v0] to [text_v2];
    [create_text_prompt] at most [text_v3]; [generate_image] at most
    [img_response_v1]; [identify_lags] nothing; [fix_image] at most
    [img_response_v2], and [img_response_v3] with [retest]. *)
Theorem stages_assign_own_slots (s : state) :
  extraction_slots (self (extract_information env s).2) = extraction_slots (self s) /\
  set_text_v3 None (self (create_text_prompt env s).2) = set_text_v3 None (self s) /\
  set_img_response_v1 None (self (generate_image env s).2) =
    set_img_response_v1 None (self s) /\
  self (identify_lags env s).2 = self s /\
  set_img_response_v2 None (self (fix_image env false s).2) =
    set_img_response_v2 None (self s) /\
  repair_slots (self (fix_image env true s).2) = repair_slots (self s).
Proof.
  split_and!.
  - destruct (extract_information env s) as [r s'] eqn:H.
    exact (extraction_slots_only env _ _ _ H).
  - destruct (create_text_prompt env s) as [r s'] eqn:H.
    exact (text_v3_only env _ _ _ H).
  - destruct (generate_image env s) as [r s'] eqn:H.
    exact (img_response_v1_only env _ _ _ H).
  - destruct (identify_lags env s) as [r s'] eqn:H.
    exact (identify_lags_no_slot env _ _ _ H).
  - destruct (fix_image env false s) as [r s'] eqn:H.
    exact (img_response_v2_only env _ _ _ H).
  - destruct (fix_image env true s) as [r s'] eqn:H.
    exact (repair_slots_only env true _ _ _ H).
Qed.

(** X5.  No run of [execute], whatever its outcome, assigns a declared
    input of the session: the configuration, the topic, the image list,
    the aspect ratio and the three model names are those it started
    with. *)
Theorem execute_inputs_kept (QC : bool) (s : state) :
  let st := self (execute env QC s).2 in
  CONFIGS st = CONFIGS (self s) /\ topic st = topic (self s) /\
  images st = images (self s) /\ aspect_ratio st = aspect_ratio (self s) /\
  text_model st = text_model (self s) /\ image_model st = image_model (self s) /\
  edit_model st = edit_model (self s).
Proof.
  destruct (execute env QC s) as [r s'] eqn:H. simpl.
  destruct (orderly_execute env QC) as [K _]. apply K in H.
  unfold inputs in H. by simplify_eq.
Qed.

(** X6.  On a session already launched, no run of [execute], whatever
    its outcome, calls [vertexai.init], [genai.configure] or
    [from_pretrained], and the session stays launched. *)
Theorem execute_launched_no_setup (QC : bool) (s : state) :
  launch_state (self s) = true ->
  launch_state (self (execute env QC s).2) = true /\
  exists evs,
    trace (execute env QC s).2 = trace s ++ evs /\
    List.filter is_setup evs = [].
Proof.
  intros Hl. destruct (execute env QC s) as [r s'] eqn:H.
  destruct (execute_warm env QC _ _ _ H Hl) as (Hl' & evs & Htr & Hall).
  split; [done |]. exists evs. split; [done |].
  clear Htr. induction Hall as [| ev evs Hev _ IH]; [done |].
  simpl. by rewrite Hev.
Qed.

Lemma output_not_temp db topic : output_img_path db topic <> temp_img_path.
Proof.
  rewrite output_path_sanitized. intros H.
  apply (f_equal (take 8)) in H. vm_compute in H. discriminate.
Qed.

Lemma identify_lags_run s r s' :
  identify_lags env s = (r, s') -> self s' = self s /\ fs s' = fs s.
Proof.
  intros H. split.
  - exact (identify_lags_no_slot env _ _ _ H).
  - apply map_eq. intros q.
    apply (identify_lags_files env [] _ _ _ H), not_elem_of_nil.
Qed.

(** A run of [fix_image], followed to its end with the critiques taken
    as wholes. *)
Ltac run_repair H :=
  unfold fix_image in H;
  run_any;
  repeat match goal with
         | L : identify_lags _ _ = _ |- _ =>
           apply identify_lags_run in L as [? ?]
         end;
  cbn [fst snd]; unfold_state;
  repeat match goal with
         | Hs : self ?x = _ |- _ => rewrite Hs in *; clear Hs
         | Hf : fs ?x = _ |- _ => rewrite Hf in *; clear Hf
         end;
  unfold_state.

Lemma fix_image_files retest s r s' :
  fix_image env retest s = (r, s') ->
  (forall q,
     q <> temp_img_path -> q <> output_img_path (ucd env) (topic (self s)) ->
     fs s' !! q = fs s !! q) /\
  (forall e, r = inl e ->
     fs s' !! output_img_path (ucd env) (topic (self s)) =
     fs s !! output_img_path (ucd env) (topic (self s))).
Proof.
  intros H. pose proof (output_not_temp (ucd env) (topic (self s))) as Hne.
  destruct retest; run_repair H.
  all: split; [intros q Ht Ho | intros e' He'; simplify_eq].
  all: by rewrite ?lookup_insert_ne.
Qed.

End Invariants.

Section ExecuteFiles.

Context (env : environment).

(** The state in which [execute] reaches the repair stage, or the one
    in which it stops before. *)
Lemma execute_run QC s r s' :
  execute env QC s = (r, s') ->
  exists s3,
    inputs (self s3) = inputs (self s) /\
    (forall q, q <> temp_img_path -> fs s3 !! q = fs s !! q) /\
    ((exists e, r = inl e /\ s' = s3) \/ fix_image env QC s3 = (r, s')).
Proof.
  intros H. unfold execute in H.
  destruct (orderly_extract_information env) as [K1 _].
  destruct (orderly_create_text_prompt env) as [K2 _].
  destruct (orderly_generate_image env) as [K3 _].
  pose proof (extract_information_files env []) as F1.
  pose proof (create_text_prompt_files env []) as F2.
  pose proof (generate_image_files env) as F3.
  assert (forall q : pystr, q ∉ @nil pystr) as Hnil by (intros q; apply not_elem_of_nil).
  assert (forall q, q <> temp_img_path -> q ∉ [temp_img_path]) as Htemp.
  { intros q Hq. by apply not_elem_of_cons; split; [| apply not_elem_of_nil]. }
  apply bind_run in H as [(e & H & ->) | (a1 & s1 & R1 & H)].
  { exists s'. split_and!; [by eapply K1 | | left; by exists e].
    intros q _. by apply (F1 _ _ _ H). }
  apply bind_run in H as [(e & H & ->) | (a2 & s2 & R2 & H)].
  { exists s'. split_and!; [| | left; by exists e].
    - rewrite (K2 _ _ _ H). by eapply K1.
    - intros q _. rewrite (F2 _ _ _ H q (Hnil q)). by apply (F1 _ _ _ R1). }
  apply bind_run in H as [(e & H & ->) | (a3 & s3 & R3 & H)].
  { exists s'. split_and!; [| | left; by exists e].
    - rewrite (K3 _ _ _ H), (K2 _ _ _ R2). by eapply K1.
    - intros q Hq. rewrite (F3 _ _ _ H q (Htemp q Hq)).
      rewrite (F2 _ _ _ R2 q (Hnil q)). by apply (F1 _ _ _ R1). }
  exists s3. split_and!.
  - rewrite (K3 _ _ _ R3), (K2 _ _ _ R2). by eapply K1.
  - intros q Hq. rewrite (F3 _ _ _ R3 q (Htemp q Hq)).
    rewrite (F2 _ _ _ R2 q (Hnil q)). by apply (F1 _ _ _ R1).
  - right. apply bind_run in H as [(e & H & ->) | (p & s4 & R4 & H)]; [done |].
    unfold ret in H. by simplify_eq.
Qed.

(** X7.  In every run of [execute], whatever its outcome, a file other
    than the temporary image and the output image of the topic is left
    as it is: neither changed, nor created, nor deleted.  An attached
    image at another path is only read. *)
Theorem execute_writes_two_paths (QC : bool) (s : state) (q : pystr) :
  q <> temp_img_path -> q <> output_img_path (ucd env) (topic (self s)) ->
  fs (execute env QC s).2 !! q = fs s !! q.
Proof.
  intros Ht Ho. destruct (execute env QC s) as [r s'] eqn:H. simpl.
  apply execute_run in H as (s3 & Hin & Hfs & [(e & -> & ->) | H]).
  - by apply Hfs.
  - apply fix_image_files in H as [H _].
    rewrite (inputs_topic _ _ Hin) in H. rewrite (H q Ht Ho). by apply Hfs.
Qed.


End ExecuteFiles.

(** *** Stages called out of turn *)

Section Edges.

Context (env : environment).

(** X9.  Only the extraction launches the models.  On a session whose
    text handle is not set, [create_text_prompt], [identify_lags] and
    [fix_image] end at once with [AttributeError]; so does
    [generate_image] when the image handle is not set.  Nothing is
    called, written or printed. *)
Theorem stages_do_not_launch (s : state) :
  (pm (self s) = None ->
   create_text_prompt env s = (inl AttributeError, s) /\
   identify_lags env s = (inl AttributeError, s) /\
   forall retest, fix_image env retest s = (inl AttributeError, s)) /\
  (im (self s) = None -> generate_image env s = (inl AttributeError, s)).
Proof.
  split.
  - intros Hpm.
    assert (identify_lags env s = (inl AttributeError, s)) as Hlags.
    { unfold identify_lags, bind, get_self. by rewrite Hpm. }
    split_and!; [| done |].
    + unfold create_text_prompt, bind, get_self. by rewrite Hpm.
    + intros retest. unfold fix_image, bind. by rewrite Hlags.
  - intros Him. unfold generate_image, bind, get_self. by rewrite Him.
Qed.

(** X10.  No stage checks that the stage before it has run.  On a
    session with its handles set whose [text_v2] is [None],
    [create_text_prompt] first asks the text service to fill in the
    json "None"; with [text_v3] [None], [generate_image] first asks for
    an image of the json "None". *)
Theorem stages_format_None (s : state) (m : text_handle) (g : image_handle) :
  pm (self s) = Some m -> im (self s) = Some g ->
  (text_v2 (self s) = None ->
   exists o rest,
     trace (create_text_prompt env s).2 =
     trace s ++ (GenerateContent m (Prompt (fill_prompt (py "None"))), o) :: rest) /\
  (text_v3 (self s) = None ->
   exists o rest,
     trace (generate_image env s).2 =
     trace s ++
     (GenerateImages g (image_prompt (py "None")) (aspect_ratio (self s)), o) :: rest).
Proof.
  intros Hpm Him. split.
  - intros Hv2. destruct (create_text_prompt env s) as [r s'] eqn:H.
    unfold create_text_prompt in H. run_any.
    all: match goal with Hv : text_v2 _ = None |- _ => rewrite Hv in * end.
    all: cbn [fst snd]; unfold_state; rewrite <- ?app_assoc; by eexists _, _.
  - intros Hv3. destruct (generate_image env s) as [r s'] eqn:H.
    unfold generate_image in H.
    run_any; rewrite ?generate_images_request in *; run_any.
    all: try (destruct (bool_decide _) eqn:?); run_any.
    all: match goal with Hv : text_v3 _ = None |- _ => rewrite Hv in * end.
    all: cbn [fst snd]; unfold_state; rewrite <- ?app_assoc; by eexists _, _.
Qed.

(** X11.  When the image service answers with no image,
    [generate_image] ends with [IndexError] after it has stored the
    reply in [img_response_v1] and removed the temporary image of an
    earlier run (the removal itself not failing): nothing is saved, and
    no file is left at the temporary path. *)
Theorem generate_image_empty_reply (s : state) (m : image_handle) (r : image_response) :
  im (self s) = Some m ->
  image_service env (trace s) m (image_prompt (fmt (text_v3 (self s))))
    (aspect_ratio (self s)) = inr r ->
  generated r = [] ->
  (forall tr, fails env tr (OsRemove temp_img_path) = None) ->
  exists s',
    generate_image env s = (inl IndexError, s') /\
    img_response_v1 (self s') = Some r /\
    fs s' = delete temp_img_path (fs s) /\
    forall i path o, (Save i path, o) ∉ drop (length (trace s)) (trace s').
Proof.
  intros Him Hreply Hnone Hrm.
  destruct (generate_image env s) as [r' s'] eqn:H.
  unfold generate_image in H.
  run_any; rewrite ?generate_images_request in *; run_any.
  all: try (destruct (bool_decide _) eqn:Hthere); run_any.
  all: try congruence.
  all: try match goal with
           | Hf : fails _ _ (OsRemove _) = Some _ |- _ => by rewrite Hrm in Hf
           end.
  all: try (apply bool_decide_eq_true in Hthere; none_is_some).
  all: match goal with
       | R : inr _ = image_service _ _ _ _ _ |- _ =>
         rewrite Hreply in R; simplify_eq
       end.
  all: eexists; (split; [reflexivity |]); unfold_state; split_and!; try done.
  all: try (apply bool_decide_eq_false in Hthere;
            symmetry; apply delete_id; by apply eq_None_not_Some).
  all: intros ? ? ? Hin; rewrite <- ?app_assoc, drop_app_length in Hin;
    among Hin.
Qed.

(** X12.  On a launched session without a temporary image,
    [identify_lags] and [fix_image] end with [FileNotFoundError] for
    images/temp/temp.jpg: the attempt to open the file, which finds
    none, is their only call, and the text service is not asked. *)
Theorem repair_without_draft (s : state) (m : text_handle) :
  pm (self s) = Some m -> fs s !! temp_img_path = None ->
  fails env (trace s) (PilOpen temp_img_path) = None ->
  let s' :=
    log (PilOpen temp_img_path) (inl (FileNotFoundError temp_img_path)) s in
  identify_lags env s = (inl (FileNotFoundError temp_img_path), s') /\
  forall retest,
    fix_image env retest s = (inl (FileNotFoundError temp_img_path), s').
Proof.
  intros Hpm Hnone Hok s'.
  assert (identify_lags env s = (inl (FileNotFoundError temp_img_path), s')) as H.
  { unfold identify_lags, bind, get_self. rewrite Hpm. simpl.
    unfold PIL_Image_open, read_file, perform, guard. rewrite Hok, Hnone. done. }
  split; [done |]. intros retest. unfold fix_image, bind. by rewrite H.
Qed.

End Edges.

(** *** The attached images *)

Lemma setup_not_open (evs : list event) :
  Forall (fun ev => is_setup ev = true) evs -> List.filter is_open evs = [].
Proof.
  induction 1 as [| [c o] evs Hc _ IH]; [done |].
  simpl. rewrite IH. by destruct c.
Qed.

Lemma setup_not_request (evs : list event) :
  Forall (fun ev => is_setup ev = true) evs -> List.filter is_request evs = [].
Proof.
  induction 1 as [| [c o] evs Hc _ IH]; [done |].
  simpl. rewrite IH. by destruct c.
Qed.

Lemma open_calls_open paths raws :
  List.filter is_open (open_calls paths raws) = open_calls paths raws.
Proof.
  revert raws. induction paths as [| path rest IH]; intros [| raw raws]; try done.
  simpl. by rewrite IH.
Qed.

Lemma open_calls_not_request paths raws :
  List.filter is_request (open_calls paths raws) = [].
Proof.
  revert raws. induction paths as [| path rest IH]; intros [| raw raws]; try done.
  simpl. by rewrite IH.
Qed.

Section Images.

Context (env : environment).

Lemma load_images_returns s imgs s' :
  load_images env s = (inr imgs, s') ->
  exists paths raws setup,
    images (self s) = Some paths /\
    Forall2 (fun path raw => fs s !! path = Some raw) paths raws /\
    imgs = map (as_rgb env) raws /\
    Forall (fun ev => is_setup ev = true) setup /\
    trace s' = trace s ++ setup ++ open_calls paths raws /\
    fs s' = fs s /\ launch_state (self s') = true /\
    inputs (self s') = inputs (self s) /\
    exists s0, __launch env s = (inr tt, s0) /\ self s' = self s0 /\
      stdout s' = stdout s0.
Proof.
  intros H. unfold load_images in H. run_bind H as L.
  pose proof L as L'.
  apply launch_returns in L as (Hl & Hin & Hfs & setup & Htr & Hsetup).
  run_bind H as G. run_prim G.
  match type of H with
  | context [images ?st] => destruct (images st) as [paths |] eqn:Hpaths
  end; [| by run_prim H].
  apply open_each_returns in H as (raws & Hall & -> & Hself & Hfs' & Hout & Htr').
  exists paths, raws, setup. split_and!; try done.
  - rewrite <- Hfs. exact Hall.
  - by rewrite Htr', Htr, app_assoc.
  - by rewrite Hfs'.
  - by rewrite Hself.
  - unfold inputs. rewrite Hself. congruence.
  - destruct a. by eexists.
Qed.

(** X13.  A run of [load_images] that returns has opened every path of
    [images] once, in order, and returns one image per path in the same
    order: the image of the file, converted by PIL when its mode is
    RGBA and as it is otherwise.  No file is changed.  When PIL's
    conversion yields the mode asked for, no returned image is RGBA. *)
Theorem load_images_in_order (s : state) (imgs : list image) (s' : state) :
  load_images env s = (inr imgs, s') ->
  exists paths raws evs,
    images (self s) = Some paths /\
    Forall2 (fun path raw => fs s !! path = Some raw) paths raws /\
    imgs = map (as_rgb env) raws /\
    length imgs = length paths /\
    trace s' = trace s ++ evs /\
    List.filter is_open evs = open_calls paths raws /\
    fs s' = fs s /\
    ((forall i, mode (pil_convert env i (py "RGB")) = py "RGB") ->
     Forall (fun i => mode i <> py "RGBA") imgs).
Proof.
  intros H. apply load_images_returns in H
    as (paths & raws & setup & Hp & Hall & -> & Hsetup & Htr & Hfs & _).
  exists paths, raws, (setup ++ open_calls paths raws). split_and!; try done.
  - rewrite length_map. symmetry. by eapply Forall2_length.
  - by rewrite List.filter_app, (setup_not_open _ Hsetup), open_calls_open.
  - intros Hconv. apply Forall_map, Forall_forall. intros raw _. simpl.
    unfold as_rgb. destruct (decide (mode raw = py "RGBA")) as [_ | Hne]; [| done].
    rewrite Hconv. by vm_compute.
Qed.

Lemma open_each_first_missing pre p post raws :
  (forall tr path, fails env tr (PilOpen path) = None) ->
  forall acc s,
    Forall2 (fun path raw => fs s !! path = Some raw) pre raws ->
    fs s !! p = None ->
    exists s',
      open_each env (pre ++ p :: post) acc s = (inl (FileNotFoundError p), s') /\
      trace s' =
        trace s ++ open_calls pre raws ++ [(PilOpen p, inl (FileNotFoundError p))] /\
      self s' = self s /\ fs s' = fs s /\ stdout s' = stdout s.
Proof.
  intros Hok. revert raws.
  induction pre as [| path rest IH]; intros raws acc s Hall Hnone.
  - apply Forall2_nil_inv_l in Hall as ->. simpl.
    unfold bind, PIL_Image_open, read_file, perform, guard.
    rewrite Hok, Hnone. by eexists.
  - apply Forall2_cons_inv_l in Hall as (raw & raws' & Hraw & Hall & ->). simpl.
    unfold bind at 1. unfold PIL_Image_open, read_file, perform, guard.
    rewrite Hok, Hraw.
    match goal with
    | |- context [open_each env _ ?acc' ?s1] =>
      destruct (IH raws' acc' s1) as (s' & E & Htr & Hself & Hfs & Hout);
        [exact Hall | exact Hnone |]
    end.
    exists s'. split; [exact E |]. rewrite Htr. unfold_state.
    split_and!; try done. by rewrite <- app_assoc.
Qed.

(** X14.  On a launched session whose image list names a missing file
    (opening a file failing for no other reason), [load_images] and
    [extract_image_information] end with [FileNotFoundError] for the
    first such path: the paths before it have been opened, no path
    after it, and nothing has been sent to the text service. *)
Theorem load_images_first_missing (s : state) (pre : list pystr) (p : pystr)
    (post : list pystr) (raws : list image) :
  launch_state (self s) = true ->
  images (self s) = Some (pre ++ p :: post) ->
  Forall2 (fun path raw => fs s !! path = Some raw) pre raws ->
  fs s !! p = None ->
  (forall tr path, fails env tr (PilOpen path) = None) ->
  exists s',
    load_images env s = (inl (FileNotFoundError p), s') /\
    extract_image_information env s = (inl (FileNotFoundError p), s') /\
    trace s' =
      trace s ++ open_calls pre raws ++ [(PilOpen p, inl (FileNotFoundError p))] /\
    self s' = self s /\ fs s' = fs s.
Proof.
  intros Hl Hp Hall Hnone Hok.
  destruct (open_each_first_missing pre p post raws Hok [] s Hall Hnone)
    as (s' & E & Htr & Hself & Hfs & _).
  assert (load_images env s = (inl (FileNotFoundError p), s')) as L.
  { unfold load_images. rewrite (bind_returned _ _ _ _ _ (launch_again _ _ Hl)).
    unfold bind, get_self. by rewrite Hp. }
  exists s'. split_and!; try done.
  unfold extract_image_information, bind. by rewrite L.
Qed.

(** X15.  Without an image list ([images] is [None]), [load_images] and
    [extract_image_information] never return: they end with the fault
    of the launch when it fails and with [TypeError] otherwise, in the
    state the launch left. *)
Theorem images_not_given (s : state) :
  images (self s) = None ->
  exists e,
    load_images env s = (inl e, (__launch env s).2) /\
    extract_image_information env s = (inl e, (__launch env s).2) /\
    e = match (__launch env s).1 with
        | inl e' => e'
        | inr _ => TypeError
        end.
Proof.
  intros Hnone.
  assert (exists e, load_images env s = (inl e, (__launch env s).2) /\
            e = match (__launch env s).1 with inl e' => e' | inr _ => TypeError end)
    as (e & L & He).
  { unfold load_images, bind. destruct (__launch env s) as [[e | []] s0] eqn:H.
    - by exists e.
    - exists TypeError. split; [| done]. unfold get_self. simpl.
      destruct (orderly_launch env) as [K _]. apply K in H.
      unfold inputs in H. simplify_eq.
      match goal with Hi : images _ = images _ |- _ => rewrite Hi, Hnone end.
      done. }
  exists e. split_and!; try done.
  unfold extract_image_information, bind. by rewrite L.
Qed.

(** X16.  With an empty image list, on a launched session,
    [load_images] returns the empty list and touches nothing, and
    [extract_image_information] sends the extraction prompt alone to
    the text service, without opening any file. *)
Theorem images_empty_list (s : state) (m : text_handle) :
  launch_state (self s) = true -> pm (self s) = Some m ->
  images (self s) = Some [] ->
  load_images env s = (inr [], s) /\
  exists o rest,
    trace (extract_image_information env s).2 =
    trace s ++ (GenerateContent m (Parts [Text extraction_prompt]), o) :: rest /\
    List.filter is_open rest = [].
Proof.
  intros Hl Hpm Hempty.
  assert (load_images env s = (inr [], s)) as L.
  { unfold load_images. rewrite (bind_returned _ _ _ _ _ (launch_again _ _ Hl)).
    unfold bind, get_self. by rewrite Hempty. }
  split; [done |].
  destruct (extract_image_information env s) as [r s'] eqn:H.
  unfold extract_image_information in H.
  rewrite (bind_returned _ _ _ _ _ L) in H. cbv beta zeta in H.
  run_any.
  all: cbn [fst snd]; unfold_state; rewrite <- ?app_assoc.
  all: by eexists _, _.
Qed.

(** X17.  A run of [extract_image_information] that returns has made
    exactly one request to the text service: the extraction prompt
    followed by the loaded images, in the order of [images].  It
    returns the text of the reply, its last printed line is
    "Attached images examined!" and no file is changed. *)
Theorem extract_image_information_request (s : state) (info : pystr) (s' : state) :
  extract_image_information env s = (inr info, s') ->
  exists paths raws m rsp evs,
    images (self s) = Some paths /\
    Forall2 (fun path raw => fs s !! path = Some raw) paths raws /\
    pm (self s') = Some m /\
    trace s' = trace s ++ evs /\
    List.filter is_request evs =
      [ (GenerateContent m
           (Parts (Text extraction_prompt :: map Picture (map (as_rgb env) raws))),
         inr (ResponseOf rsp)) ] /\
    text rsp = inr info /\
    last (stdout s') = Some (py "Attached images examined!") /\
    fs s' = fs s.
Proof.
  intros H. unfold extract_image_information in H. run_bind H as L.
  apply load_images_returns in L
    as (paths & raws & setup & Hp & Hall & -> & Hsetup & Htr & Hfs & _).
  run_returned. unfold_state.
  eexists paths, raws, _, _, _. split_and!; try done.
  - rewrite Htr, <- !app_assoc. reflexivity.
  - rewrite !List.filter_app, (setup_not_request _ Hsetup), open_calls_not_request.
    reflexivity.
  - by rewrite last_snoc.
Qed.

End Images.

(** *** Runs that return, in full *)

Section Stages.

Context (env : environment).

Lemma launch_run s (u : unit) s' :
  __launch env s = (inr u, s') ->
  if launch_state (self s) then s' = s
  else
    exists project location api_key,
      CONFIGS (self s) !! py "PROJECT_ID" = Some project /\
      CONFIGS (self s) !! py "LOCATION" = Some location /\
      CONFIGS (self s) !! py "API_KEY" = Some api_key /\
      self s' = launched (self s) /\ fs s' = fs s /\
      stdout s' = stdout s ++ [py "Model Launch successful!"] /\
      trace s' = trace s ++ setup_calls (self s) project location api_key.
Proof.
  destruct u. intros H. destruct (launch_state (self s)) eqn:Hl.
  - rewrite (launch_again _ _ Hl) in H. by simplify_eq.
  - unfold __launch in H.
    run_bind H as R. run_prim R. rewrite Hl in H. simpl in H.
    run_returned.
    eexists _, _, _. split_and!; try done.
    unfold setup_calls. by rewrite <- !app_assoc.
Qed.

Lemma extract_image_information_run s info s' :
  launch_state (self s) = true ->
  extract_image_information env s = (inr info, s') ->
  exists paths raws m rsp,
    images (self s) = Some paths /\ pm (self s) = Some m /\
    Forall2 (fun path raw => fs s !! path = Some raw) paths raws /\
    text rsp = inr info /\
    self s' = self s /\ fs s' = fs s /\
    stdout s' = stdout s ++ [py "Attached images examined!"] /\
    trace s' = trace s ++ describe_calls env m paths raws rsp info.
Proof.
  intros Hl H. unfold extract_image_information, load_images in H.
  run_bind H as R. run_bind R as L. rewrite (launch_again _ _ Hl) in L.
  simplify_eq. run_bind R as G. run_prim G.
  destruct (images (self _)) as [paths |] eqn:Hpaths; [| by run_prim R].
  apply open_each_returns in R as (raws & Hall & -> & Hself & Hfs & Hout & Htr).
  run_returned. rewrite Hself, Hfs, Htr, Hout in *.
  eexists _, _, _, _. split_and!; try done.
  unfold describe_calls. by rewrite <- !app_assoc.
Qed.

Lemma extract_information_run s s' :
  extract_information env s = (inr tt, s') ->
  exists s0 m rsp0 v0 described q rsp1 t1 rsp2 v2 said,
    __launch env s = (inr tt, s0) /\
    pm (self s0) = Some m /\
    text rsp0 = inr v0 /\ text rsp1 = inr t1 /\ text rsp2 = inr v2 /\
    self s' =
      set_text_v2 (Some v2)
        (set_text_v1 (Some (py_slice (Some 9%Z) (Some (-5)%Z) t1))
           (set_text_v0 (Some v0) (self s0))) /\
    fs s' = fs s /\
    trace s' =
      trace s0 ++
      text_round m (Prompt (analysis_prompt (topic (self s)))) rsp0 v0 ++
      described ++
      text_round m (Prompt q) rsp1 t1 ++
      text_round m
        (Prompt (scrapper_prompt (py_slice (Some 9%Z) (Some (-5)%Z) t1))) rsp2 v2 /\
    stdout s' = stdout s0 ++ said ++ [py "Information collection complete!"] /\
    if nonempty (images (self s)) then
      exists paths raws rsp info,
        images (self s) = Some paths /\
        Forall2 (fun path raw => fs s !! path = Some raw) paths raws /\
        text rsp = inr info /\
        described = describe_calls env m paths raws rsp info /\
        q = consolidation_prompt v0 ++ py " Product insights: " ++ info /\
        said = [py "Attached images examined!"; py "Product insights: " ++ info]
    else described = [] /\ q = consolidation_prompt v0 /\ said = [].
Proof.
  intros H. unfold extract_information in H.
  run_bind H as L.
  match goal with u : unit |- _ => destruct u end.
  pose proof L as L'.
  apply launch_returns in L as (Hl & Hin & Hfs & setup & Htr & Hsetup).
  run_returned.
  match goal with
  | Hi : images _ = images (self s), R : (if nonempty _ then _ else _) _ = _ |- _ =>
    rewrite Hi in R; destruct (nonempty (images (self s))) eqn:Hne
  end.
  - match goal with
    | R : bind _ _ _ = _ |- _ => run_bind R as D
    end.
    apply extract_image_information_run in D
      as (paths & raws & m' & rsp & Hp & Hpm & Hall & Hinfo & Hself & Hfs' & Hout & Htr');
      [| by unfold_state].
    run_returned. unfold_state.
    rewrite ?Hself, ?Hfs', ?Htr', ?Hout in *. unfold_state.
    rewrite ?Hfs in *. simplify_eq.
    cbn [fmt default from_option id] in *.
    match goal with
    | Ht : topic _ = topic (self s), Hi : images _ = images (self s) |- _ =>
      rewrite ?Ht, ?Hi in *
    end.
    eexists _, _, _, _, _, _, _, _, _, _, _.
    split; [exact L' |]. split_and!.
    9: { eexists _, _, _, _.
         split_and!; [done | done | exact Hinfo | reflexivity | reflexivity
                     | reflexivity]. }
    8: { rewrite <- !app_assoc. reflexivity. }
    7: { unfold text_round. rewrite <- !app_assoc. reflexivity. }
    all: done.
  - run_returned. unfold_state. rewrite ?Hfs in *.
    cbn [fmt default from_option id] in *. same_field.
    match goal with
    | Ht : topic _ = topic (self s) |- _ => rewrite ?Ht in *
    end.
    eexists _, _, _, _, _, _, _, _, _, _, _.
    split; [exact L' |]. split_and!.
    9-11: reflexivity.
    8: { by rewrite app_nil_l. }
    7: { unfold text_round. rewrite app_nil_l, <- !app_assoc. reflexivity. }
    all: done.
Qed.

Lemma create_text_prompt_run s s' :
  create_text_prompt env s = (inr tt, s') ->
  exists m rsp v3,
    pm (self s) = Some m /\ text rsp = inr v3 /\
    self s' = set_text_v3 (Some v3) (self s) /\ fs s' = fs s /\
    stdout s' = stdout s ++ [py "Information processed!"] /\
    trace s' =
      trace s ++
      text_round m (Prompt (fill_prompt (fmt (text_v2 (self s))))) rsp v3.
Proof.
  intros H. unfold create_text_prompt in H. run_returned.
  eexists _, _, _. split_and!; try done.
  unfold text_round. by rewrite <- !app_assoc.
Qed.

Lemma generate_image_run s p s' :
  generate_image env s = (inr p, s') ->
  exists m r i rest,
    p = temp_img_path /\ im (self s) = Some m /\ generated r = i :: rest /\
    self s' = set_img_response_v1 (Some r) (self s) /\
    fs s' = <[temp_img_path := i]> (fs s) /\
    stdout s' = stdout s ++ [py "Image v1 generated!"] /\
    trace s' =
      trace s ++
      draft_calls m (image_prompt (fmt (text_v3 (self s)))) (aspect_ratio (self s))
        r (bool_decide (is_Some (fs s !! temp_img_path))) i.
Proof.
  intros H. unfold generate_image in H.
  run_returned. rewrite generate_images_request in *. run_returned.
  destruct (bool_decide (is_Some (fs _ !! temp_img_path))) eqn:Hthere.
  - run_returned. simplify_eq.
    eexists _, _, _, _. split_and!; [done | done | eassumption | done | | done |].
    + apply insert_delete_eq.
    + unfold draft_calls. by rewrite <- !app_assoc.
  - run_returned. simplify_eq.
    eexists _, _, _, _. split_and!; [done | done | eassumption | done | done | done |].
    unfold draft_calls. by rewrite <- !app_assoc.
Qed.

Lemma identify_lags_console s lags s' :
  identify_lags env s = (inr lags, s') ->
  stdout s' = stdout s ++ [py "Lags identified: " ++ lags].
Proof. intros H. unfold identify_lags in H. by run_returned. Qed.

Lemma fix_image_console retest s p s' :
  fix_image env retest s = (inr p, s') ->
  exists lags1 lags2,
    stdout s' =
      stdout s ++
      [py "Lags identified: " ++ lags1; py "Image v2 generated!"] ++
      (if retest
       then [py "Lags identified: " ++ lags2; py "Image v3 generated!"]
       else []) ++
      [py "Final image saved as: " ++ p].
Proof.
  intros H. unfold fix_image in H.
  run_bind H as L1. apply identify_lags_console in L1.
  run_returned.
  destruct retest.
  - match goal with
    | R : bind _ _ _ = _ |- _ => run_bind R as L2
    end.
    apply identify_lags_console in L2.
    run_returned. unfold_state. rewrite L2. unfold_state. rewrite L1.
    eexists _, _. rewrite <- !app_assoc. reflexivity.
  - match goal with
    | R : ret _ _ = _ |- _ => run_prim R
    end.
    rewrite L1. exists a, []. rewrite <- !app_assoc. reflexivity.
Qed.

Lemma execute_stages QC s p s' :
  execute env QC s = (inr p, s') ->
  exists s1 s2 s3,
    extract_information env s = (inr tt, s1) /\
    create_text_prompt env s1 = (inr tt, s2) /\
    generate_image env s2 = (inr temp_img_path, s3) /\
    fix_image env QC s3 = (inr p, s').
Proof.
  intros H. unfold execute in H.
  run_bind H as R1. run_bind H as R2. run_bind H as R3. run_bind H as R4.
  run_prim H.
  pose proof R3 as R3'. apply generate_image_run in R3' as (? & ? & ? & ? & -> & _).
  destruct a, a0. by eexists _, _, _.
Qed.

End Stages.

Section Whole.

Context (env : environment).

(** A run of [execute] that returned, stage after stage: the values
    that pass from one stage to the next and the calls made. *)
Lemma execute_unfolded QC s p s' :
  execute env QC s = (inr p, s') ->
  exists s0 m g e rsp0 v0 described q rsp1 t1 rsp2 v2 rsp3 v3 r1 i1 rest1
         rsp4 lags1 r2 i2 rest2 again,
    let v1 := py_slice (Some 9%Z) (Some (-5)%Z) t1 in
    __launch env s = (inr tt, s0) /\
    pm (self s0) = Some m /\ im (self s0) = Some g /\ em (self s0) = Some e /\
    text rsp0 = inr v0 /\ text rsp1 = inr t1 /\ text rsp2 = inr v2 /\
    text rsp3 = inr v3 /\
    generated r1 = i1 :: rest1 /\ generated r2 = i2 :: rest2 /\
    pm (self s') = Some m /\ im (self s') = Some g /\ em (self s') = Some e /\
    launch_state (self s') = launch_state (self s0) /\
    text_v0 (self s') = Some v0 /\ text_v1 (self s') = Some v1 /\
    text_v2 (self s') = Some v2 /\ text_v3 (self s') = Some v3 /\
    img_response_v1 (self s') = Some r1 /\
    img_response_v2 (self s') = Some r2 /\
    p = output_img_path (ucd env) (topic (self s)) /\
    trace s' =
      trace s0 ++
      text_round m (Prompt (analysis_prompt (topic (self s)))) rsp0 v0 ++
      described ++
      text_round m (Prompt q) rsp1 t1 ++
      text_round m (Prompt (scrapper_prompt v1)) rsp2 v2 ++
      text_round m (Prompt (fill_prompt v2)) rsp3 v3 ++
      draft_calls g (image_prompt v3) (aspect_ratio (self s)) r1
        (bool_decide (is_Some (fs s !! temp_img_path))) i1 ++
      critique_calls m (critique_prompt v3) i1 rsp4 lags1 ++
      repair_calls e i1 (repair_prompt lags1) r2 i2 ++
      again ++ [(Save i2 p, inr NoValue)] /\
    (if nonempty (images (self s)) then
       exists paths raws rsp info,
         images (self s) = Some paths /\
         Forall2 (fun path raw => fs s !! path = Some raw) paths raws /\
         text rsp = inr info /\
         described = describe_calls env m paths raws rsp info /\
         q = consolidation_prompt v0 ++ py " Product insights: " ++ info
     else described = [] /\ q = consolidation_prompt v0) /\
    if QC then
      exists rsp5 lags2 r3 i3 rest3,
        again =
          critique_calls m (critique_prompt v3) i2 rsp5 lags2 ++
          repair_calls e i2 (repair_again_prompt lags2) r3 i3 /\
        img_response_v3 (self s') = Some r3 /\
        generated r3 = i3 :: rest3 /\
        fs s' =
          <[p := i2]>
            (<[temp_img_path := i3]>
               (<[temp_img_path := i2]> (<[temp_img_path := i1]> (fs s))))
    else
      again = [] /\
      img_response_v3 (self s') = img_response_v3 (self s) /\
      fs s' = <[p := i2]> (<[temp_img_path := i2]> (<[temp_img_path := i1]> (fs s))).
Proof.
  intros H. apply execute_stages in H as (s1 & s2 & s3 & X1 & X2 & X3 & X4).
  apply extract_information_run in X1
    as (s0 & m & rsp0 & v0 & described & q & rsp1 & t1 & rsp2 & v2 & said &
        L & Hpm & T0 & T1 & T2 & Hself1 & Hfs1 & Htr1 & _ & Hbranch).
  apply create_text_prompt_run in X2
    as (m2 & rsp3 & v3 & Hpm2 & T3 & Hself2 & Hfs2 & _ & Htr2).
  apply generate_image_run in X3
    as (g & r1 & i1 & rest1 & _ & Him & Hg1 & Hself3 & Hfs3 & _ & Htr3).
  pose proof (repair_slots_only env QC _ _ _ X4) as Hslots.
  apply fix_image_returns in X4
    as (m4 & e & img1 & rsp4 & lags1 & r2 & i2 & rest2 & again &
        Hpm4 & Hem & Himg & -> & Hv2 & Hg2 & Htr4 & Hagain).
  destruct (orderly_launch env) as [K _]. pose proof (K _ _ _ L) as Hin.
  assert (topic (self s0) = topic (self s) /\
          aspect_ratio (self s0) = aspect_ratio (self s)) as [Htopic Hratio].
  { unfold inputs in Hin. by simplify_eq. }
  assert (img_response_v3 (self s0) = img_response_v3 (self s)) as Hv3.
  { pose proof (launch_slots_only env _ _ _ L) as Hls. unfold same_but in Hls.
    by apply (f_equal img_response_v3) in Hls. }
  unfold same_but in Hslots.
  rewrite Hself3, Hself2, Hself1 in *. unfold_state.
  cbn [fmt default from_option id] in *.
  rewrite Hfs3 in *. rewrite lookup_insert_eq in Himg.
  rewrite Hfs2, Hfs1 in *. rewrite Htopic, Hratio in *. simplify_eq.
  rewrite Htr4, Htr3, Htr2, Htr1.
  exists s0, m, g, e, rsp0, v0, described, q, rsp1, t1, rsp2, v2, rsp3, v3,
    r1, img1, rest1, rsp4, lags1, r2, i2, rest2, again.
  cbv zeta. split_and!; try done; try congruence.
  - by rewrite <- !app_assoc.
  - destruct (nonempty (images (self s))).
    + destruct Hbranch as (paths & raws & rsp & info & ? & ? & ? & ? & ? & _).
      by exists paths, raws, rsp, info.
    + by destruct Hbranch as (? & ? & _).
  - destruct QC.
    + destruct Hagain as (rsp5 & lags2 & r3 & i3 & rest3 & ? & ? & ? & ?).
      by exists rsp5, lags2, r3, i3, rest3.
    + destruct Hagain as (? & ? & ?). split_and!; try done. congruence.
Qed.

End Whole.

Lemma count_app f evs1 evs2 : count f (evs1 ++ evs2) = (count f evs1 + count f evs2)%nat.
Proof. unfold count. by rewrite List.filter_app, length_app. Qed.

Lemma filter_none {A} (f : A -> bool) (l : list A) :
  Forall (fun x => f x = false) l -> List.filter f l = [].
Proof. induction 1 as [| x l Hx _ IH]; [done |]. simpl. by rewrite Hx. Qed.

Lemma filter_all {A} (f : A -> bool) (l : list A) :
  Forall (fun x => f x = true) l -> List.filter f l = l.
Proof. induction 1 as [| x l Hx _ IH]; [done |]. simpl. by rewrite Hx, IH. Qed.

Lemma open_calls_opens paths raws :
  Forall (fun ev => exists path o, ev = (PilOpen path, o)) (open_calls paths raws).
Proof.
  revert raws. induction paths as [| path rest IH]; intros [| raw raws];
    try by constructor.
  simpl. constructor; [by eexists _, _ | apply IH].
Qed.

Lemma open_calls_filter f paths raws :
  (forall path o, f (PilOpen path, o) = false) ->
  List.filter f (open_calls paths raws) = [].
Proof.
  intros Hf. apply filter_none.
  eapply Forall_impl; [apply open_calls_opens |].
  intros ev (path & o & ->). apply Hf.
Qed.

Lemma open_calls_length paths raws :
  length paths = length raws -> length (open_calls paths raws) = length paths.
Proof.
  revert raws. induction paths as [| path rest IH]; intros [| raw raws] Hlen;
    try done.
  simpl in *. f_equal. apply IH. lia.
Qed.

Section Execute.

Context (env : environment).

(** The calls of a run, class by class. *)
Ltac sift :=
  unfold text_round, draft_calls, critique_calls, repair_calls, setup_calls,
    describe_calls;
  rewrite ?List.filter_app;
  rewrite ?(open_calls_filter is_setup), ?(open_calls_filter is_request),
    ?(open_calls_filter is_generate), ?(open_calls_filter is_edit),
    ?(open_calls_filter is_save) by done;
  cbn [List.filter is_setup is_request is_generate is_edit is_save is_open
       fst snd app].

Lemma launch_split s (u : unit) s0 :
  __launch env s = (inr u, s0) ->
  exists launch,
    trace s0 = trace s ++ launch /\
    length launch = (if launch_state (self s) then 0 else 4)%nat /\
    Forall (fun ev => is_setup ev = true) launch /\
    stdout s0 =
      stdout s ++
      (if launch_state (self s) then [] else [py "Model Launch successful!"]) /\
    launch_state (self s0) = true.
Proof.
  intros L. pose proof (launch_run _ _ _ _ L) as Hrun.
  destruct (launch_state (self s)) eqn:Hl.
  - subst s0. exists []. by rewrite !app_nil_r.
  - destruct Hrun as (project & location & api_key & _ & _ & _ & -> & _ & Hout & E).
    eexists. split; [exact E |]. split_and!; try done.
    unfold setup_calls. by repeat constructor.
Qed.

Lemma setup_only f (launch : list event) :
  Forall (fun ev => is_setup ev = true) launch ->
  (forall ev, is_setup ev = true -> f ev = false) ->
  List.filter f launch = [].
Proof.
  intros Hall Hf. apply filter_none. eapply Forall_impl; [exact Hall |].
  intros ev. apply Hf.
Qed.

Ltac not_setup := intros [[] ?]; done.

Ltac open_run H :=
  apply execute_unfolded in H
    as (s0 & m & g & e & rsp0 & v0 & described & q & rsp1 & t1 & rsp2 & v2 &
        rsp3 & v3 & r1 & i1 & rest1 & rsp4 & lags1 & r2 & i2 & rest2 & again &
        H);
  cbv zeta in H;
  destruct H as (L & Hpm0 & Him0 & Hem0 & T0 & T1 & T2 & T3 & Hg1 & Hg2 &
                 Hpm & Him & Hem & Hls & Hv0 & Hv1 & Hv2 & Hv3 & Hr1 & Hr2 &
                 Hp & Htr & Himages & Hagain);
  destruct (launch_split _ _ _ L) as (launch & E & Hlen & Hall & Hout0 & Hl0);
  rewrite E, <- app_assoc in Htr.

(** X18.  The calls of a run of [execute] that returns: four setup
    calls when the session was not launched and none otherwise; five
    requests to the text service, one more with attached images and one
    more with the quality check; one request to the image service; one
    edit, two with the quality check; three saves, four with the
    quality check; one file opened per attached image and one per
    critique. *)
Theorem execute_call_counts (QC : bool) (s : state) (p : pystr) (s' : state) :
  execute env QC s = (inr p, s') ->
  exists evs,
    trace s' = trace s ++ evs /\
    count is_setup evs = (if launch_state (self s) then 0 else 4)%nat /\
    count is_request evs =
      (5 + (if nonempty (images (self s)) then 1 else 0) +
       (if QC then 1 else 0))%nat /\
    count is_generate evs = 1%nat /\
    count is_edit evs = (if QC then 2 else 1)%nat /\
    count is_save evs = (if QC then 4 else 3)%nat /\
    count is_open evs =
      (length (default [] (images (self s))) + (if QC then 2 else 1))%nat.
Proof.
  intros H. open_run H.
  eexists. split; [exact Htr |].
  rewrite !count_app.
  assert (count is_setup launch = length launch) as ->
    by (unfold count; by rewrite filter_all).
  assert (forall f, (forall ev, is_setup ev = true -> f ev = false) ->
            count f launch = 0%nat) as Hnone
    by (intros f Hf; unfold count; by rewrite (setup_only _ _ Hall)).
  rewrite !Hnone by not_setup. rewrite Hlen.
  assert (count is_open described = length (default [] (images (self s))) /\
          count is_request described =
            (if nonempty (images (self s)) then 1 else 0)%nat /\
          count is_setup described = 0%nat /\ count is_generate described = 0%nat /\
          count is_edit described = 0%nat /\ count is_save described = 0%nat)
    as (D1 & D2 & D3 & D4 & D5 & D6).
  { destruct (nonempty (images (self s))) eqn:Hne.
    - destruct Himages as (paths & raws & rsp & info & -> & Hfiles & _ & -> & _).
      unfold count. sift. rewrite open_calls_open, !app_nil_r.
      rewrite open_calls_length by (by eapply Forall2_length). done.
    - destruct Himages as (-> & _). split_and!; try done.
      by destruct (images (self s)) as [[] |]. }
  assert (count is_open again = (if QC then 1 else 0)%nat /\
          count is_request again = (if QC then 1 else 0)%nat /\
          count is_setup again = 0%nat /\ count is_generate again = 0%nat /\
          count is_edit again = (if QC then 1 else 0)%nat /\
          count is_save again = (if QC then 1 else 0)%nat)
    as (A1 & A2 & A3 & A4 & A5 & A6).
  { destruct QC.
    - by destruct Hagain as (? & ? & ? & ? & ? & -> & _).
    - by destruct Hagain as (-> & _). }
  rewrite D1, D2, D3, D4, D5, D6, A1, A2, A3, A4, A5, A6.
  unfold count. sift. destruct (bool_decide _); sift; cbn [length app].
  all: destruct (launch_state (self s)), (nonempty (images (self s))), QC.
  all: split_and!; lia.
Qed.

(** Membership of a call of a critique in the calls of a run. *)
Ltac find_member :=
  lazymatch goal with
  | |- _ \/ _ => first [left; find_member | right; find_member]
  | |- _ = _ => reflexivity
  end.

Ltac member :=
  rewrite !elem_of_app; unfold critique_calls; rewrite !elem_of_cons;
  find_member.

(** X19.  The texts of a run of [execute] that returns feed one
    another.  The requests to the text service are, in order: the
    analysis of the topic; with images, their description; the
    consolidation, which embeds the reply to the analysis; the
    scrapper, which embeds the reply to the consolidation without its
    first 9 and last 5 characters; the filling, which embeds the reply
    to the scrapper; the critique, which embeds the reply to the
    filling and carries the generated image; with the quality check, a
    second critique.  [text_v0], [text_v2] and [text_v3] hold the
    replies as they came, [text_v1] the cut one. *)
Theorem execute_text_chain (QC : bool) (s : state) (p : pystr) (s' : state) :
  execute env QC s = (inr p, s') ->
  exists evs m rsp0 v0 described q rsp1 t1 rsp2 v2 rsp3 v3 r1 i1 rest1 rsp4
         second,
    let v1 := py_slice (Some 9%Z) (Some (-5)%Z) t1 in
    trace s' = trace s ++ evs /\
    pm (self s') = Some m /\
    List.filter is_request evs =
      (GenerateContent m (Prompt (analysis_prompt (topic (self s)))),
       inr (ResponseOf rsp0)) ::
      described ++
      [ (GenerateContent m (Prompt q), inr (ResponseOf rsp1));
        (GenerateContent m (Prompt (scrapper_prompt v1)), inr (ResponseOf rsp2));
        (GenerateContent m (Prompt (fill_prompt v2)), inr (ResponseOf rsp3));
        (GenerateContent m (Parts [Text (critique_prompt v3); Picture i1]),
         inr (ResponseOf rsp4)) ] ++
      second /\
    text rsp0 = inr v0 /\ text rsp1 = inr t1 /\ text rsp2 = inr v2 /\
    text rsp3 = inr v3 /\
    text_v0 (self s') = Some v0 /\ text_v1 (self s') = Some v1 /\
    text_v2 (self s') = Some v2 /\ text_v3 (self s') = Some v3 /\
    img_response_v1 (self s') = Some r1 /\ generated r1 = i1 :: rest1 /\
    (if nonempty (images (self s)) then
       exists pictures rsp info,
         described =
           [ (GenerateContent m (Parts (Text extraction_prompt :: pictures)),
              inr (ResponseOf rsp)) ] /\
         text rsp = inr info /\
         q = consolidation_prompt v0 ++ py " Product insights: " ++ info
     else described = [] /\ q = consolidation_prompt v0) /\
    if QC then
      exists r2 i2 rest2 rsp5,
        img_response_v2 (self s') = Some r2 /\ generated r2 = i2 :: rest2 /\
        second =
          [ (GenerateContent m (Parts [Text (critique_prompt v3); Picture i2]),
             inr (ResponseOf rsp5)) ]
    else second = [].
Proof.
  intros H. open_run H.
  assert (exists d,
            List.filter is_request described = d /\
            if nonempty (images (self s)) then
              exists pictures rsp info,
                d =
                  [ (GenerateContent m (Parts (Text extraction_prompt :: pictures)),
                     inr (ResponseOf rsp)) ] /\
                text rsp = inr info /\
                q = consolidation_prompt v0 ++ py " Product insights: " ++ info
            else d = [] /\ q = consolidation_prompt v0) as (d & Ed & Hd).
  { destruct (nonempty (images (self s))).
    - destruct Himages as (paths & raws & rsp & info & _ & _ & Hinfo & -> & ->).
      eexists. split; [sift; reflexivity |]. by eexists _, rsp, info.
    - destruct Himages as (-> & ->). by exists []. }
  assert (exists a,
            List.filter is_request again = a /\
            if QC then
              exists rsp5,
                a =
                  [ (GenerateContent m
                       (Parts [Text (critique_prompt v3); Picture i2]),
                     inr (ResponseOf rsp5)) ]
            else a = []) as (a & Ea & Ha).
  { destruct QC.
    - destruct Hagain as (rsp5 & ? & ? & ? & ? & -> & _).
      eexists. split; [sift; reflexivity | by exists rsp5].
    - destruct Hagain as (-> & _). by exists []. }
  eexists _, m, rsp0, v0, d, q, rsp1, t1, rsp2, v2, rsp3, v3, r1, i1, rest1,
    rsp4, a.
  cbv zeta. split; [exact Htr |]. split; [done |].
  rewrite !List.filter_app, (setup_only _ _ Hall) by not_setup.
  change (call * (fault + answer))%type with event. rewrite Ed, Ea.
  split_and!; try done.
  - sift. destruct (bool_decide _); sift; rewrite ?app_nil_r; reflexivity.
  - destruct QC; [| done]. destruct Ha as (rsp5 & ->).
    by exists r2, i2, rest2, rsp5.
Qed.

(** X20.  The images of a run of [execute] that returns feed one
    another.  The one request to the image service carries the image
    prompt of [text_v3]; the first image of its reply is saved at the
    temporary path, is the image that the critique looks at and is the
    base image of the first edit, whose prompt embeds what the critique
    said; with the quality check the first image of the first edit is
    critiqued and edited in the same way.  The output path holds the
    first image of the first edit; the temporary path holds the first
    image of the last edit. *)
Theorem execute_image_chain (QC : bool) (s : state) (p : pystr) (s' : state) :
  execute env QC s = (inr p, s') ->
  exists evs m g e v3 r1 i1 rest1 rsp4 lags1 r2 i2 rest2 more_edits more_saves,
    trace s' = trace s ++ evs /\
    text_v3 (self s') = Some v3 /\
    img_response_v1 (self s') = Some r1 /\ generated r1 = i1 :: rest1 /\
    img_response_v2 (self s') = Some r2 /\ generated r2 = i2 :: rest2 /\
    List.filter is_generate evs =
      [ (GenerateImages g (image_prompt v3) (aspect_ratio (self s)),
         inr (ImagesOf r1)) ] /\
    List.filter is_edit evs =
      (EditImage e i1 (repair_prompt lags1) (py "inpainting-insert")
         (py "background"), inr (ImagesOf r2)) :: more_edits /\
    List.filter is_save evs =
      [ (Save i1 temp_img_path, inr NoValue);
        (Save i2 temp_img_path, inr NoValue) ] ++
      more_saves ++ [(Save i2 p, inr NoValue)] /\
    fs s' !! p = Some i2 /\
    ((GenerateContent m (Parts [Text (critique_prompt v3); Picture i1]),
      inr (ResponseOf rsp4)) ∈ evs) /\
    ((ResponseText rsp4, inr (TextOf lags1)) ∈ evs) /\
    if QC then
      exists rsp5 lags2 r3 i3 rest3,
        ((GenerateContent m (Parts [Text (critique_prompt v3); Picture i2]),
          inr (ResponseOf rsp5)) ∈ evs) /\
        ((ResponseText rsp5, inr (TextOf lags2)) ∈ evs) /\
        more_edits =
          [ (EditImage e i2 (repair_again_prompt lags2) (py "inpainting-insert")
               (py "background"), inr (ImagesOf r3)) ] /\
        more_saves = [(Save i3 temp_img_path, inr NoValue)] /\
        img_response_v3 (self s') = Some r3 /\ generated r3 = i3 :: rest3 /\
        fs s' !! temp_img_path = Some i3
    else
      more_edits = [] /\ more_saves = [] /\
      img_response_v3 (self s') = img_response_v3 (self s) /\
      fs s' !! temp_img_path = Some i2.
Proof.
  intros H. open_run H.
  pose proof (output_not_temp (ucd env) (topic (self s))) as Hne.
  rewrite <- Hp in Hne.
  assert (List.filter is_generate described = [] /\
          List.filter is_edit described = [] /\
          List.filter is_save described = []) as (D1 & D2 & D3).
  { destruct (nonempty (images (self s))).
    - destruct Himages as (paths & raws & rsp & info & _ & _ & _ & -> & _).
      by sift.
    - by destruct Himages as (-> & _). }
  destruct QC.
  - destruct Hagain as (rsp5 & lags2 & r3 & i3 & rest3 & -> & Hr3 & Hg3 & Hfs).
    eexists _, m, g, e, v3, r1, i1, rest1, rsp4, lags1, r2, i2, rest2,
      [ (EditImage e i2 (repair_again_prompt lags2) (py "inpainting-insert")
           (py "background"), inr (ImagesOf r3)) ],
      [(Save i3 temp_img_path, inr NoValue)].
    split; [exact Htr |].
    rewrite !List.filter_app, !(setup_only _ _ Hall) by not_setup.
    change (call * (fault + answer))%type with event.
    rewrite D1, D2, D3.
    split_and!; try done.
    + sift. by destruct (bool_decide _).
    + sift. destruct (bool_decide _); sift; reflexivity.
    + sift. destruct (bool_decide _); sift; reflexivity.
    + rewrite Hfs. apply lookup_insert_eq.
    + member.
    + member.
    + eexists rsp5, lags2, r3, i3, rest3. split_and!; try done.
      * member.
      * member.
      * rewrite Hfs, lookup_insert_ne by done. apply lookup_insert_eq.
  - destruct Hagain as (-> & Hr3 & Hfs).
    eexists _, m, g, e, v3, r1, i1, rest1, rsp4, lags1, r2, i2, rest2, [], [].
    split; [exact Htr |].
    rewrite !List.filter_app, !(setup_only _ _ Hall) by not_setup.
    change (call * (fault + answer))%type with event.
    rewrite D1, D2, D3.
    split_and!; try done.
    + sift. by destruct (bool_decide _).
    + sift. destruct (bool_decide _); sift; reflexivity.
    + sift. destruct (bool_decide _); sift; reflexivity.
    + rewrite Hfs. apply lookup_insert_eq.
    + member.
    + member.
    + rewrite Hfs, lookup_insert_ne by done. apply lookup_insert_eq.
Qed.

(** X21.  What a run of [execute] that returns prints, line by line:
    the launch message when the session was not launched, the two
    messages of the description when images are attached, a message
    after each stage, the critique before each repair, and last the
    path of the final image. *)
Theorem execute_console (QC : bool) (s : state) (p : pystr) (s' : state) :
  execute env QC s = (inr p, s') ->
  exists info lags1 lags2,
    stdout s' =
      stdout s ++
      (if launch_state (self s) then [] else [py "Model Launch successful!"]) ++
      (if nonempty (images (self s))
       then [py "Attached images examined!"; py "Product insights: " ++ info]
       else []) ++
      [ py "Information collection complete!"; py "Information processed!";
        py "Image v1 generated!"; py "Lags identified: " ++ lags1;
        py "Image v2 generated!" ] ++
      (if QC
       then [py "Lags identified: " ++ lags2; py "Image v3 generated!"]
       else []) ++
      [py "Final image saved as: " ++ p].
Proof.
  intros H. apply execute_stages in H as (s1 & s2 & s3 & X1 & X2 & X3 & X4).
  apply extract_information_run in X1
    as (s0 & m & rsp0 & v0 & described & q & rsp1 & t1 & rsp2 & v2 & said &
        L & _ & _ & _ & _ & _ & _ & _ & Hout1 & Hbranch).
  destruct (launch_split _ _ _ L) as (launch & _ & _ & _ & Hout0 & _).
  apply create_text_prompt_run in X2 as (? & ? & ? & _ & _ & _ & _ & Hout2 & _).
  apply generate_image_run in X3
    as (? & ? & ? & ? & _ & _ & _ & _ & _ & Hout3 & _).
  apply fix_image_console in X4 as (lags1 & lags2 & Hout4).
  rewrite Hout4, Hout3, Hout2, Hout1, Hout0.
  assert (exists info,
            said =
            if nonempty (images (self s))
            then [py "Attached images examined!"; py "Product insights: " ++ info]
            else []) as (info & ->).
  { destruct (nonempty (images (self s))).
    - destruct Hbranch as (? & ? & ? & info & _ & _ & _ & _ & _ & ->).
      by exists info.
    - destruct Hbranch as (_ & _ & ->). by exists []. }
  exists info, lags1, lags2. by rewrite <- !app_assoc.
Qed.

(** X22.  Without [retest], a run of [fix_image] that returns has saved
    one and the same image, the first image of the edit, at the
    temporary path and at the output path; [img_response_v3] is not
    assigned. *)
Theorem fix_image_single_pass (s : state) (p : pystr) (s' : state) :
  fix_image env false s = (inr p, s') ->
  exists r i rest,
    img_response_v2 (self s') = Some r /\ generated r = i :: rest /\
    fs s' !! p = Some i /\ fs s' !! temp_img_path = Some i /\
    fs s' = <[p := i]> (<[temp_img_path := i]> (fs s)) /\
    img_response_v3 (self s') = img_response_v3 (self s).
Proof.
  intros H. apply fix_image_returns in H
    as (m & e & img1 & rsp1 & lags1 & r2 & i2 & rest2 & again &
        _ & _ & _ & -> & Hr2 & Hg2 & _ & _ & Hv3 & Hfs).
  pose proof (output_not_temp (ucd env) (topic (self s))) as Hne.
  exists r2, i2, rest2. split_and!; try done.
  - rewrite Hfs. apply lookup_insert_eq.
  - rewrite Hfs, lookup_insert_ne by done. apply lookup_insert_eq.
Qed.

Lemma insert_present (files : gmap pystr image) path i :
  is_Some (files !! path) -> dom (<[path := i]> files) = dom files.
Proof.
  intros Hin. rewrite dom_insert_L.
  by apply subseteq_union_1_L, singleton_subseteq_l, elem_of_dom.
Qed.

(** X23.  A second run of [execute] on the session of a first one, both
    returning, returns the same path and reuses the model handles
    without a new launch; it removes the temporary image of the first
    run before it saves its own, so that the set of files is the same
    after it. *)
Theorem execute_again (QC QC' : bool) (s : state) (p : pystr) (s1 : state)
    (p' : pystr) (s2 : state) :
  execute env QC s = (inr p, s1) ->
  execute env QC' s1 = (inr p', s2) ->
  p' = p /\
  pm (self s2) = pm (self s1) /\ im (self s2) = im (self s1) /\
  em (self s2) = em (self s1) /\
  exists evs,
    trace s2 = trace s1 ++ evs /\ List.filter is_setup evs = [] /\
    ((OsRemove temp_img_path, inr NoValue) ∈ evs) /\
    dom (fs s2) = dom (fs s1) /\ is_Some (fs s2 !! p).
Proof.
  intros H1 H2.
  assert (topic (self s1) = topic (self s)) as Htopic.
  { destruct (orderly_execute env QC) as [K _]. apply K in H1.
    by apply inputs_topic. }
  assert (p' = p) as ->.
  { apply execute_returns_path in H1, H2. by rewrite H1, H2, Htopic. }
  assert (launch_state (self s1) = true /\ is_Some (fs s1 !! temp_img_path) /\
          is_Some (fs s1 !! p)) as (Hl1 & Htemp & Hout).
  { pose proof (output_not_temp (ucd env) (topic (self s))) as Hne.
    open_run H1. rewrite <- Hp in Hne. split; [congruence |].
    destruct QC.
    - destruct Hagain as (? & ? & ? & ? & ? & _ & _ & _ & ->).
      rewrite lookup_insert_eq, lookup_insert_ne, lookup_insert_eq by done.
      by split.
    - destruct Hagain as (_ & _ & ->).
      rewrite lookup_insert_eq, lookup_insert_ne, lookup_insert_eq by done.
      by split. }
  destruct (execute_warm env QC' _ _ _ H2 Hl1) as (_ & evs & Htr2 & Hwarm).
  open_run H2.
  rewrite (launch_again _ _ Hl1) in L. simplify_eq.
  split_and!; try congruence.
  exists evs. split; [done |]. split; [by apply filter_none |].
  rewrite Htr2 in Htr. apply app_inv_head in Htr. split_and!.
  - rewrite Hl0 in Hlen. destruct launch; [| done]. rewrite Htr, app_nil_l.
    unfold draft_calls. rewrite bool_decide_eq_true_2 by done.
    rewrite !elem_of_app. do 5 right. left.
    apply elem_of_cons. right. apply elem_of_cons. by left.
  - pose proof (output_not_temp (ucd env) (topic (self s0))) as Hne.
    destruct QC'.
    + destruct Hagain as (? & ? & ? & ? & ? & _ & _ & _ & ->).
      rewrite !insert_present; try done.
      all: repeat first [rewrite lookup_insert_eq | rewrite lookup_insert_ne by done].
      all: done.
    + destruct Hagain as (_ & _ & ->).
      rewrite !insert_present; try done.
      all: repeat first [rewrite lookup_insert_eq | rewrite lookup_insert_ne by done].
      all: done.
  - destruct QC'.
    + destruct Hagain as (? & ? & ? & ? & ? & _ & _ & _ & ->).
      by rewrite lookup_insert_eq.
    + destruct Hagain as (_ & _ & ->). by rewrite lookup_insert_eq.
Qed.

End Execute.

(** *** The file name, once more *)

Section Names.

Context (db : unicode_db).

Lemma lstrip_head (s : pystr) c r :
  lstrip db s = c :: r -> isspace db c = false.
Proof.
  induction s as [| c' s IH]; [done |]. simpl.
  destruct (isspace db c') eqn:Hc; [exact IH |]. intros H. by simplify_eq.
Qed.

Lemma rstrip_prefix (s : pystr) : exists suf, s = rstrip db s ++ suf.
Proof.
  unfold rstrip. destruct (lstrip_suffix db (rev s)) as [pre Hpre].
  exists (rev pre). by rewrite <- rev_app_distr, <- Hpre, rev_involutive.
Qed.

Lemma strip_head (s : pystr) c r :
  strip db s = c :: r -> isspace db c = false.
Proof.
  unfold strip. intros H.
  destruct (rstrip_prefix (lstrip db s)) as [suf Hsuf].
  rewrite H in Hsuf. simpl in Hsuf. by apply lstrip_head in Hsuf.
Qed.

Lemma last_rev {A} (l : list A) : last (rev l) = head l.
Proof. destruct l as [| x l]; [done |]. simpl. apply last_snoc. Qed.

Lemma head_rev {A} (l : list A) : head (rev l) = last l.
Proof. by rewrite <- (rev_involutive l) at 2; rewrite last_rev. Qed.

Lemma strip_last (s : pystr) c :
  last (strip db s) = Some c -> isspace db c = false.
Proof.
  unfold strip, rstrip. rewrite last_rev. intros H.
  destruct (lstrip db (rev (lstrip db s))) as [| c' r] eqn:E; [done |].
  simpl in H. simplify_eq. by apply lstrip_head in E.
Qed.

Lemma kept_not_space (c : N) :
  keep db c = true -> isspace db c = false -> isalnum db c = true.
Proof.
  unfold keep. destruct (c =? 32) eqn:E.
  - apply N.eqb_eq in E as ->. by vm_compute.
  - by rewrite orb_false_r.
Qed.

Lemma replace_alnum (c : N) :
  isalnum db c = true -> (if c =? 32 then 95 else c) = c.
Proof.
  intros Hc. destruct (c =? 32) eqn:E; [| done].
  apply N.eqb_eq in E as ->. by vm_compute in Hc.
Qed.

Lemma kept_chars topic :
  Forall (fun c => keep db c = true) (strip db (take 50 (List.filter (keep db) topic))).
Proof.
  apply strip_Forall, Forall_take, Forall_forall.
  intros c Hc. by apply list_elem_of_In, filter_In in Hc as [_ Hc].
Qed.

(** X24.  Whatever the topic, the file name is a stem followed by
    ".jpg" and the image is saved directly in images/output: the stem
    holds no path separator, no dot and no space, and when it is not
    empty it begins and ends with an alphanumeric character, never with
    an underscore. *)
Theorem output_filename_shape (topic : pystr) :
  exists stem,
    output_filename db topic = stem ++ py ".jpg" /\
    output_img_path db topic = py "images/output/" ++ stem ++ py ".jpg" /\
    (47 ∉ stem) /\ (46 ∉ stem) /\ (32 ∉ stem) /\
    (forall c, head stem = Some c -> isalnum db c = true) /\
    (forall c, last stem = Some c -> isalnum db c = true).
Proof.
  exists (sanitized db topic). split_and!.
  - apply output_filename_sanitized.
  - apply output_path_sanitized.
  - intros Hin. pose proof (sanitized_chars db topic) as Hall.
    rewrite Forall_forall in Hall. by destruct (Hall _ Hin) as [Hc | Hc].
  - intros Hin. pose proof (sanitized_chars db topic) as Hall.
    rewrite Forall_forall in Hall. by destruct (Hall _ Hin) as [Hc | Hc].
  - intros Hin. pose proof (sanitized_chars db topic) as Hall.
    rewrite Forall_forall in Hall. by destruct (Hall _ Hin) as [Hc | Hc].
  - intros c Hc. unfold sanitized, replace in Hc.
    pose proof (kept_chars topic) as Hall.
    destruct (strip db _) as [| c' r] eqn:E; [done |].
    apply strip_head in E. apply Forall_cons in Hall as [Hk _].
    pose proof (kept_not_space _ Hk E) as Ha.
    simpl in Hc. rewrite (replace_alnum _ Ha) in Hc. by simplify_eq.
  - intros c Hc. unfold sanitized, replace in Hc.
    pose proof (kept_chars topic) as Hall.
    destruct (last (strip db (take 50 (List.filter (keep db) topic))))
      as [c' |] eqn:E.
    + pose proof (strip_last _ _ E) as Hns.
      apply last_Some in E as [l' E]. rewrite E in Hall, Hc.
      apply Forall_app in Hall as [_ Hk]. rewrite Forall_singleton in Hk.
      pose proof (kept_not_space _ Hk Hns) as Ha.
      rewrite map_app in Hc. simpl in Hc. rewrite last_snoc in Hc.
      rewrite (replace_alnum _ Ha) in Hc. by simplify_eq.
    + apply last_None in E. by rewrite E in Hc.
Qed.

Lemma lstrip_id (s : pystr) c :
  head s = Some c -> isspace db c = false -> lstrip db s = s.
Proof. destruct s as [| c' r]; [done |]. simpl. intros [= ->] ->. done. Qed.

(** X25.  For a topic of at most 50 characters, all alphanumeric or
    spaces, that neither begins nor ends with whitespace, nothing is
    lost: the file name is the topic with its spaces replaced by
    underscores, followed by ".jpg". *)
Theorem output_filename_clean_topic (topic : pystr) (first final : N) :
  Forall (fun c => isalnum db c = true \/ c = 32) topic ->
  (length topic <= 50)%nat ->
  head topic = Some first -> isspace db first = false ->
  last topic = Some final -> isspace db final = false ->
  output_filename db topic = replace 32 95 topic ++ py ".jpg" /\
  output_img_path db topic = py "images/output/" ++ replace 32 95 topic ++ py ".jpg" /\
  length (output_filename db topic) = (length topic + 4)%nat.
Proof.
  intros Hall Hlen Hhead Hfirst Hlast Hfinal.
  assert (sanitized db topic = replace 32 95 topic) as Hs.
  { unfold sanitized.
    assert (List.filter (keep db) topic = topic) as ->.
    { apply filter_all. eapply Forall_impl; [exact Hall |].
      intros c [Hc | ->]; unfold keep; [by rewrite Hc | by rewrite orb_true_r]. }
    rewrite take_ge by done.
    assert (strip db topic = topic) as ->; [| done].
    unfold strip, rstrip. rewrite (lstrip_id _ _ Hhead Hfirst).
    rewrite (lstrip_id (rev topic) final), rev_involutive; try done.
    by rewrite head_rev. }
  split_and!.
  - by rewrite output_filename_sanitized, Hs.
  - by rewrite output_path_sanitized, Hs.
  - rewrite output_filename_sanitized, Hs, length_app. unfold replace.
    by rewrite length_map.
Qed.

End Names.

(** *** The configuration of the module *)

Section Module.

Context (env : environment).

(** X26.  The configuration that the module builds when imported.
    Without a [credentials] section the import ends with [KeyError].
    When it succeeds, [info] has exactly the three keys that [__launch]
    reads: on a session with [info] as its [CONFIGS], in an environment
    where no call fails, [__launch] returns, having initialised Vertex
    AI with the project of the file in us-central1 and configured the
    text SDK with the key of the file. *)
Theorem info_configures_launch (config : config_parser) :
  (section config (py "credentials") = None ->
   info config = inl (KeyError (py "credentials"))) /\
  forall cfg s,
    info config = inr cfg ->
    CONFIGS (self s) = cfg ->
    launch_state (self s) = false ->
    (forall tr c, fails env tr c = None) ->
    exists proj_id api_key s',
      getitem config (py "credentials") (py "gcp_project_id") = inr proj_id /\
      getitem config (py "credentials") (py "gemini_api_key") = inr api_key /\
      dom cfg = {[py "PROJECT_ID"; py "LOCATION"; py "API_KEY"]} /\
      __launch env s = (inr tt, s') /\
      trace s' =
        trace s ++ setup_calls (self s) proj_id (py "us-central1") api_key.
Proof.
  split.
  - intros Hnone. unfold info, getitem. by rewrite Hnone.
  - intros c s Hinfo Hc Hl Hok. unfold info in Hinfo.
    destruct (getitem config (py "credentials") (py "gemini_api_key"))
      as [? | api_key] eqn:Hkey; [done |].
    destruct (getitem config (py "credentials") (py "gcp_project_id"))
      as [? | proj_id] eqn:Hproj; [done |].
    injection Hinfo as Hmap. subst c.
    assert (CONFIGS (self s) !! py "PROJECT_ID" = Some proj_id) as Hp
      by (rewrite Hc; reflexivity).
    assert (CONFIGS (self s) !! py "LOCATION" = Some (py "us-central1")) as Hloc
      by (rewrite Hc; reflexivity).
    assert (CONFIGS (self s) !! py "API_KEY" = Some api_key) as Hk
      by (rewrite Hc; reflexivity).
    exists proj_id, api_key.
    destruct (__launch env s) as [[e | []] s'] eqn:H.
    + exfalso. unfold __launch in H. run_any.
      rewrite Hl in H. simpl in H. run_any.
      all: congruence.
    + exists s'. split_and!; try done.
      pose proof (launch_run env _ _ _ H) as Hrun. rewrite Hl in Hrun.
      destruct Hrun as (project & location & key & ? & ? & ? & _ & _ & _ & ->).
      congruence.
Qed.

End Module.

(** ** More examples, evaluated *)

Lemma ended_run {A} (m : M A) (s : state) (r : fault + A) :
  (m s).1 = r -> m s = (r, (m s).2).
Proof. destruct (m s) as [r' s']. simpl. by intros ->. Qed.

Lemma bare_launch_fails :
  (__launch example_env bare_start).1 = inl (KeyError (py "PROJECT_ID")).
Proof. vm_compute. reflexivity. Qed.

Lemma ghee_launched_state :
  launch_state (self ghee_launched) = true /\
  pm (self ghee_launched) = Some (GenerativeModel (py "gemini-1.5-flash")) /\
  im (self ghee_launched) = Some (ImageGenerationModel (py "imagen-3.0-generate-001")) /\
  text_v2 (self ghee_launched) = None /\ text_v3 (self ghee_launched) = None /\
  fs ghee_launched !! temp_img_path = None.
Proof. vm_compute. split_and!; reflexivity. Qed.

Lemma ghee_with_image_returns (QC : bool) :
  (execute example_env QC ghee_with_image).1 = inr ghee_path.
Proof. destruct QC; vm_compute; reflexivity. Qed.

Lemma ghee_load_returns :
  (load_images example_env ghee_with_image).1 =
  inr [{| mode := py "RGB"; pixels := 7 |}].
Proof. vm_compute. reflexivity. Qed.

Lemma ghee_describe_returns :
  exists info, (extract_image_information example_env ghee_with_image).1 = inr info.
Proof. eexists. vm_compute. reflexivity. Qed.

Lemma missing_image_state :
  launch_state (self missing_image) = true /\
  images (self missing_image) = Some ([py "ghee.png"] ++ py "missing.png" :: []) /\
  fs missing_image !! py "ghee.png" = Some {| mode := py "RGBA"; pixels := 7 |} /\
  fs missing_image !! py "missing.png" = None.
Proof. vm_compute. split_and!; reflexivity. Qed.

Lemma no_image_listed_state :
  launch_state (self no_image_listed) = true /\
  pm (self no_image_listed) = Some (GenerativeModel (py "gemini-1.5-flash")) /\
  images (self no_image_listed) = Some [].
Proof. vm_compute. split_and!; reflexivity. Qed.

Lemma stale_draft_state :
  im (self stale_draft) = Some (ImageGenerationModel (py "imagen-3.0-generate-001")).
Proof. vm_compute. reflexivity. Qed.

Lemma ghee_banner_again (QC : bool) :
  (execute example_env QC ghee_banner).1 = inr ghee_path.
Proof. destruct QC; vm_compute; reflexivity. Qed.

Lemma ghee_topic_clean :
  Forall (fun c => isalnum (ucd example_env) c = true \/ c = 32)
    (py "Diwali Sale on Premium Ghee 1kg Jar").
Proof. apply (bool_decide_unpack _). vm_compute. exact I. Qed.

Lemma launch_setup_calls_witness :
  exists project location api_key,
    trace (__launch example_env ghee_start).2 =
    trace ghee_start ++ setup_calls (self ghee_start) project location api_key.
Proof.
  destruct (launch_setup_calls example_env ghee_start _ eq_refl
              (returned_run _ _ _ ghee_launch_returns))
    as (project & location & api_key & _ & _ & _ & Htr & _).
  exists project, location, api_key. exact Htr.
Defined.

Lemma launch_missing_key_witness :
  __launch example_env bare_start = (inl (KeyError (py "PROJECT_ID")), bare_start).
Proof.
  exact (proj1 (launch_missing_key example_env bare_start eq_refl) eq_refl).
Defined.

Lemma launch_fault_not_marked_witness :
  launch_state (self (__launch example_env bare_start).2) = false.
Proof.
  exact (proj1 (proj2 (launch_fault_not_marked example_env bare_start _ _
                         (ended_run _ _ _ bare_launch_fails)))).
Defined.

Lemma execute_launched_no_setup_witness :
  exists evs,
    trace (execute example_env false ghee_launched).2 = trace ghee_launched ++ evs /\
    List.filter is_setup evs = [].
Proof.
  exact (proj2 (execute_launched_no_setup example_env false ghee_launched
                  (proj1 ghee_launched_state))).
Defined.

Lemma execute_writes_two_paths_witness :
  fs (execute example_env false ghee_with_image).2 !! py "ghee.png" =
  fs ghee_with_image !! py "ghee.png".
Proof.
  apply (execute_writes_two_paths example_env false ghee_with_image (py "ghee.png")).
  - by vm_compute.
  - by vm_compute.
Defined.


Lemma stages_format_None_witness :
  exists o rest,
    trace (create_text_prompt example_env ghee_launched).2 =
    trace ghee_launched ++
    (GenerateContent (GenerativeModel (py "gemini-1.5-flash"))
       (Prompt (fill_prompt (py "None"))), o) :: rest.
Proof.
  destruct ghee_launched_state as (_ & Hpm & Him & Hv2 & _).
  exact (proj1 (stages_format_None example_env ghee_launched _ _ Hpm Him) Hv2).
Defined.

Lemma generate_image_empty_reply_witness :
  exists s',
    generate_image blank_env stale_draft = (inl IndexError, s') /\
    fs s' !! temp_img_path = None.
Proof.
  destruct (generate_image_empty_reply blank_env stale_draft _ {| generated := [] |}
              stale_draft_state eq_refl eq_refl (fun _ => eq_refl))
    as (s' & H & _ & Hfs & _).
  exists s'. split; [exact H |]. rewrite Hfs. apply lookup_delete_eq.
Defined.

Lemma repair_without_draft_witness :
  identify_lags example_env ghee_launched =
  (inl (FileNotFoundError temp_img_path),
   log (PilOpen temp_img_path) (inl (FileNotFoundError temp_img_path))
     ghee_launched).
Proof.
  destruct ghee_launched_state as (_ & Hpm & _ & _ & _ & Hnone).
  exact (proj1 (repair_without_draft example_env ghee_launched _ Hpm Hnone eq_refl)).
Defined.

Lemma load_images_in_order_witness :
  exists paths raws,
    images (self ghee_with_image) = Some paths /\
    Forall2 (fun path raw => fs ghee_with_image !! path = Some raw) paths raws /\
    [{| mode := py "RGB"; pixels := 7 |}] = map (as_rgb example_env) raws.
Proof.
  destruct (load_images_in_order example_env ghee_with_image _ _
              (returned_run _ _ _ ghee_load_returns))
    as (paths & raws & evs & Hp & Hall & Himgs & _).
  exists paths, raws. split; [exact Hp |]. split; [exact Hall | exact Himgs].
Defined.

Lemma load_images_first_missing_witness :
  exists s',
    load_images example_env missing_image =
    (inl (FileNotFoundError (py "missing.png")), s').
Proof.
  destruct missing_image_state as (Hl & Hi & Hghee & Hnone).
  assert (Forall2 (fun path raw => fs missing_image !! path = Some raw)
            [py "ghee.png"] [{| mode := py "RGBA"; pixels := 7 |}]) as Hall.
  { constructor; [exact Hghee | constructor]. }
  destruct (load_images_first_missing example_env missing_image
              [py "ghee.png"] (py "missing.png") []
              [{| mode := py "RGBA"; pixels := 7 |}] Hl Hi Hall Hnone
              (fun _ _ => eq_refl))
    as (s' & H & _).
  exists s'. exact H.
Defined.

Lemma images_not_given_witness :
  exists e,
    load_images example_env ghee_start = (inl e, (__launch example_env ghee_start).2).
Proof.
  destruct (images_not_given example_env ghee_start eq_refl) as (e & H & _).
  exists e. exact H.
Defined.

Lemma images_empty_list_witness :
  load_images example_env no_image_listed = (inr [], no_image_listed).
Proof.
  destruct no_image_listed_state as (Hl & Hpm & Hi).
  exact (proj1 (images_empty_list example_env no_image_listed _ Hl Hpm Hi)).
Defined.

Lemma extract_image_information_request_witness :
  last (stdout (extract_image_information example_env ghee_with_image).2) =
  Some (py "Attached images examined!").
Proof.
  destruct ghee_describe_returns as (info & H).
  destruct (extract_image_information_request example_env ghee_with_image _ _
              (returned_run _ _ _ H))
    as (? & ? & ? & ? & ? & _ & _ & _ & _ & _ & _ & Hlast & _).
  exact Hlast.
Defined.

Lemma execute_call_counts_witness :
  exists evs,
    trace (execute example_env true ghee_with_image).2 =
    trace ghee_with_image ++ evs /\
    count is_request evs = 7%nat /\ count is_edit evs = 2%nat.
Proof.
  destruct (execute_call_counts example_env true ghee_with_image _ _
              (returned_run _ _ _ (ghee_with_image_returns true)))
    as (evs & Htr & _ & Hreq & _ & Hedit & _).
  exists evs. split; [exact Htr |]. split; [exact Hreq | exact Hedit].
Defined.

Lemma execute_text_chain_witness :
  exists v3, text_v3 (self (execute example_env false ghee_start).2) = Some v3.
Proof.
  destruct (execute_text_chain example_env false ghee_start _ _
              (returned_run _ _ _ (ghee_returns false)))
    as (? & ? & ? & ? & ? & ? & ? & ? & ? & ? & ? & v3 & ? & ? & ? & ? & ? & H).
  cbv zeta in H.
  destruct H as (_ & _ & _ & _ & _ & _ & _ & _ & _ & _ & Hv3 & _).
  exists v3. exact Hv3.
Defined.

Lemma execute_image_chain_witness :
  exists i2, fs (execute example_env true ghee_start).2 !! ghee_path = Some i2.
Proof.
  destruct (execute_image_chain example_env true ghee_start _ _
              (returned_run _ _ _ (ghee_returns true)))
    as (? & ? & ? & ? & ? & ? & ? & ? & ? & ? & ? & i2 & ? & ? & ? &
        _ & _ & _ & _ & _ & _ & _ & _ & _ & Hfs & _).
  exists i2. exact Hfs.
Defined.

Lemma execute_console_witness :
  exists info lags1 lags2,
    stdout (execute example_env false ghee_start).2 =
    stdout ghee_start ++
    [py "Model Launch successful!"] ++
    (if nonempty (images (self ghee_start))
     then [py "Attached images examined!"; py "Product insights: " ++ info]
     else []) ++
    [ py "Information collection complete!"; py "Information processed!";
      py "Image v1 generated!"; py "Lags identified: " ++ lags1;
      py "Image v2 generated!" ] ++
    (if false
     then [py "Lags identified: " ++ lags2; py "Image v3 generated!"]
     else []) ++
    [py "Final image saved as: " ++ ghee_path].
Proof.
  exact (execute_console example_env false ghee_start _ _
           (returned_run _ _ _ (ghee_returns false))).
Defined.

Lemma fix_image_single_pass_witness :
  exists i,
    fs (fix_image example_env false ghee_drafted).2 !! ghee_path = Some i /\
    fs (fix_image example_env false ghee_drafted).2 !! temp_img_path = Some i.
Proof.
  destruct (fix_image_single_pass example_env ghee_drafted _ _
              (returned_run _ _ _ (ghee_fix_returns false)))
    as (r & i & rest & _ & _ & Hout & Htemp & _).
  exists i. split; [exact Hout | exact Htemp].
Defined.

Lemma execute_again_witness :
  exists evs,
    trace (execute example_env true ghee_banner).2 = trace ghee_banner ++ evs /\
    List.filter is_setup evs = [].
Proof.
  destruct (execute_again example_env false true ghee_start _ _ _ _
              (returned_run _ _ _ (ghee_returns false))
              (returned_run _ _ _ (ghee_banner_again true)))
    as (_ & _ & _ & _ & evs & Htr & Hsetup & _).
  exists evs. split; [exact Htr | exact Hsetup].
Defined.

Lemma output_filename_clean_topic_witness :
  output_filename (ucd example_env) (py "Diwali Sale on Premium Ghee 1kg Jar") =
  replace 32 95 (py "Diwali Sale on Premium Ghee 1kg Jar") ++ py ".jpg".
Proof.
  refine (proj1 (output_filename_clean_topic (ucd example_env)
                   (py "Diwali Sale on Premium Ghee 1kg Jar") 68 114
                   ghee_topic_clean _ eq_refl eq_refl eq_refl eq_refl)).
  vm_compute. lia.
Defined.

Lemma info_configures_launch_witness :
  exists proj_id api_key s',
    getitem example_config (py "credentials") (py "gcp_project_id") = inr proj_id /\
    getitem example_config (py "credentials") (py "gemini_api_key") = inr api_key /\
    __launch example_env ghee_start = (inr tt, s').
Proof.
  destruct (proj2 (info_configures_launch example_env example_config)
              example_configs ghee_start eq_refl eq_refl eq_refl (fun _ _ => eq_refl))
    as (proj_id & api_key & s' & Hp & Hk & _ & H & _).
  exists proj_id, api_key, s'. split; [exact Hp |]. split; [exact Hk | exact H].
Defined.
